(** * GoFast delivery optimisation service: route engine

    A shallow embedding of [ml_backend/main.py]: the pairwise estimate
    collection, the cost-matrix construction, the adapter around the OR-Tools
    routing solver and the assembly of the response, together with the
    properties of the engine stated in the design document.

    Python's [float] is the only numeric type the engine computes with.  The
    program is written once, over a type [F] of floats and an interface
    [PyFloat F] of the float operations it uses, and the interface has two
    implementations:

    - [Binary64.py_float]: IEEE 754 binary64 with round to nearest even, on
      Rocq's primitive floats.  This is the arithmetic the service runs.
    - [Exact.py_float]: the same special values (NaN and the two infinities)
      around exact rational arithmetic, without rounding.

    The routing provider (Mapbox), the duration predictor and the OR-Tools
    solver are external: they are oracles of the environment [Env], and every
    call to one of them is recorded in an event log. *)

From Stdlib Require Import ZArith QArith Qround String List Bool Lia Lqa.
From Stdlib Require Import Permutation Floats.
Import ListNotations.

Set Warnings "-inexact-float".
Set Implicit Arguments.

Local Open Scope Z_scope.

(* ================================================================== *)
(** ** Python floats *)

(** The float operations of the source.  [f_lt a b] is [a < b], [f_eq a b] is
    [a == b], [f_isnan] is [math.isnan], [f_trunc] is [int(x)] ([None] where
    Python raises: on an infinity or a NaN), [f_of_int] is the conversion an
    [int] operand undergoes when it meets a float, and [f_repr_eqb a b] tells
    whether [a] and [b] are formatted to the same text by an f-string. *)
Class PyFloat (float_t : Type) : Type := {
  f_zero : float_t;
  f_one : float_t;
  f_inf : float_t;
  f_neg_inf : float_t;
  f_of_int : Z -> float_t;
  f_add : float_t -> float_t -> float_t;
  f_mul : float_t -> float_t -> float_t;
  f_div : float_t -> float_t -> float_t;
  f_lt : float_t -> float_t -> bool;
  f_eq : float_t -> float_t -> bool;
  f_isnan : float_t -> bool;
  f_trunc : float_t -> option Z;
  f_repr_eqb : float_t -> float_t -> bool
}.

(** The facts about comparisons that hold in every float arithmetic and that
    the structural properties of the engine rest on.  None is about rounding. *)
Class PyFloatLaws (float_t : Type) (PF : PyFloat float_t) : Prop := {
  repr_eqb_refl : forall x : float_t, f_repr_eqb x x = true;
  inf_eq_inf : f_eq f_inf f_inf = true;
  neg_inf_lt_zero : f_lt f_neg_inf f_zero = true;
  zero_ne_inf : f_eq f_zero f_inf = false;
  zero_not_nan : f_isnan f_zero = false;
  zero_not_lt_zero : f_lt f_zero f_zero = false;
  billion_ne_inf : f_eq (f_of_int 1000000000) f_inf = false;
  billion_not_nan : f_isnan (f_of_int 1000000000) = false;
  billion_not_lt_zero : f_lt (f_of_int 1000000000) f_zero = false;
  lt_nan_r : forall x y : float_t, f_isnan y = true -> f_lt x y = false;
  lt_nan_l : forall x y : float_t, f_isnan x = true -> f_lt x y = false;
  lt_zero_asym : forall x : float_t, f_lt x f_zero = true -> f_lt f_zero x = false;
  lt_lt_zero : forall x y : float_t,
      f_lt x y = true -> f_lt y f_zero = true -> f_lt x f_zero = true
}.

(** *** IEEE 754 binary64 *)

Module Binary64.

(** Two floats print alike exactly when they are the same datum: every NaN
    prints as [nan], and two floats that compare equal print alike unless
    they are the two zeros ([0.0] and [-0.0]). *)
Definition repr_eqb (a b : float) : bool :=
  (PrimFloat.is_nan a && PrimFloat.is_nan b)
  || (PrimFloat.eqb a b && Bool.eqb (PrimFloat.get_sign a) (PrimFloat.get_sign b)).

(** [float(n)] for an [int] below [2^62] in absolute value, where the
    conversion goes through a machine integer. *)
Definition of_int (n : Z) : float :=
  if n <? 0 then PrimFloat.opp (PrimFloat.of_uint63 (Uint63.of_Z (- n)))
  else PrimFloat.of_uint63 (Uint63.of_Z n).

(** [int(x)]: truncation towards zero.  A finite [x] is [r * 2^exp] with
    [0.5 <= |r| < 1], and [|r| * 2^53] is an integer, the mantissa. *)
Definition trunc (x : float) : option Z :=
  if PrimFloat.is_nan x || PrimFloat.is_infinity x then None
  else
    let (r, exp) := Z.frexp x in
    let m := Uint63.to_Z (PrimFloat.normfr_mantissa r) in
    let e := exp - prec in
    let a := if 0 <=? e then m * 2 ^ e else m / 2 ^ (- e) in
    Some (if PrimFloat.get_sign x then - a else a).

(** The sign bit of a float, read off its specification, when the float is
    not a zero. *)
Definition sf_negative (s : spec_float) : bool :=
  match s with
  | S754_infinity true | S754_finite true _ _ => true
  | _ => false
  end.

#[global] Instance py_float : PyFloat float := {|
  f_zero := PrimFloat.zero;
  f_one := PrimFloat.one;
  f_inf := PrimFloat.infinity;
  f_neg_inf := PrimFloat.neg_infinity;
  f_of_int := of_int;
  f_add := PrimFloat.add;
  f_mul := PrimFloat.mul;
  f_div := PrimFloat.div;
  f_lt := PrimFloat.ltb;
  f_eq := PrimFloat.eqb;
  f_isnan := PrimFloat.is_nan;
  f_trunc := trunc;
  f_repr_eqb := repr_eqb
|}.

End Binary64.

(** *** Exact arithmetic with the special values *)

Module Exact.

Inductive xfloat : Type :=
| XFin (q : Q)
| XInf
| XNegInf
| XNaN.

Definition Qsgn (q : Q) : Z := Z.sgn (Qnum q).

Definition xadd (a b : xfloat) : xfloat :=
  match a, b with
  | XNaN, _ | _, XNaN => XNaN
  | XInf, XNegInf | XNegInf, XInf => XNaN
  | XInf, _ | _, XInf => XInf
  | XNegInf, _ | _, XNegInf => XNegInf
  | XFin p, XFin q => XFin (Qred (p + q))
  end.

Definition xinf_signed (s : Z) : xfloat :=
  if s =? 0 then XNaN else if 0 <? s then XInf else XNegInf.

Definition xsgn (a : xfloat) : Z :=
  match a with
  | XFin q => Qsgn q
  | XInf => 1
  | XNegInf => -1
  | XNaN => 0
  end.

Definition xmul (a b : xfloat) : xfloat :=
  match a, b with
  | XNaN, _ | _, XNaN => XNaN
  | XFin p, XFin q => XFin (Qred (p * q))
  | _, _ => xinf_signed (xsgn a * xsgn b)
  end.

(** A finite dividend over a zero divisor is guarded by the caller
    ([py_truediv] below raises there, as Python does). *)
Definition xdiv (a b : xfloat) : xfloat :=
  match a, b with
  | XNaN, _ | _, XNaN => XNaN
  | XFin p, XFin q => if Qeq_bool q 0 then xinf_signed (Qsgn p) else XFin (Qred (p / q))
  | XFin _, _ => XFin 0
  | _, XFin q => xinf_signed (xsgn a * (if Qeq_bool q 0 then 1 else Qsgn q))
  | _, _ => XNaN
  end.

Definition xlt (a b : xfloat) : bool :=
  match a, b with
  | XNaN, _ | _, XNaN => false
  | XFin p, XFin q => negb (Qle_bool q p)
  | XNegInf, XNegInf => false
  | XNegInf, _ => true
  | _, XNegInf => false
  | XInf, _ => false
  | _, XInf => true
  end.

Definition xeq (a b : xfloat) : bool :=
  match a, b with
  | XFin p, XFin q => Qeq_bool p q
  | XInf, XInf | XNegInf, XNegInf => true
  | _, _ => false
  end.

Definition xisnan (a : xfloat) : bool :=
  match a with XNaN => true | _ => false end.

Definition xtrunc (a : xfloat) : option Z :=
  match a with
  | XFin q => Some (Z.quot (Qnum q) (Z.pos (Qden q)))
  | _ => None
  end.

Definition xrepr_eqb (a b : xfloat) : bool :=
  match a, b with
  | XNaN, XNaN => true
  | _, _ => xeq a b
  end.

#[global] Instance py_float : PyFloat xfloat := {|
  f_zero := XFin 0;
  f_one := XFin 1;
  f_inf := XInf;
  f_neg_inf := XNegInf;
  f_of_int := fun n => XFin (inject_Z n);
  f_add := xadd;
  f_mul := xmul;
  f_div := xdiv;
  f_lt := xlt;
  f_eq := xeq;
  f_isnan := xisnan;
  f_trunc := xtrunc;
  f_repr_eqb := xrepr_eqb
|}.



End Exact.

(* ================================================================== *)
(** ** The engine *)

(** What a run can end in: a value, an [HTTPException] raised by the endpoint,
    an exception nothing catches, or (for the solver's decoding loop, which
    Python runs unbounded) exhausted fuel. *)
Inductive outcome (A : Type) : Type :=
| Ok (a : A)
| HTTPException (status_code : Z) (detail : string)
| Uncaught (exn : string)
| OutOfFuel.

Arguments Ok {A} a.
Arguments HTTPException {A} status_code detail.
Arguments Uncaught {A} exn.
Arguments OutOfFuel {A}.

Definition obind {A B} (c : outcome A) (k : A -> outcome B) : outcome B :=
  match c with
  | Ok a => k a
  | HTTPException s d => HTTPException s d
  | Uncaught e => Uncaught e
  | OutOfFuel => OutOfFuel
  end.

Notation "x <~ c ;; k" := (obind c (fun x => k))
  (at level 61, c at next level, right associativity).

Fixpoint omapM {A B} (f : A -> outcome B) (l : list A) : outcome (list B) :=
  match l with
  | [] => Ok []
  | a :: l' => b <~ f a ;; bs <~ omapM f l' ;; Ok (b :: bs)
  end.

(** [l[i]] on a Python list: a negative index counts from the end, an index
    out of range raises [IndexError]. *)
Definition py_getitem {A} (l : list A) (i : Z) : outcome A :=
  let n := Z.of_nat (length l) in
  let k := if i <? 0 then i + n else i in
  if (0 <=? k) && (k <? n) then
    match nth_error l (Z.to_nat k) with
    | Some a => Ok a
    | None => Uncaught "IndexError"
    end
  else Uncaught "IndexError".

(** [d.get(key, default)] on an optional field. *)
Definition dict_get {A} (field : option A) (default : A) : A :=
  match field with Some v => v | None => default end.

(** [enumerate(l)]. *)
Definition enumerate {A} (l : list A) : list (nat * A) :=
  combine (seq 0 (length l)) l.

(** The pairs [(l[i], l[i+1])] for [i] in [range(len(l) - 1)]. *)
Definition consecutive {A} (l : list A) : list (A * A) := combine l (tl l).

Section Engine.

Variable F : Type.
Context {PF : PyFloat F}.

(** The built-ins [min(a, b)] and [max(a, b)]: the first argument is kept
    unless the second compares strictly below (above) it. *)
Definition py_min (a b : F) : F := if f_lt b a then b else a.
Definition py_max (a b : F) : F := if f_lt a b then b else a.

(** [a / b]: [ZeroDivisionError] on a zero divisor. *)
Definition py_truediv (a b : F) : outcome F :=
  if f_eq b f_zero then Uncaught "ZeroDivisionError" else Ok (f_div a b).

(** *** Data model (section 4 of the source) *)

Inductive PointType : Type := current_location | order | warehouse.

Record OrderInput : Type := {
  order_id : string;
  order_latitude : F;
  order_longitude : F;
  order_weight : F
}.

Record RoutePoint : Type := {
  rp_id : option string;
  rp_type : PointType;
  rp_latitude : F;
  rp_longitude : F
}.

Record RouteSegmentDetail : Type := {
  from_point_id : option string;
  to_point_id : option string;
  from_type : PointType;
  to_type : PointType;
  duration_seconds : F;
  distance_meters : F
}.

Record Step : Type := {
  step_instruction : string;
  step_name : string;
  step_distance : F;
  step_duration : F;
  step_type : string;
  step_exit_bearing : option F;
  step_maneuver_modifier : option string;
  step_mode : option string;
  step_intersections : option (list string)
}.

Record Leg : Type := {
  leg_summary : string;
  leg_distance : F;
  leg_duration : F;
  leg_steps : list Step
}.

Record OptimizedRouteResponse : Type := {
  optimized_route : list RoutePoint;
  total_predicted_time_seconds : F;
  total_distance_meters : F;
  message : string;
  segments_details : option (list RouteSegmentDetail);
  full_route_geometry : option string;
  full_route_legs : option (list Leg)
}.

(** [weight_time] and [weight_distance] are declared with [ge=0.0, le=1.0],
    an order's weight with [gt=0]; a request that reaches the endpoint has
    passed these checks. *)
Record OptimizeRouteRequest : Type := {
  orders : list OrderInput;
  warehouse_latitude : option F;
  warehouse_longitude : option F;
  current_latitude : F;
  current_longitude : F;
  weight_time : F;
  weight_distance : F
}.

Definition in_unit_range (w : F) : bool :=
  negb (f_lt w f_zero) && negb (f_lt f_one w) && negb (f_isnan w).

Definition request_valid (request : OptimizeRouteRequest) : bool :=
  in_unit_range (weight_time request) && in_unit_range (weight_distance request)
  && forallb (fun o => f_lt f_zero (order_weight o)) (orders request).

(** An entry of [all_points_details]. *)
Record PointDetail : Type := {
  pd_type : PointType;
  pd_latitude : F;
  pd_longitude : F;
  pd_id : option string;
  pd_weight : option F
}.

(** *** The routing provider's answer: one route of the Directions API *)

Record MapboxManeuver : Type := {
  mv_instruction : option string;
  mv_type : option string;
  mv_exit_bearing : option F;
  mv_modifier : option string
}.

Record MapboxStep : Type := {
  ms_maneuver : option MapboxManeuver;
  ms_name : option string;
  ms_distance : option F;
  ms_duration : option F;
  ms_mode : option string;
  ms_intersections : option (list string)
}.

Record MapboxLeg : Type := {
  ml_summary : option string;
  ml_distance : option F;
  ml_duration : option F;
  ml_steps : option (list MapboxStep)
}.

Record MapboxRoute : Type := {
  mr_distance : option F;
  mr_duration : option F;
  mr_geometry : option string;
  mr_legs : option (list MapboxLeg)
}.

(** The row handed to [DELIVERY_MODEL.predict]. *)
Record Features : Type := {
  senderLat : F;
  senderLng : F;
  receiverLat : F;
  receiverLng : F;
  feature_weight : F;
  order_hour : Z;
  order_day : Z;
  shippingDistance : F
}.

(** *** External collaborators *)

(** What [pywrapcp] fixes once the index manager and the routing model are
    built for [num_nodes] nodes and one vehicle with the given depots. *)
Record Routing : Type := {
  IndexToNode : Z -> Z;
  Start : Z;
  IsEnd : Z -> bool
}.

(** Every oracle takes, first, the number of external calls made before it
    in the run, so that two calls with the same arguments may be answered
    differently (a provider that times out once).
    - [mapbox_api]: the HTTP request of [get_mapbox_route_data] and the
      reading of its answer; [None] when the function returns [None].
    - [DELIVERY_MODEL]: [None] when no model was loaded; the model answers
      [None] when [predict] raises.
    - [SolveWithParameters]: the values of the [NextVar]s of the solution
      found, [None] when OR-Tools finds none. *)
Record Env : Type := {
  mapbox_api : nat -> list (F * F) -> string -> bool -> option MapboxRoute;
  DELIVERY_MODEL : option (nat -> Features -> option F);
  pywrapcp_routing : nat -> Z -> Z -> Routing;
  SolveWithParameters :
    nat -> nat -> Z -> Z -> (Z -> Z -> Z) -> option (Z -> Z);
  WAREHOUSE_COORDS : F * F;
  current_hour : Z;
  current_day : Z
}.

Inductive Event : Type :=
| MapboxCall (coords : list (F * F)) (overview : string) (steps : bool)
| PredictCall (features : Features)
| SolveCall (num_nodes : nat) (start_depot end_depot : Z)
            (scaled_cost_matrix : list (list Z)).

(** A computation reads the log of the external calls made so far and
    returns it extended. *)
Definition M (A : Type) : Type := list Event -> outcome A * list Event.

Definition ret {A} (a : A) : M A := fun log => (Ok a, log).

Definition bind {A B} (c : M A) (k : A -> M B) : M B :=
  fun log =>
    match c log with
    | (Ok a, log') => k a log'
    | (HTTPException s d, log') => (HTTPException s d, log')
    | (Uncaught e, log') => (Uncaught e, log')
    | (OutOfFuel, log') => (OutOfFuel, log')
    end.

Definition lift {A} (o : outcome A) : M A := fun log => (o, log).

Definition raise_http {A} (status_code : Z) (detail : string) : M A :=
  lift (HTTPException status_code detail).

(** An external call: the oracle is asked at the current time and the call
    is logged. *)
Definition call {A} (ev : Event) (oracle : nat -> A) : M A :=
  fun log => (Ok (oracle (length log)), log ++ [ev]).

Notation "x <- c ;; k" := (bind c (fun x => k))
  (at level 61, c at next level, right associativity).

Fixpoint foldM {A S} (body : S -> A -> M S) (l : list A) (s : S) : M S :=
  match l with
  | [] => ret s
  | a :: l' => s' <- body s a ;; foldM body l' s'
  end.

(** *** 5. [get_mapbox_route_data] *)

(** No request is made for an empty coordinate list; otherwise one request,
    whose answer (first route, or [None] on any failure) is the oracle's. *)
Definition get_mapbox_route_data (env : Env) (coords : list (F * F))
    (overview : string) (steps : bool) : M (option MapboxRoute) :=
  match coords with
  | [] => ret None
  | _ => call (MapboxCall coords overview steps)
              (fun t => mapbox_api env t coords overview steps)
  end.

(** *** 6. [solve_tsp_with_ortools] *)

Definition INTEGER_SCALE_FACTOR : Z := 1000.
Definition MAX_ORTOOLS_COST : Z := 1000000000.

(** One entry of [scaled_cost_matrix]:
    [int(min(MAX_ORTOOLS_COST, cost * INTEGER_SCALE_FACTOR)) if cost != inf
     else MAX_ORTOOLS_COST]. *)
Definition scale_cost (cost : F) : outcome Z :=
  if negb (f_eq cost f_inf) then
    let scaled := f_mul cost (f_of_int INTEGER_SCALE_FACTOR) in
    if f_lt scaled (f_of_int MAX_ORTOOLS_COST) then
      match f_trunc scaled with
      | Some z => Ok z
      | None => Uncaught "OverflowError"
      end
    else Ok MAX_ORTOOLS_COST
  else Ok MAX_ORTOOLS_COST.

Definition scale_cost_matrix (cost_matrix : list (list F)) : outcome (list (list Z)) :=
  omapM (omapM scale_cost) cost_matrix.

(** The arc-cost callback registered with the routing model.  It runs inside
    OR-Tools; an index outside the matrix is given cost [0] here. *)
Definition travel_cost_callback (routing : Routing)
    (scaled_cost_matrix : list (list Z)) (from_index to_index : Z) : Z :=
  let from_node := IndexToNode routing from_index in
  let to_node := IndexToNode routing to_index in
  match (row <~ py_getitem scaled_cost_matrix from_node ;; py_getitem row to_node) with
  | Ok c => Z.max 0 c
  | _ => 0
  end.

(** The loop [while not routing.IsEnd(index)] that reads the solution, with
    the append of the end node that follows it.  [fuel] bounds the number of
    times the loop condition is evaluated. *)
Fixpoint decode_solution (fuel : nat) (routing : Routing) (next_var : Z -> Z)
    (cost_matrix : list (list F)) (index : Z)
    (optimized_route_indices : list Z) (total_cost : F) : outcome (list Z * F) :=
  match fuel with
  | O => OutOfFuel
  | S fuel' =>
      if IsEnd routing index then
        Ok (optimized_route_indices ++ [IndexToNode routing index], total_cost)
      else
        let current_node := IndexToNode routing index in
        let next_node_index := next_var index in
        let next_node := IndexToNode routing next_node_index in
        row <~ py_getitem cost_matrix current_node ;;
        c <~ py_getitem row next_node ;;
        decode_solution fuel' routing next_var cost_matrix next_node_index
          (optimized_route_indices ++ [current_node]) (f_add total_cost c)
  end.

(** The result is [None] when OR-Tools finds no solution, and otherwise the
    pair of ["route_indices"] and ["total_cost"]. *)
Definition solve_tsp_with_ortools (fuel : nat) (env : Env)
    (cost_matrix : list (list F)) (num_nodes : nat)
    (start_depot_index end_depot_index : Z) : M (option (list Z * F)) :=
  let routing := pywrapcp_routing env num_nodes start_depot_index end_depot_index in
  scaled_cost_matrix <- lift (scale_cost_matrix cost_matrix) ;;
  solution <- call (SolveCall num_nodes start_depot_index end_depot_index scaled_cost_matrix)
                (fun t => SolveWithParameters env t num_nodes start_depot_index
                            end_depot_index
                            (travel_cost_callback routing scaled_cost_matrix)) ;;
  match solution with
  | None => ret None
  | Some next_var =>
      r <- lift (decode_solution fuel routing next_var cost_matrix
                   (Start routing) [] f_zero) ;;
      ret (Some r)
  end.

(** *** 7.1 The point list *)

Definition warehouse_lat (env : Env) (request : OptimizeRouteRequest) : F :=
  dict_get (warehouse_latitude request) (fst (WAREHOUSE_COORDS env)).

Definition warehouse_lon (env : Env) (request : OptimizeRouteRequest) : F :=
  dict_get (warehouse_longitude request) (snd (WAREHOUSE_COORDS env)).

Definition current_location_point (request : OptimizeRouteRequest) : PointDetail :=
  {| pd_type := current_location;
     pd_latitude := current_latitude request;
     pd_longitude := current_longitude request;
     pd_id := Some "current_location_0"%string;
     pd_weight := None |}.

Definition order_point (o : OrderInput) : PointDetail :=
  {| pd_type := order;
     pd_latitude := order_latitude o;
     pd_longitude := order_longitude o;
     pd_id := Some (order_id o);
     pd_weight := Some (order_weight o) |}.

Definition warehouse_point (env : Env) (request : OptimizeRouteRequest) : PointDetail :=
  {| pd_type := warehouse;
     pd_latitude := warehouse_lat env request;
     pd_longitude := warehouse_lon env request;
     pd_id := Some "warehouse_final"%string;
     pd_weight := None |}.

Definition all_points_details (env : Env) (request : OptimizeRouteRequest)
  : list PointDetail :=
  [current_location_point request]
  ++ map order_point (orders request)
  ++ [warehouse_point env request].

Definition to_route_point (point_detail : PointDetail) : RoutePoint :=
  {| rp_id := pd_id point_detail;
     rp_type := pd_type point_detail;
     rp_latitude := pd_latitude point_detail;
     rp_longitude := pd_longitude point_detail |}.

(** *** 7.2 Pass 1: the estimate cache *)

(** The cache key is the text [f"{start_lon},{start_lat}-{end_lon},{end_lat}"].
    A float's text holds no comma, and a minus sign in it stands first or
    right after the exponent's [e], so the text determines the four numbers'
    texts: two keys are equal exactly when the four components print alike. *)
Definition CacheKey : Type := (F * F * F * F)%type.

Definition cache_key (p q : PointDetail) : CacheKey :=
  (pd_longitude p, pd_latitude p, pd_longitude q, pd_latitude q).

Definition key_eqb (k1 k2 : CacheKey) : bool :=
  let '(a1, b1, c1, d1) := k1 in
  let '(a2, b2, c2, d2) := k2 in
  f_repr_eqb a1 a2 && f_repr_eqb b1 b2 && f_repr_eqb c1 c2 && f_repr_eqb d1 d2.

Record SegmentData : Type := {
  seg_distance : F;
  seg_duration : F;
  seg_mapbox_raw : option MapboxRoute
}.

(** [all_segments_data_cache]: a dict, as the list of its assignments, latest
    first; a lookup finds the latest assignment to the key. *)
Definition Cache : Type := list (CacheKey * SegmentData).

Fixpoint cache_get (cache : Cache) (k : CacheKey) : option SegmentData :=
  match cache with
  | [] => None
  | (k', v) :: rest => if key_eqb k' k then Some v else cache_get rest k
  end.

Definition cache_set (cache : Cache) (k : CacheKey) (v : SegmentData) : Cache :=
  (k, v) :: cache.

Definition SENTINEL : Z := 1000000000.

(** Lines 336-339: an infinite, NaN or negative value becomes the sentinel. *)
Definition needs_sentinel (x : F) : bool :=
  f_eq x f_inf || f_isnan x || f_lt x f_zero.

Definition sanitize (x : F) : F :=
  if needs_sentinel x then f_of_int SENTINEL else x.

(** Lines 326-329: [max(0.0, min(ml_predicted_duration, mapbox_duration))]. *)
Definition resolve_duration (ml_predicted_duration mapbox_duration : F) : F :=
  py_max f_zero (py_min ml_predicted_duration mapbox_duration).

Definition make_features (env : Env) (p q : PointDetail) (shipping_distance : F)
  : Features :=
  {| senderLat := pd_latitude p;
     senderLng := pd_longitude p;
     receiverLat := pd_latitude q;
     receiverLng := pd_longitude q;
     feature_weight :=
       match pd_type q with
       | order => dict_get (pd_weight q) f_zero
       | _ => f_zero
       end;
     order_hour := current_hour env;
     order_day := current_day env;
     shippingDistance := shipping_distance |}.

(** Lines 309-332: the duration before sanitization. *)
Definition predict_duration (env : Env) (p q : PointDetail)
    (shipping_distance mapbox_duration : F) : M F :=
  match DELIVERY_MODEL env with
  | None => ret mapbox_duration
  | Some model =>
      let features := make_features env p q shipping_distance in
      prediction <- call (PredictCall features) (fun t => model t features) ;;
      match prediction with
      | Some ml_predicted_duration =>
          ret (resolve_duration ml_predicted_duration mapbox_duration)
      | None => ret mapbox_duration
      end
  end.

(** Lines 306-307: what the provider reported, [inf] when it reported
    nothing. *)
Definition provider_distance (mapbox_data : option MapboxRoute) : F :=
  match mapbox_data with
  | Some d => dict_get (mr_distance d) f_inf
  | None => f_inf
  end.

Definition provider_duration (mapbox_data : option MapboxRoute) : F :=
  match mapbox_data with
  | Some d => dict_get (mr_duration d) f_inf
  | None => f_inf
  end.

Definition pair_coords (p q : PointDetail) : list (F * F) :=
  [(pd_longitude p, pd_latitude p); (pd_longitude q, pd_latitude q)].

(** Lines 299-345 for one ordered pair: the provider call, the prediction,
    the sanitization; the result is what is stored under the pair's key. *)
Definition estimate_pair (env : Env) (p q : PointDetail) : M SegmentData :=
  mapbox_data <- get_mapbox_route_data env (pair_coords p q) "simplified" false ;;
  let shipping_distance := provider_distance mapbox_data in
  let mapbox_duration := provider_duration mapbox_data in
  predicted_duration <- predict_duration env p q shipping_distance mapbox_duration ;;
  ret {| seg_distance := sanitize shipping_distance;
         seg_duration := sanitize predicted_duration;
         seg_mapbox_raw := mapbox_data |}.

(** The state of pass 1: the cache and the two running maxima. *)
Record Collected : Type := {
  all_segments_data_cache : Cache;
  max_duration_for_normalization : F;
  max_distance_for_normalization : F
}.

(** The pairs [(i, j)] in the order of the two nested [for] loops, each index
    with the point it denotes. *)
Definition index_pairs (points : list PointDetail)
  : list ((nat * PointDetail) * (nat * PointDetail)) :=
  flat_map (fun ip => map (fun jp => (ip, jp)) (enumerate points)) (enumerate points).

(** Lines 341-348: the estimate is stored under the pair's key and the two
    maxima are updated. *)
Definition record_estimate (st : Collected) (p q : PointDetail)
    (seg : SegmentData) : Collected :=
  {| all_segments_data_cache :=
       cache_set (all_segments_data_cache st) (cache_key p q) seg;
     max_duration_for_normalization :=
       py_max (max_duration_for_normalization st) (seg_duration seg);
     max_distance_for_normalization :=
       py_max (max_distance_for_normalization st) (seg_distance seg) |}.

Definition collect_step (env : Env) (st : Collected)
    (ij : (nat * PointDetail) * (nat * PointDetail)) : M Collected :=
  let '((i, p), (j, q)) := ij in
  if Nat.eqb i j then ret st
  else
    seg <- estimate_pair env p q ;;
    ret (record_estimate st p q seg).

Definition collect_estimates (env : Env) (points : list PointDetail) : M Collected :=
  foldM (collect_step env) (index_pairs points)
    {| all_segments_data_cache := [];
       max_duration_for_normalization := f_zero;
       max_distance_for_normalization := f_zero |}.

(** *** 7.2 Pass 2: the cost matrix *)

(** Lines 272-278, after the zero check: the two weights over their sum. *)
Definition normalize_weights (request : OptimizeRouteRequest) : outcome (F * F) :=
  let total_weights := f_add (weight_time request) (weight_distance request) in
  normalized_weight_time <~ py_truediv (weight_time request) total_weights ;;
  normalized_weight_distance <~ py_truediv (weight_distance request) total_weights ;;
  Ok (normalized_weight_time, normalized_weight_distance).

(** Lines 374-379. *)
Definition combined_cost (normalized_weight_time normalized_weight_distance
    max_duration max_distance : F) (segment_data : SegmentData) : outcome F :=
  normalized_distance <~ py_truediv (seg_distance segment_data) max_distance ;;
  normalized_duration <~ py_truediv (seg_duration segment_data) max_duration ;;
  Ok (f_add (f_mul normalized_weight_time normalized_duration)
            (f_mul normalized_weight_distance normalized_distance)).

(** [cost_matrix[i][j]] as pass 2 leaves it. *)
Definition cost_entry (cache : Cache)
    (normalized_weight_time normalized_weight_distance max_duration max_distance : F)
    (ip jp : nat * PointDetail) : outcome F :=
  let '(i, p) := ip in
  let '(j, q) := jp in
  if Nat.eqb i j then Ok f_zero
  else
    match cache_get cache (cache_key p q) with
    | Some segment_data =>
        combined_cost normalized_weight_time normalized_weight_distance
          max_duration max_distance segment_data
    | None => Ok f_inf
    end.

Definition build_cost_matrix (points : list PointDetail) (cache : Cache)
    (normalized_weight_time normalized_weight_distance max_duration max_distance : F)
  : outcome (list (list F)) :=
  omapM (fun ip =>
           omapM (cost_entry cache normalized_weight_time normalized_weight_distance
                    max_duration max_distance ip)
                 (enumerate points))
        (enumerate points).

(** *** 7.4 The response *)

(** Line 410: the solver's route is rejected when it is empty, does not start
    at the depot or does not end at the warehouse. *)
Definition route_rejected (route_indices : list Z)
    (depot_index warehouse_node_index : Z) : bool :=
  match route_indices with
  | [] => true
  | first :: _ =>
      negb (first =? depot_index)
      || negb (last route_indices first =? warehouse_node_index)
  end.

(** Line 413: [[depot_index] + list(range(1, num_points - 1)) + [warehouse_node_index]]. *)
Definition fallback_route (num_points : nat) : list Z :=
  [0] ++ map Z.of_nat (seq 1 (num_points - 1 - 1)) ++ [Z.of_nat num_points - 1].

Definition checked_route (num_points : nat) (route_indices : list Z) : list Z :=
  if route_rejected route_indices 0 (Z.of_nat num_points - 1)
  then fallback_route num_points
  else route_indices.

(** Lines 417-428: the points of the route; an index outside the point list
    is skipped. *)
Definition point_at (points : list PointDetail) (idx : Z) : list PointDetail :=
  if (0 <=? idx) && (idx <? Z.of_nat (length points)) then
    match nth_error points (Z.to_nat idx) with
    | Some point_detail => [point_detail]
    | None => []
    end
  else [].

Definition route_point_details (points : list PointDetail) (route_indices : list Z)
  : list PointDetail :=
  flat_map (point_at points) route_indices.

Definition convert_step (step_data : MapboxStep) : Step :=
  let maneuver :=
    dict_get (ms_maneuver step_data)
      {| mv_instruction := None; mv_type := None;
         mv_exit_bearing := None; mv_modifier := None |} in
  {| step_instruction := dict_get (mv_instruction maneuver) ""%string;
     step_name := dict_get (ms_name step_data) ""%string;
     step_distance := dict_get (ms_distance step_data) f_zero;
     step_duration := dict_get (ms_duration step_data) f_zero;
     step_type := dict_get (mv_type maneuver) ""%string;
     step_exit_bearing := mv_exit_bearing maneuver;
     step_maneuver_modifier := mv_modifier maneuver;
     step_mode := ms_mode step_data;
     step_intersections := ms_intersections step_data |}.

Definition convert_leg (leg_data : MapboxLeg) : Leg :=
  {| leg_summary := dict_get (ml_summary leg_data) ""%string;
     leg_distance := dict_get (ml_distance leg_data) f_zero;
     leg_duration := dict_get (ml_duration leg_data) f_zero;
     leg_steps := map convert_step (dict_get (ml_steps leg_data) []) |}.

(** Lines 430-467: one more provider call, for the geometry and the legs of
    the whole route, when the route has more than one point. *)
Definition fetch_full_route (env : Env) (coords : list (F * F))
  : M (option string * option (list Leg)) :=
  if (1 <? length coords)%nat then
    full_route_mapbox_data <- get_mapbox_route_data env coords "full" true ;;
    match full_route_mapbox_data with
    | Some d => ret (mr_geometry d, option_map (map convert_leg) (mr_legs d))
    | None => ret (None, None)
    end
  else ret (None, None).

Record Totals : Type := {
  actual_total_predicted_time_seconds : F;
  actual_total_distance_meters : F;
  segments_details_list : list RouteSegmentDetail
}.

Definition make_segment (from_point to_point : PointDetail) (duration distance : F)
  : RouteSegmentDetail :=
  {| from_point_id := pd_id from_point;
     to_point_id := pd_id to_point;
     from_type := pd_type from_point;
     to_type := pd_type to_point;
     duration_seconds := duration;
     distance_meters := distance |}.

(** Lines 471-504 for one pair of consecutive route indices. *)
Definition segment_step (points : list PointDetail) (cache : Cache)
    (st : Totals) (from_to : Z * Z) : outcome Totals :=
  let '(from_idx, to_idx) := from_to in
  from_point <~ py_getitem points from_idx ;;
  to_point <~ py_getitem points to_idx ;;
  let usable :=
    match cache_get cache (cache_key from_point to_point) with
    | Some segment_data =>
        if negb (f_eq (seg_distance segment_data) f_inf)
           && negb (f_eq (seg_duration segment_data) f_inf)
        then Some segment_data else None
    | None => None
    end in
  match usable with
  | Some segment_data =>
      Ok {| actual_total_predicted_time_seconds :=
              f_add (actual_total_predicted_time_seconds st) (seg_duration segment_data);
            actual_total_distance_meters :=
              f_add (actual_total_distance_meters st) (seg_distance segment_data);
            segments_details_list :=
              segments_details_list st
              ++ [make_segment from_point to_point
                    (seg_duration segment_data) (seg_distance segment_data)] |}
  | None =>
      Ok {| actual_total_predicted_time_seconds := actual_total_predicted_time_seconds st;
            actual_total_distance_meters := actual_total_distance_meters st;
            segments_details_list :=
              segments_details_list st
              ++ [make_segment from_point to_point f_inf f_inf] |}
  end.

Fixpoint ofoldM {A S} (body : S -> A -> outcome S) (l : list A) (s : S) : outcome S :=
  match l with
  | [] => Ok s
  | a :: l' => s' <~ body s a ;; ofoldM body l' s'
  end.

Definition compute_totals (points : list PointDetail) (cache : Cache)
    (route_indices : list Z) : outcome Totals :=
  ofoldM (segment_step points cache) (consecutive route_indices)
    {| actual_total_predicted_time_seconds := f_zero;
       actual_total_distance_meters := f_zero;
       segments_details_list := [] |}.

(** Section 7.4 as a whole, from the solver's ["route_indices"]. *)
Definition assemble_response (env : Env) (points : list PointDetail) (cache : Cache)
    (solver_route : list Z) : M OptimizedRouteResponse :=
  let optimized_route_indices := checked_route (length points) solver_route in
  let visited := route_point_details points optimized_route_indices in
  let full_route_coords_for_mapbox :=
    map (fun pd => (pd_longitude pd, pd_latitude pd)) visited in
  full <- fetch_full_route env full_route_coords_for_mapbox ;;
  totals <- lift (compute_totals points cache optimized_route_indices) ;;
  ret {| optimized_route := map to_route_point visited;
         total_predicted_time_seconds := actual_total_predicted_time_seconds totals;
         total_distance_meters := actual_total_distance_meters totals;
         message := "Route optimized successfully.";
         segments_details := Some (segments_details_list totals);
         full_route_geometry := fst full;
         full_route_legs := snd full |}.

(** The response of the early return at lines 258-265. *)
Definition direct_response (env : Env) (request : OptimizeRouteRequest)
  : OptimizedRouteResponse :=
  {| optimized_route :=
       [ {| rp_id := None; rp_type := current_location;
            rp_latitude := current_latitude request;
            rp_longitude := current_longitude request |};
         {| rp_id := None; rp_type := warehouse;
            rp_latitude := warehouse_lat env request;
            rp_longitude := warehouse_lon env request |} ];
     total_predicted_time_seconds := f_zero;
     total_distance_meters := f_zero;
     message := "No orders provided or only current location and warehouse. Returning direct route to warehouse.";
     segments_details := None;
     full_route_geometry := None;
     full_route_legs := None |}.

(** Section 7.2 after the two guards: the normalized weights, pass 1 and
    pass 2.  The result is the cache and the cost matrix. *)
Definition prepare_cost_matrix (env : Env) (request : OptimizeRouteRequest)
  : M (Cache * list (list F)) :=
  let points := all_points_details env request in
  weights <- lift (normalize_weights request) ;;
  collected <- collect_estimates env points ;;
  let max_duration := py_max f_one (max_duration_for_normalization collected) in
  let max_distance := py_max f_one (max_distance_for_normalization collected) in
  cost_matrix <- lift (build_cost_matrix points (all_segments_data_cache collected)
                         (fst weights) (snd weights) max_duration max_distance) ;;
  ret (all_segments_data_cache collected, cost_matrix).

(** Sections 7.2 and 7.3: the cache and what [solve_tsp_with_ortools]
    returned on the cost matrix. *)
Definition plan_route (fuel : nat) (env : Env) (request : OptimizeRouteRequest)
  : M (Cache * option (list Z * F)) :=
  let num_points := length (all_points_details env request) in
  prepared <- prepare_cost_matrix env request ;;
  ortools_result <- solve_tsp_with_ortools fuel env (snd prepared) num_points
                      0 (Z.of_nat num_points - 1) ;;
  ret (fst prepared, ortools_result).

(** *** 7. The endpoint [POST /optimize_delivery_route/] *)

Definition optimize_delivery_route (fuel : nat) (env : Env)
    (request : OptimizeRouteRequest) : M OptimizedRouteResponse :=
  let points := all_points_details env request in
  let num_points := length points in
  if (num_points <=? 1)%nat then ret (direct_response env request)
  else
    let total_weights := f_add (weight_time request) (weight_distance request) in
    if f_eq total_weights f_zero then
      raise_http 400 "Total weights for time and distance cannot be zero."
    else
      planned <- plan_route fuel env request ;;
      match snd planned with
      | None => raise_http 500 "Failed to find an optimal route with OR-Tools."
      | Some (route_indices, _) =>
          assemble_response env points (fst planned) route_indices
      end.

End Engine.

Arguments SolveCall {F} num_nodes start_depot end_depot scaled_cost_matrix.
Arguments ret {F A} a.
Arguments lift {F A} o.
Arguments raise_http {F A} status_code detail.
Arguments to_route_point {F} point_detail.
Arguments order_point {F} o.
Arguments rp_id {F} r.

(* ================================================================== *)
(** ** Vocabulary of the properties *)

Section Vocabulary.

Variable F : Type.
Context {PF : PyFloat F}.

(** A value that is neither infinite, nor NaN, nor negative. *)
Definition clean (x : F) : Prop :=
  f_eq x f_inf = false /\ f_isnan x = false /\ f_lt x f_zero = false
  /\ x <> f_inf /\ x <> f_neg_inf.


(** The sum of the entries of the float cost matrix over the consecutive
    pairs of a route. *)
Definition path_cost (cost_matrix : list (list F)) (route : list Z)
  : outcome F :=
  ofoldM (fun acc ab =>
            row <~ py_getitem cost_matrix (fst ab) ;;
            c <~ py_getitem row (snd ab) ;;
            Ok (f_add acc c))
         (consecutive route) f_zero.

(** The node indices [0 .. n-1]. *)
Definition node_ids (n : nat) : list Z := map Z.of_nat (seq 0 n).


(** The solution read by [decode_solution] leads from [index] to an end index
    in [steps] moves through nodes of the matrix. *)
Fixpoint reaches_end (routing : Routing) (next_var : Z -> Z) (n : Z)
    (index : Z) (steps : nat) : Prop :=
  0 <= IndexToNode routing index < n /\
  match steps with
  | O => IsEnd routing index = true
  | S k => IsEnd routing index = false
           /\ reaches_end routing next_var n (next_var index) k
  end.

(** The provider's answer to the request that pass 1 makes for the pair
    [(p, q)] when [log] holds the external calls made so far. *)
Definition provider_answer (env : Env F) (p q : PointDetail F)
    (log : list (Event F)) : option (MapboxRoute F) :=
  mapbox_api env (length log) (pair_coords p q) "simplified"%string false.

(** The predictor's answer for that pair: it is asked right after the
    provider, with the provider's distance among the features. *)
Definition predictor_answer (env : Env F)
    (model : nat -> Features F -> option F) (p q : PointDetail F)
    (log : list (Event F)) : option F :=
  model (S (length log))
    (make_features env p q (provider_distance (provider_answer env p q log))).

(** The duration of the pair before sanitization. *)
Definition resolved_duration (env : Env F) (p q : PointDetail F)
    (log : list (Event F)) : F :=
  let mapbox_duration := provider_duration (provider_answer env p q log) in
  match DELIVERY_MODEL env with
  | None => mapbox_duration
  | Some model =>
      match predictor_answer env model p q log with
      | Some ml_predicted_duration =>
          resolve_duration ml_predicted_duration mapbox_duration
      | None => mapbox_duration
      end
  end.

(** What pass 1 stores for the pair. *)
Definition estimate_of (env : Env F) (p q : PointDetail F)
    (log : list (Event F)) : SegmentData F :=
  {| seg_distance := sanitize (provider_distance (provider_answer env p q log));
     seg_duration := sanitize (resolved_duration env p q log);
     seg_mapbox_raw := provider_answer env p q log |}.

End Vocabulary.

(* ================================================================== *)
(** ** Scenarios: concrete collaborators and requests *)

Section Scenarios.

Variable F : Type.
Context {PF : PyFloat F}.

(** An index manager whose indices are the nodes, and the solution that
    visits the nodes in increasing order. *)
Definition chain_routing (n : nat) (start_depot end_depot : Z) : Routing :=
  {| IndexToNode := fun i => i;
     Start := start_depot;
     IsEnd := fun i => i =? end_depot |}.

Definition chain_solution : Z -> Z := fun i => i + 1.

Definition steady_route (d t : F) : (MapboxRoute F) :=
  {| mr_distance := Some d; mr_duration := Some t;
     mr_geometry := Some "polyline"%string; mr_legs := None |}.

(** A provider that answers every request with the same distance and
    duration. *)
Definition env_steady (d t : F)
    (model : option (nat -> Features F -> option F)) : Env F :=
  {| mapbox_api := fun _ _ _ _ => Some (steady_route d t);
     DELIVERY_MODEL := model;
     pywrapcp_routing := chain_routing;
     SolveWithParameters := fun _ _ _ _ _ => Some chain_solution;
     WAREHOUSE_COORDS := (f_of_int 10, f_of_int 106);
     current_hour := 9;
     current_day := 2 |}.

(** A provider outage: every request fails. *)
Definition env_outage (model : option (nat -> Features F -> option F)) : Env F :=
  {| mapbox_api := fun _ _ _ _ => None;
     DELIVERY_MODEL := model;
     pywrapcp_routing := chain_routing;
     SolveWithParameters := fun _ _ _ _ _ => Some chain_solution;
     WAREHOUSE_COORDS := (f_of_int 10, f_of_int 106);
     current_hour := 9;
     current_day := 2 |}.

Definition constant_model (v : F) : option (nat -> Features F -> option F) :=
  Some (fun _ _ => Some v).

Definition order_A : (OrderInput F) :=
  {| order_id := "A"%string; order_latitude := f_of_int 12;
     order_longitude := f_of_int 108; order_weight := f_one |}.

Definition order_B : (OrderInput F) :=
  {| order_id := "B"%string; order_latitude := f_of_int 13;
     order_longitude := f_of_int 109; order_weight := f_one |}.

Definition request_with (os : list (OrderInput F)) (wt wd : F)
  : (OptimizeRouteRequest F) :=
  {| orders := os;
     warehouse_latitude := None;
     warehouse_longitude := None;
     current_latitude := f_of_int 11;
     current_longitude := f_of_int 107;
     weight_time := wt;
     weight_distance := wd |}.

End Scenarios.

Arguments order_A {F PF}.
Arguments order_B {F PF}.

(** The weights one half and one half, and 0.03 and 0.29, in both
    arithmetics. *)
Definition b64_half : float := 0.5%float.
Definition b64_003 : float := 0.03%float.
Definition b64_029 : float := 0.29%float.
Definition x_half : Exact.xfloat := Exact.XFin (1 # 2).

(** The scenarios in binary64. *)
Definition b64_steady : Env float :=
  env_steady 100%float 60%float None.

Definition b64_request (os : list (OrderInput float)) (wt wd : float)
  : OptimizeRouteRequest float :=
  request_with os wt wd.

Definition b64_two_orders : OptimizeRouteRequest float :=
  b64_request [order_A; order_B]
    b64_half b64_half.

Definition b64_no_orders : OptimizeRouteRequest float :=
  b64_request [] b64_half b64_half.

(** Weights 0.03 and 0.29, no order: the two pairs of points have the same
    distance and the same duration. *)
Definition b64_skewed_weights : OptimizeRouteRequest float :=
  b64_request [] b64_003 b64_029.

Definition b64_one_order : OptimizeRouteRequest float :=
  b64_request [order_A] b64_half b64_half.

(** A provider outage, without a predictor and with one that predicts 50
    seconds for every pair. *)
Definition b64_outage : Env float := env_outage None.


(** A provider that answers 100 metres and 60 seconds, and a predictor that
    answers -5, or NaN. *)
Definition b64_predicting_negative : Env float :=
  env_steady 100%float 60%float (constant_model (-5)%float).

Definition b64_predicting_nan : Env float :=
  env_steady 100%float 60%float (constant_model PrimFloat.nan).

(** The first two points of [b64_one_order]. *)
Definition b64_here : PointDetail float := current_location_point b64_one_order.
Definition b64_there : PointDetail float := order_point order_A.

(** A pure computation, and a computation, that raises no [HTTPException]. *)
Definition pure_no_http (A : Type) (o : outcome A) : Prop :=
  forall s d, o <> HTTPException s d.

Definition no_http (F A : Type) (c : M F A) : Prop :=
  forall log s d log', c log <> (HTTPException s d, log').

(** Bounds in exact arithmetic. *)
Module ExactBounds.

Import Exact.



End ExactBounds.


Definition x_one_order : OptimizeRouteRequest Exact.xfloat :=
  request_with [order_A] x_half x_half.

(* ================================================================== *)
(** ** The external calls of a run *)

Section CallAccounting.

Variable F : Type.
Context {PF : PyFloat F}.

Definition is_provider_request (ev : Event F) : bool :=
  match ev with MapboxCall _ _ _ => true | _ => false end.

Definition is_prediction (ev : Event F) : bool :=
  match ev with PredictCall _ => true | _ => false end.

Definition is_solver_run (ev : Event F) : bool :=
  match ev with SolveCall _ _ _ _ => true | _ => false end.

(** How many events of a kind a log holds. *)
Definition count_calls (kind : Event F -> bool) (log : list (Event F)) : nat :=
  length (filter kind log).

(** The external calls pass 1 makes for the pair [(p, q)] when [log] holds
    the calls made so far: the provider request and, when a predictor is
    loaded, the prediction. *)
Definition pair_events (env : Env F) (p q : PointDetail F) (log : list (Event F))
  : list (Event F) :=
  MapboxCall (pair_coords p q) "simplified" false
  :: match DELIVERY_MODEL env with
     | Some _ =>
         [PredictCall
            (make_features env p q (provider_distance (provider_answer env p q log)))]
     | None => []
     end.

(** The number of predictions made for one pair: one when a predictor is
    loaded. *)
Definition predictions_per_pair (env : Env F) : nat :=
  match DELIVERY_MODEL env with Some _ => 1%nat | None => 0%nat end.

(** The pairs of pass 1 that are not skipped by [if i == j: continue]. *)
Definition off_diagonal (ij : (nat * PointDetail F) * (nat * PointDetail F)) : bool :=
  negb (Nat.eqb (fst (fst ij)) (fst (snd ij))).

(** The coordinates of a route point, as the full-route request lists
    them: longitude first. *)
Definition route_point_coords (r : RoutePoint F) : F * F :=
  (rp_longitude r, rp_latitude r).

End CallAccounting.
(** A provider that answers, and a solver that finds no solution. *)
Definition b64_no_solution : Env float :=
  {| mapbox_api := fun _ _ _ _ => Some (steady_route 100%float 60%float);
     DELIVERY_MODEL := None;
     pywrapcp_routing := chain_routing;
     SolveWithParameters := fun _ _ _ _ _ => None;
     WAREHOUSE_COORDS := (f_of_int 10, f_of_int 106);
     current_hour := 9;
     current_day := 2 |}.

(** A provider that answers, and a predictor that answers 50 seconds. *)
Definition b64_predicting : Env float :=
  env_steady 100%float 60%float (constant_model 50%float).
(** What a response shows of a route point and of the two ends of a
    segment: the id and the type. *)
Definition point_label (F : Type) (r : RoutePoint F) : option string * PointType :=
  (rp_id r, rp_type r).

Definition segment_ends (F : Type) (s : RouteSegmentDetail F)
  : (option string * PointType) * (option string * PointType) :=
  ((from_point_id s, from_type s), (to_point_id s, to_type s)).
(* ================================================================== *)
(** ** Requests for the same stops *)

Section SameStops.

Variable F : Type.
Context {PF : PyFloat F}.

(** Two orders at the same place.  Their ids may differ, and so may their
    weights when no predictor is loaded. *)
Definition same_order (env : Env F) (o1 o2 : OrderInput F) : Prop :=
  order_latitude o1 = order_latitude o2
  /\ order_longitude o1 = order_longitude o2
  /\ (DELIVERY_MODEL env <> None -> order_weight o1 = order_weight o2).

(** Two requests that differ at most in the ids of their orders (and in
    their weights when no predictor is loaded). *)
Definition same_stops (env : Env F) (r1 r2 : OptimizeRouteRequest F) : Prop :=
  Forall2 (same_order env) (orders r1) (orders r2)
  /\ warehouse_latitude r1 = warehouse_latitude r2
  /\ warehouse_longitude r1 = warehouse_longitude r2
  /\ current_latitude r1 = current_latitude r2
  /\ current_longitude r1 = current_longitude r2
  /\ weight_time r1 = weight_time r2
  /\ weight_distance r1 = weight_distance r2.

(** Two entries of the point list that the engine cannot tell apart before
    it writes the response. *)
Definition same_point (env : Env F) (p1 p2 : PointDetail F) : Prop :=
  pd_type p1 = pd_type p2
  /\ pd_latitude p1 = pd_latitude p2
  /\ pd_longitude p1 = pd_longitude p2
  /\ (DELIVERY_MODEL env <> None -> pd_weight p1 = pd_weight p2).

(** The two metrics of a segment. *)
Definition segment_metrics (s : RouteSegmentDetail F) : F * F :=
  (duration_seconds s, distance_meters s).

(** Two states of the segment loop with the same totals and the same
    metrics, segment by segment. *)
Definition same_totals (t1 t2 : Totals F) : Prop :=
  actual_total_predicted_time_seconds t1 = actual_total_predicted_time_seconds t2
  /\ actual_total_distance_meters t1 = actual_total_distance_meters t2
  /\ map segment_metrics (segments_details_list t1)
     = map segment_metrics (segments_details_list t2).

End SameStops.

(** The request [b64_two_orders] with other ids and other weights. *)
Definition b64_two_orders_renamed : OptimizeRouteRequest float :=
  b64_request
    [ {| order_id := "first"%string; order_latitude := 12%float;
         order_longitude := 108%float; order_weight := 7%float |};
      {| order_id := "second"%string; order_latitude := 13%float;
         order_longitude := 109%float; order_weight := 3%float |} ]
    b64_half b64_half.
(** The index that a solution reaches after [k] moves from the start of the
    vehicle: [solution.Value(routing.NextVar(...))] applied [k] times to
    [routing.Start(0)]. *)
Definition index_after (routing : Routing) (next_var : Z -> Z) (k : nat) : Z :=
  Nat.iter k next_var (Start routing).
(** The provider request that pass 1 makes for a pair of the two nested
    loops. *)
Definition pair_request (F : Type)
    (ij : (nat * PointDetail F) * (nat * PointDetail F)) : Event F :=
  MapboxCall (pair_coords (snd (fst ij)) (snd (snd ij))) "simplified" false.
(* ================================================================== *)
(** ** Below the provider oracle: the HTTP request and its answer *)

(** The oracle [mapbox_api] of the engine stands for lines 140-165 of
    [get_mapbox_route_data]: the URL and the parameters, the request made
    through [requests], and the reading of the JSON answer.  They are
    modelled here, with [requests] taken as given, to state which failures
    the function turns into [None]. *)

(** The classes of exception that the [except] clauses of lines 157-164
    tell apart: [requests.exceptions.Timeout] is a [RequestException], which
    is an [Exception]; an exception that is not an [Exception]
    ([KeyboardInterrupt], [SystemExit]) is caught by none of them. *)
Inductive ExceptionClass : Type :=
| TimeoutClass
| RequestExceptionClass
| ExceptionClass_
| BaseExceptionClass.

(** What a call of library code comes to: a value, or an exception of a
    class, with its name. *)
Inductive attempt (A : Type) : Type :=
| Returned (a : A)
| Raised (c : ExceptionClass) (name : string).

Arguments Returned {A} a.
Arguments Raised {A} c name.

Definition abind {A B} (c : attempt A) (k : A -> attempt B) : attempt B :=
  match c with
  | Returned a => k a
  | Raised cl name => Raised cl name
  end.

Notation "x <-! c ;; k" := (abind c (fun x => k))
  (at level 61, c at next level, right associativity).

(** [except Exception]: the three classes below [Exception] are caught. *)
Definition is_exception (c : ExceptionClass) : bool :=
  match c with BaseExceptionClass => false | _ => true end.

Module Http.

Section Reading.

Variable F : Type.
Context {PF : PyFloat F}.

(** A JSON value as [response.json()] returns it.  [JDict] lists the items
    of the dict, each key once. *)
#[local] Set Warnings "-register-all".
Inductive Json : Type :=
| JNull
| JBool (b : bool)
| JInt (n : Z)
| JFloat (x : F)
| JStr (s : string)
| JList (items : list Json)
| JDict (items : list (string * Json)).

(** The truth value of a JSON value in a condition. *)
Definition truthy (v : Json) : bool :=
  match v with
  | JNull => false
  | JBool b => b
  | JInt n => negb (n =? 0)
  | JFloat x => negb (f_eq x f_zero)
  | JStr s => negb (String.eqb s "")
  | JList items => match items with [] => false | _ => true end
  | JDict items => match items with [] => false | _ => true end
  end.

Fixpoint lookup (key : string) (items : list (string * Json)) : option Json :=
  match items with
  | [] => None
  | (k, v) :: rest => if String.eqb k key then Some v else lookup key rest
  end.

(** [data.get(key)]: only a dict has the method. *)
Definition json_get (data : Json) (key : string) : attempt Json :=
  match data with
  | JDict items =>
      Returned (match lookup key items with Some v => v | None => JNull end)
  | _ => Raised ExceptionClass_ "AttributeError"
  end.

(** [v[0]]. *)
Definition json_first (v : Json) : attempt Json :=
  match v with
  | JList (x :: _) => Returned x
  | JList [] => Raised ExceptionClass_ "IndexError"
  | JStr (String c _) => Returned (JStr (String c EmptyString))
  | JStr EmptyString => Raised ExceptionClass_ "IndexError"
  | JDict _ => Raised ExceptionClass_ "KeyError"
  | _ => Raised ExceptionClass_ "TypeError"
  end.

(** The answer of [requests.get]: the status code, and what
    [response.json()] comes to. *)
Record Response : Type := {
  status_code : Z;
  json : attempt Json
}.

(** [response.raise_for_status()]: an [HTTPError], which is a
    [RequestException], on a status from 400 to 599. *)
Definition raise_for_status (response : Response) : attempt unit :=
  if (400 <=? status_code response) && (status_code response <? 600)
  then Raised RequestExceptionClass "HTTPError"
  else Returned tt.

(** A Python value as an optional result: a JSON [null] is Python's
    [None], the value the function returns when there is no route. *)
Definition py_optional (v : Json) : option Json :=
  match v with
  | JNull => None
  | _ => Some v
  end.

(** Lines 153-156: the first route of the answer, [None] when the answer
    has no routes.  [data['routes']] is the value that [data.get('routes')]
    has just returned; a first element that is [null] is returned as it is,
    that is, as [None]. *)
Definition first_route (data : Json) : attempt (option Json) :=
  if truthy data then
    routes <-! json_get data "routes" ;;
    if truthy routes then
      route <-! json_first routes ;;
      Returned (py_optional route)
    else Returned None
  else Returned None.

(** [requests.get(url, params=params, timeout=10)], the text of a float in
    an f-string, and the access token read at start-up. *)
Variable requests_get : string -> list (string * string) -> attempt Response.
Variable format_float : F -> string.
Variable MAPBOX_ACCESS_TOKEN : string.

(** Lines 140-148. *)
Definition coords_str (coords : list (F * F)) : string :=
  String.concat ";"
    (map (fun lon_lat =>
            format_float (fst lon_lat) ++ "," ++ format_float (snd lon_lat))%string
         coords).

Definition request_url (profile : string) (coords : list (F * F)) : string :=
  ("https://api.mapbox.com/directions/v5/mapbox/" ++ profile ++ "/"
   ++ coords_str coords)%string.

Definition request_params (geometries overview : string) (steps : bool)
  : list (string * string) :=
  [ ("alternatives", "false");
    ("geometries", geometries);
    ("steps", if steps then "true" else "false");
    ("overview", overview);
    ("access_token", MAPBOX_ACCESS_TOKEN) ]%string.

(** The body of the [try] statement, lines 150-156. *)
Definition try_request (url : string) (params : list (string * string))
  : attempt (option Json) :=
  response <-! requests_get url params ;;
  _ <-! raise_for_status response ;;
  data <-! json response ;;
  first_route data.

(** [get_mapbox_route_data]: no request for an empty coordinate list; an
    exception of the [try] body that is an [Exception] is logged and turned
    into [None]. *)
Definition get_mapbox_route_data (coords : list (F * F))
    (profile geometries overview : string) (steps : bool)
  : attempt (option Json) :=
  match coords with
  | [] => Returned None
  | _ =>
      match try_request (request_url profile coords)
              (request_params geometries overview steps) with
      | Returned route => Returned route
      | Raised c name =>
          if is_exception c then Returned None else Raised c name
      end
  end.

End Reading.

Arguments JNull {F}.
Arguments JBool {F} b.
Arguments JInt {F} n.
Arguments JFloat {F} x.
Arguments JStr {F} s.
Arguments JList {F} items.
Arguments JDict {F} items.

End Http.

(** An answer with the status 200 whose body holds one route, an answer
    with the status 404 and the same body, and a request interrupted from
    the keyboard. *)
Definition b64_route_body : Http.Json float :=
  Http.JDict
    [ ("code", Http.JStr "Ok");
      ("routes", Http.JList [Http.JDict [("distance", Http.JFloat 100%float)]]) ]%string.

Definition b64_answer (status : Z) : string -> list (string * string)
                                     -> attempt (Http.Response float) :=
  fun _ _ => Returned {| Http.status_code := status;
                         Http.json := Returned b64_route_body |}.

Definition b64_interrupted : string -> list (string * string)
                             -> attempt (Http.Response float) :=
  fun _ _ => Raised BaseExceptionClass "KeyboardInterrupt".
(* ================================================================== *)
(** ** 3. Configuration: what the module reads when it starts *)

Module Startup.

(** The predictor as the engine calls it. *)
Definition Model : Type := nat -> Features float -> option float.

(** What the start-up code reads: the environment after [load_dotenv()],
    [float(s)] on a text ([None] where it raises [ValueError]),
    [os.path.exists] and [joblib.load]. *)
Record Host : Type := {
  getenv : string -> option string;
  float_of_str : string -> option float;
  path_exists : string -> attempt bool;
  joblib_load : string -> attempt Model
}.

Record Config : Type := {
  MAPBOX_ACCESS_TOKEN : string;
  WAREHOUSE_COORDS : float * float;
  MODEL_PATH : string;
  DELIVERY_MODEL : option Model
}.

(** [float(os.getenv(key, default))] with a float as the default: the text
    of the variable is converted when the variable is set. *)
Definition getenv_float (host : Host) (key : string) (default : float)
  : attempt float :=
  match getenv host key with
  | Some text =>
      match float_of_str host text with
      | Some x => Returned x
      | None => Raised ExceptionClass_ "ValueError"
      end
  | None => Returned default
  end.

(** Lines 43-53: the model is loaded when its file exists; any [Exception]
    on the way leaves [DELIVERY_MODEL] at [None]. *)
Definition load_model (host : Host) (path : string) : attempt (option Model) :=
  match (there <-! path_exists host path ;;
         if there : bool then
           model <-! joblib_load host path ;; Returned (Some model)
         else Returned None) with
  | Returned model => Returned model
  | Raised c name => if is_exception c then Returned None else Raised c name
  end.

(** Lines 30-53. *)
Definition startup (host : Host) : attempt Config :=
  match getenv host "MAPBOX_ACCESS_TOKEN" with
  | None | Some EmptyString => Raised ExceptionClass_ "ValueError"
  | Some token =>
      latitude <-! getenv_float host "WAREHOUSE_LATITUDE" 10.8453773%float ;;
      longitude <-! getenv_float host "WAREHOUSE_LONGITUDE" 106.794445%float ;;
      let path :=
        dict_get (getenv host "DELIVERY_MODEL_PATH")
                 "delivery_duration_predictor_full_features.pkl"%string in
      model <-! load_model host path ;;
      Returned {| MAPBOX_ACCESS_TOKEN := token;
                  WAREHOUSE_COORDS := (latitude, longitude);
                  MODEL_PATH := path;
                  DELIVERY_MODEL := model |}
  end.

(** The environment of the engine for a started service: the coordinates
    of the warehouse and the predictor come from the configuration, the
    other collaborators from [env]. *)
Definition configured (config : Config) (env : Env float) : Env float :=
  Build_Env (mapbox_api env) (DELIVERY_MODEL config) (pywrapcp_routing env)
            (SolveWithParameters env) (WAREHOUSE_COORDS config)
            (current_hour env) (current_day env).

End Startup.

(** Hosts: the token is set and the model file is missing; the token is
    set and loading the model raises; the token is not set. *)
Definition host_without_model : Startup.Host :=
  {| Startup.getenv :=
       fun key => if String.eqb key "MAPBOX_ACCESS_TOKEN" then Some "pk.token"%string
                  else None;
     Startup.float_of_str := fun _ => None;
     Startup.path_exists := fun _ => Returned false;
     Startup.joblib_load := fun _ => Raised ExceptionClass_ "FileNotFoundError" |}.

Definition host_with_broken_model : Startup.Host :=
  {| Startup.getenv :=
       fun key => if String.eqb key "MAPBOX_ACCESS_TOKEN" then Some "pk.token"%string
                  else None;
     Startup.float_of_str := fun _ => None;
     Startup.path_exists := fun _ => Returned true;
     Startup.joblib_load := fun _ => Raised ExceptionClass_ "UnpicklingError" |}.

Definition host_without_token : Startup.Host :=
  {| Startup.getenv := fun _ => None;
     Startup.float_of_str := fun _ => None;
     Startup.path_exists := fun _ => Returned false;
     Startup.joblib_load := fun _ => Raised ExceptionClass_ "FileNotFoundError" |}.

(** A solver whose solution goes from the start straight to the end: the
    route it is read as skips every other node. *)
Definition b64_skipping_solver : Env float :=
  {| mapbox_api := fun _ _ _ _ => Some (steady_route 100%float 60%float);
     DELIVERY_MODEL := None;
     pywrapcp_routing := chain_routing;
     SolveWithParameters := fun _ _ _ end_depot _ => Some (fun _ => end_depot);
     WAREHOUSE_COORDS := (f_of_int 10, f_of_int 106);
     current_hour := 9;
     current_day := 2 |}.

(* ================================================================== *)
(** ** The two arithmetics satisfy the comparison laws *)

Module Binary64Facts.

Import Binary64.

Lemma repr_eqb_refl (x : float) : repr_eqb x x = true.
Proof.
  unfold repr_eqb, PrimFloat.is_nan.
  destruct (PrimFloat.eqb x x); simpl; auto using Bool.eqb_reflx.
Qed.

Lemma SFeqb_self_false (s : spec_float) : SFeqb s s = false -> s = S754_nan.
Proof.
  destruct s as [b|b| |b m e]; unfold SFeqb; simpl; try discriminate; auto.
  - destruct b; discriminate.
  - destruct b; rewrite Z.compare_refl, Pos.compare_refl; simpl; discriminate.
Qed.

Lemma is_nan_spec (x : float) : PrimFloat.is_nan x = true -> Prim2SF x = S754_nan.
Proof.
  unfold PrimFloat.is_nan. rewrite eqb_spec. intro H.
  apply SFeqb_self_false. now destruct (SFeqb (Prim2SF x) (Prim2SF x)).
Qed.

Lemma ltb_nan_r (x y : float) : PrimFloat.is_nan y = true -> PrimFloat.ltb x y = false.
Proof.
  intro H. rewrite ltb_spec, (is_nan_spec _ H). unfold SFltb.
  now destruct (Prim2SF x) as [b|b| |b m e]; simpl; try destruct b.
Qed.

Lemma ltb_nan_l (x y : float) : PrimFloat.is_nan x = true -> PrimFloat.ltb x y = false.
Proof. intro H. rewrite ltb_spec, (is_nan_spec _ H). reflexivity. Qed.

Lemma ltb_zero_negative (x : float) :
  PrimFloat.ltb x PrimFloat.zero = sf_negative (Prim2SF x).
Proof.
  rewrite ltb_spec. change (Prim2SF PrimFloat.zero) with (S754_zero false).
  unfold SFltb. now destruct (Prim2SF x) as [b|b| |b m e]; simpl; try destruct b.
Qed.

Lemma zero_ltb_negative (x : float) :
  sf_negative (Prim2SF x) = true -> PrimFloat.ltb PrimFloat.zero x = false.
Proof.
  rewrite ltb_spec. change (Prim2SF PrimFloat.zero) with (S754_zero false).
  unfold SFltb. now destruct (Prim2SF x) as [b|b| |b m e]; simpl; try destruct b.
Qed.

Lemma ltb_negative (x y : float) :
  PrimFloat.ltb x y = true -> sf_negative (Prim2SF y) = true ->
  sf_negative (Prim2SF x) = true.
Proof.
  rewrite ltb_spec. unfold SFltb.
  destruct (Prim2SF x) as [b|b| |b m e], (Prim2SF y) as [c|c| |c n k]; simpl;
    try destruct b; try destruct c; simpl; try discriminate; auto.
Qed.

#[global] Instance laws : PyFloatLaws Binary64.py_float.
Proof.
  constructor; simpl; try reflexivity.
  - intro x. apply repr_eqb_refl.
  - apply ltb_nan_r.
  - apply ltb_nan_l.
  - intros x H. apply zero_ltb_negative. now rewrite <- ltb_zero_negative.
  - intros x y H1 H2. rewrite ltb_zero_negative in *. eapply ltb_negative; eauto.
Qed.

End Binary64Facts.

Module ExactFacts.

Import Exact.

Lemma Qle_bool_false (a b : Q) : Qle_bool a b = false -> (b < a)%Q.
Proof.
  intro H. apply Qnot_le_lt. intro L. apply Qle_bool_iff in L. congruence.
Qed.

Lemma Qlt_negb_le (a b : Q) : negb (Qle_bool b a) = true <-> (a < b)%Q.
Proof.
  split; intro H.
  - apply Qle_bool_false. now destruct (Qle_bool b a).
  - destruct (Qle_bool b a) eqn:E; auto. apply Qle_bool_iff in E. lra.
Qed.

Lemma Qge_negb_le (a b : Q) : negb (Qle_bool b a) = false <-> (b <= a)%Q.
Proof.
  rewrite <- Qle_bool_iff. now destruct (Qle_bool b a).
Qed.

#[global] Instance laws : PyFloatLaws Exact.py_float.
Proof.
  constructor; simpl; try reflexivity.
  - intros [q| | |]; simpl; auto. apply Qeq_bool_iff. reflexivity.
  - intros [p| | |] [q| | |]; simpl; congruence.
  - intros [p| | |] [q| | |]; simpl; congruence.
  - intros [q| | |]; simpl; try congruence.
    rewrite Qlt_negb_le, Qge_negb_le. lra.
  - intros [p| | |] [q| | |]; simpl; try congruence.
    rewrite !Qlt_negb_le. lra.
Qed.

End ExactFacts.

(* ================================================================== *)
(** ** Running a computation *)

Section MonadFacts.

Variable F : Type.
Context {PF : PyFloat F}.

Lemma obind_ok_inv A B (c : outcome A) (k : A -> outcome B) (b : B) :
  obind c k = Ok b -> exists a, c = Ok a /\ k a = Ok b.
Proof. destruct c; simpl; try discriminate. eauto. Qed.

Lemma bind_ok_inv A B (c : M F A) (k : A -> M F B) log b log' :
  bind c k log = (Ok b, log') ->
  exists a log1, c log = (Ok a, log1) /\ k a log1 = (Ok b, log').
Proof.
  unfold bind. destruct (c log) as [[a| | |] log1]; try discriminate. eauto.
Qed.

Lemma bind_http_inv A B (c : M F A) (k : A -> M F B) log s d log' :
  bind c k log = (HTTPException s d, log') ->
  c log = (HTTPException s d, log')
  \/ exists a log1, c log = (Ok a, log1) /\ k a log1 = (HTTPException s d, log').
Proof.
  unfold bind. destruct (c log) as [[a| | |] log1]; intro H;
    try congruence; [right; eauto|left; now inversion H].
Qed.

Lemma lift_inv A (o : outcome A) log r log' :
  lift (F := F) o log = (r, log') -> o = r /\ log' = log.
Proof. unfold lift. now inversion 1. Qed.

Lemma ret_inv A (a : A) log r log' :
  ret (F := F) a log = (r, log') -> r = Ok a /\ log' = log.
Proof. unfold ret. now inversion 1. Qed.

Lemma omapM_ok_length A B (f : A -> outcome B) l bs :
  omapM f l = Ok bs -> length bs = length l.
Proof.
  revert bs. induction l as [|a l IH]; simpl; intros bs H.
  - now inversion H.
  - apply obind_ok_inv in H as (b & _ & H).
    apply obind_ok_inv in H as (bs' & Hbs & H). inversion H; subst.
    simpl. f_equal. now apply IH.
Qed.

Lemma omapM_ok_nth A B (f : A -> outcome B) l bs i b :
  omapM f l = Ok bs -> nth_error bs i = Some b ->
  exists a, nth_error l i = Some a /\ f a = Ok b.
Proof.
  revert bs i. induction l as [|a l IH]; simpl; intros bs i H Hi.
  - inversion H; subst. now destruct i.
  - apply obind_ok_inv in H as (b0 & Hb0 & H).
    apply obind_ok_inv in H as (bs' & Hbs & H). inversion H; subst.
    destruct i as [|i]; simpl in *.
    + inversion Hi; subst. eauto.
    + eauto.
Qed.

Lemma omapM_total A B (f : A -> outcome B) l :
  (forall a, In a l -> exists b, f a = Ok b) -> exists bs, omapM f l = Ok bs.
Proof.
  induction l as [|a l IH]; simpl; intro H; eauto.
  destruct (H a) as (b & Hb); auto. rewrite Hb. simpl.
  destruct IH as (bs & Hbs); auto. rewrite Hbs. simpl. eauto.
Qed.

Lemma ofoldM_app A S (body : S -> A -> outcome S) l1 l2 s :
  ofoldM body (l1 ++ l2) s = obind (ofoldM body l1 s) (ofoldM body l2).
Proof.
  revert s. induction l1 as [|a l1 IH]; simpl; intro s; auto.
  destruct (body s a); simpl; auto.
Qed.

End MonadFacts.

(** ** Lists *)

Lemma enumerate_in_gen A (l : list A) s i a :
  In (i, a) (combine (seq s (length l)) l) <->
  (s <= i)%nat /\ nth_error l (i - s) = Some a.
Proof.
  revert s. induction l as [|x l IH]; simpl; intro s.
  - split; [tauto|]. intros [_ H]. now destruct (i - s)%nat.
  - rewrite IH. split.
    + intros [H|[H1 H2]].
      * inversion H; subst. rewrite Nat.sub_diag. auto.
      * split; [lia|]. replace (i - s)%nat with (S (i - S s)) by lia. exact H2.
    + intros [H1 H2]. destruct (Nat.eq_dec i s) as [->|Hne].
      * rewrite Nat.sub_diag in H2. simpl in H2. inversion H2. auto.
      * right. split; [lia|].
        replace (i - s)%nat with (S (i - S s)) in H2 by lia. exact H2.
Qed.

Lemma enumerate_in A (l : list A) i a :
  In (i, a) (enumerate l) <-> nth_error l i = Some a.
Proof.
  unfold enumerate. rewrite enumerate_in_gen, Nat.sub_0_r.
  split; [tauto|]. split; [lia|auto].
Qed.

Lemma enumerate_length A (l : list A) : length (enumerate l) = length l.
Proof. unfold enumerate. rewrite length_combine, length_seq. lia. Qed.




Lemma nonempty_snoc A (l : list A) (d : A) :
  l <> [] -> l = removelast l ++ [last l d].
Proof. intro H. now apply app_removelast_last. Qed.

(* ================================================================== *)
(** ** The point list and the route (section 7.1 and 7.4) *)

Section RouteFacts.

Variable F : Type.
Context {PF : PyFloat F}.

Lemma all_points_length (env : Env F) (request : OptimizeRouteRequest F) :
  length (all_points_details env request) = S (S (length (orders request))).
Proof.
  unfold all_points_details. simpl. rewrite length_app, length_map. simpl. lia.
Qed.

(** The guard [num_points <= 1] of line 258 never holds. *)
Lemma early_return_unreachable (env : Env F) (request : OptimizeRouteRequest F) :
  (length (all_points_details env request) <=? 1)%nat = false.
Proof. rewrite all_points_length. reflexivity. Qed.

Lemma fallback_route_ids (n : nat) : (2 <= n)%nat -> fallback_route n = node_ids n.
Proof.
  intro H. unfold fallback_route, node_ids.
  replace n with (1 + (n - 1 - 1) + 1)%nat at 3 by lia.
  rewrite !seq_app, !map_app. simpl. repeat f_equal. lia.
Qed.

Lemma point_at_nat (points : list (PointDetail F)) (i : nat) :
  point_at points (Z.of_nat i) =
  match nth_error points i with Some p => [p] | None => [] end.
Proof.
  unfold point_at. rewrite Nat2Z.id.
  destruct (nth_error points i) eqn:E.
  - assert (i < length points)%nat by (apply nth_error_Some; congruence).
    replace (0 <=? Z.of_nat i) with true by (symmetry; apply Z.leb_le; lia).
    replace (Z.of_nat i <? Z.of_nat (length points)) with true
      by (symmetry; apply Z.ltb_lt; lia).
    reflexivity.
  - now destruct ((0 <=? Z.of_nat i) && (Z.of_nat i <? Z.of_nat (length points))).
Qed.



Lemma route_rejected_false (route : list Z) (depot warehouse_index : Z) :
  route_rejected route depot warehouse_index = false ->
  exists middle, route = depot :: middle
                 /\ last route depot = warehouse_index.
Proof.
  unfold route_rejected. destruct route as [|first rest]; [discriminate|].
  intro H. apply orb_false_elim in H as [H1 H2].
  apply negb_false_iff, Z.eqb_eq in H1, H2. subst first. eauto.
Qed.

(** The route that is used, whatever the solver returned, starts at the
    depot and ends at the warehouse. *)
Lemma checked_route_ends (n : nat) (route : list Z) :
  (2 <= n)%nat ->
  exists middle,
    checked_route n route = 0 :: middle
    /\ last (checked_route n route) 0 = Z.of_nat n - 1.
Proof.
  intro Hn. unfold checked_route.
  destruct (route_rejected route 0 (Z.of_nat n - 1)) eqn:E.
  - unfold fallback_route. eexists. split; [reflexivity|].
    rewrite app_assoc. apply last_last.
  - now apply route_rejected_false.
Qed.



(** What a successful run of the endpoint went through. *)
Lemma optimize_ok_inv fuel env request log resp log' :
  optimize_delivery_route fuel env request log = (Ok resp, log') ->
  exists cache route total_cost log1,
    plan_route fuel env request log = (Ok (cache, Some (route, total_cost)), log1)
    /\ assemble_response env (all_points_details env request) cache route log1
       = (Ok resp, log').
Proof.
  unfold optimize_delivery_route. rewrite early_return_unreachable.
  destruct (f_eq _ f_zero); [discriminate|].
  intro H. apply bind_ok_inv in H as ([cache res] & log1 & Hplan & H).
  simpl in H. destruct res as [[route total]|]; [|discriminate]. eauto 8.
Qed.

Lemma assemble_ok_inv env points cache route log resp log' :
  assemble_response env points cache route log = (Ok resp, log') ->
  exists totals,
    compute_totals points cache (checked_route (length points) route) = Ok totals
    /\ optimized_route resp
       = map to_route_point
           (route_point_details points (checked_route (length points) route))
    /\ total_predicted_time_seconds resp = actual_total_predicted_time_seconds totals
    /\ total_distance_meters resp = actual_total_distance_meters totals
    /\ segments_details resp = Some (segments_details_list totals).
Proof.
  unfold assemble_response. intro H.
  apply bind_ok_inv in H as (full & log1 & _ & H).
  apply bind_ok_inv in H as (totals & log2 & Ht & H).
  apply lift_inv in Ht as [Ht _]. apply ret_inv in H as [H _].
  inversion H; subst. simpl. eauto 8.
Qed.

End RouteFacts.


(* ================================================================== *)
(** ** C1: the route starts at the current location, ends at the warehouse
    and visits every order once *)

(** C1, counterexample.  The solver's route is checked at its two ends
    only (line 410).  With two orders and a solution that goes from the
    start straight to the end, the route [0; 3] passes the check, and the
    response lists the current location and the warehouse and no order. *)
Lemma solver_route_may_skip_the_orders :
  route_rejected [0; 3] 0 3 = false
  /\ exists resp log' cache total_cost log1,
      plan_route 10 b64_skipping_solver b64_two_orders []
      = (Ok (cache, Some ([0; 3], total_cost)), log1)
      /\ optimize_delivery_route 10 b64_skipping_solver b64_two_orders []
         = (Ok resp, log')
      /\ map rp_id (optimized_route resp)
         = [Some "current_location_0"; Some "warehouse_final"]%string
      /\ ~ In (to_route_point (order_point order_A)) (optimized_route resp).
Proof.
  split; [reflexivity|].
  eexists. eexists. eexists. eexists. eexists.
  split; [vm_compute; reflexivity|]. split; [vm_compute; reflexivity|].
  split; [reflexivity|].
  simpl. intros [H|[H|[]]]; discriminate.
Qed.



(* ================================================================== *)
(** ** C2: a request without orders *)

(** C2 (the code departs from the claim).  With no order the point list has
    two entries, the guard [num_points <= 1] does not hold, and the endpoint
    goes through both passes and the solver: here the provider is asked for
    the two pairs and for the full route, OR-Tools is invoked on a two-node
    matrix, and the totals are the 60 seconds and 100 metres of the segment
    from the current location to the warehouse, not zero. *)
Theorem zero_orders_run_the_solver :
  exists resp log',
    optimize_delivery_route 10 b64_steady b64_no_orders [] = (Ok resp, log')
    /\ resp <> direct_response b64_steady b64_no_orders
    /\ total_predicted_time_seconds resp = 60%float
    /\ total_distance_meters resp = 100%float
    /\ In (SolveCall 2 0 1 [[0; 1000]; [1000; 0]]) log'
    /\ length log' = 4%nat.
Proof.
  eexists. eexists. split; [vm_compute; reflexivity|].
  split; [discriminate|]. split; [reflexivity|]. split; [reflexivity|].
  split; [|reflexivity]. simpl. auto.
Qed.

(* ================================================================== *)
(** ** C7: the weights *)

Section WeightFacts.

Variable F : Type.
Context {PF : PyFloat F}.

Lemma normalize_weights_nonzero (request : OptimizeRouteRequest F) :
  let total := f_add (weight_time request) (weight_distance request) in
  f_eq total f_zero = false ->
  normalize_weights request
  = Ok (f_div (weight_time request) total, f_div (weight_distance request) total).
Proof.
  intros total H. unfold normalize_weights, py_truediv. fold total.
  rewrite H. reflexivity.
Qed.

Lemma zero_weights_rejected fuel env request log :
  f_eq (f_add (weight_time request) (weight_distance request)) f_zero = true ->
  optimize_delivery_route fuel env request log
  = (HTTPException 400 "Total weights for time and distance cannot be zero.", log).
Proof.
  intro H. unfold optimize_delivery_route.
  rewrite early_return_unreachable, H. reflexivity.
Qed.

End WeightFacts.

Module ExactWeights.

Import Exact ExactFacts.

Lemma in_unit_range_fin (w : xfloat) :
  in_unit_range w = true ->
  exists q, w = XFin q /\ (0 <= q <= 1)%Q.
Proof.
  unfold in_unit_range. destruct w as [q| | |]; simpl; try discriminate.
  intro H. apply andb_prop in H as [H _]. apply andb_prop in H as [H1 H2].
  rewrite negb_involutive in H1, H2. apply Qle_bool_iff in H1, H2. eauto.
Qed.

Lemma Qred_eq_one (q : Q) : (q == 1)%Q -> Qred q = 1%Q.
Proof. intro H. now rewrite (Qred_complete _ _ H). Qed.

Lemma normalized_weights_sum (p q : Q) :
  ~ (Qred (p + q) == 0)%Q ->
  (Qred (Qred (p / Qred (p + q)) + Qred (q / Qred (p + q))) = 1)%Q.
Proof.
  intro H. apply Qred_eq_one. rewrite !Qred_correct in *. field. exact H.
Qed.

End ExactWeights.

(** C7, counterexample.  The weights 0.03 and 0.29 are not both zero, and
    the two normalized weights add up to 1.0000000000000002 in binary64. *)
Lemma normalized_weights_sum_off_by_rounding :
  exists a b : float,
    request_valid b64_skewed_weights = true
    /\ normalize_weights b64_skewed_weights = Ok (a, b)
    /\ f_add a b = 1.0000000000000002%float
    /\ f_eq (f_add a b) f_one = false.
Proof.
  eexists. eexists. split; [reflexivity|]. split; [vm_compute; reflexivity|].
  split; reflexivity.
Qed.

(** C7, amended.  In every float arithmetic: when the two weights add up to
    zero the endpoint raises [HTTPException 400] and the log of external calls
    is left as it was (no provider, predictor or solver call was made);
    otherwise the effective weights are the two weights divided by their sum,
    and it is with them that pass 2 computes every cost.  In exact arithmetic
    the two effective weights of a valid request add up to 1 (in binary64 the
    sum can be off by a rounding error, as the counterexample shows). *)
Theorem weights_guard_and_normalization :
  (forall (F : Type) (PF : PyFloat F) fuel env (request : OptimizeRouteRequest F) log,
      f_eq (f_add (weight_time request) (weight_distance request)) f_zero = true ->
      optimize_delivery_route fuel env request log
      = (HTTPException 400 "Total weights for time and distance cannot be zero.", log))
  /\ (forall (F : Type) (PF : PyFloat F) env (request : OptimizeRouteRequest F) log,
         let total := f_add (weight_time request) (weight_distance request) in
         let points := all_points_details env request in
         f_eq total f_zero = false ->
         normalize_weights request
         = Ok (f_div (weight_time request) total, f_div (weight_distance request) total)
         /\ prepare_cost_matrix env request log
            = bind (collect_estimates env points)
                (fun collected =>
                   bind (lift (build_cost_matrix points
                                 (all_segments_data_cache collected)
                                 (f_div (weight_time request) total)
                                 (f_div (weight_distance request) total)
                                 (py_max f_one (max_duration_for_normalization collected))
                                 (py_max f_one (max_distance_for_normalization collected))))
                     (fun cost_matrix =>
                        ret (all_segments_data_cache collected, cost_matrix)))
                log)
  /\ (forall request : OptimizeRouteRequest Exact.xfloat,
         request_valid request = true ->
         f_eq (f_add (weight_time request) (weight_distance request)) f_zero = false ->
         exists a b, normalize_weights request = Ok (a, b) /\ f_add a b = f_one).
Proof.
  split; [|split].
  - intros. now apply zero_weights_rejected.
  - intros F PF env request log total points H. split.
    + now apply normalize_weights_nonzero.
    + unfold prepare_cost_matrix. fold points.
      rewrite (normalize_weights_nonzero request H). reflexivity.
  - intros request Hv H.
    rewrite (normalize_weights_nonzero request H). eexists. eexists.
    split; [reflexivity|].
    unfold request_valid in Hv. apply andb_prop in Hv as [Hv _].
    apply andb_prop in Hv as [Ht Hd].
    apply ExactWeights.in_unit_range_fin in Ht as (p & Hp & _).
    apply ExactWeights.in_unit_range_fin in Hd as (q & Hq & _).
    rewrite Hp, Hq in *.
    cbv [f_eq f_add f_div f_zero f_one Exact.py_float Exact.xeq Exact.xadd
         Exact.xdiv] in *.
    rewrite H. f_equal. apply ExactWeights.normalized_weights_sum.
    intro Hz. apply Qeq_bool_iff in Hz. congruence.
Qed.

(* ================================================================== *)
(** ** Pass 1: what the estimate cache holds *)

Section CollectFacts.

Variable F : Type.
Context {PF : PyFloat F}.

(** The estimate of a pair never fails: a provider failure, a missing
    predictor and a predictor that raises all have their fallback. *)
Lemma estimate_pair_run (env : Env F) (p q : PointDetail F) (log : list (Event F)) :
  exists log', estimate_pair env p q log = (Ok (estimate_of env p q log), log').
Proof.
  unfold estimate_pair, estimate_of, resolved_duration, predictor_answer,
    provider_answer, predict_duration, get_mapbox_route_data, pair_coords,
    bind, call, ret.
  destruct (DELIVERY_MODEL env) as [model|]; [|eauto].
  rewrite last_length.
  destruct (model _ _); eauto.
Qed.

Lemma collect_step_run (env : Env F) (st : Collected F) ij (log : list (Event F)) :
  exists st' log',
    collect_step env st ij log = (Ok st', log')
    /\ (st' = st /\ fst (fst ij) = fst (snd ij)
        \/ st' = record_estimate st (snd (fst ij)) (snd (snd ij))
                   (estimate_of env (snd (fst ij)) (snd (snd ij)) log)
           /\ fst (fst ij) <> fst (snd ij)).
Proof.
  destruct ij as [[i p] [j q]]. unfold collect_step. simpl.
  destruct (Nat.eqb i j) eqn:E.
  - apply Nat.eqb_eq in E. unfold ret. eauto 6.
  - apply Nat.eqb_neq in E. unfold bind.
    destruct (estimate_pair_run env p q log) as (log' & ->). unfold ret. eauto 6.
Qed.

(** Pass 1 runs to its end, and whatever is preserved by recording one
    estimate holds of its result. *)
Lemma collect_fold_run (env : Env F) (P : Collected F -> Prop) l :
  (forall st ip jq log0,
      P st -> In (ip, jq) l -> fst ip <> fst jq ->
      P (record_estimate st (snd ip) (snd jq) (estimate_of env (snd ip) (snd jq) log0))) ->
  forall st (log : list (Event F)),
    P st ->
    exists st' log', foldM (collect_step env) l st log = (Ok st', log') /\ P st'.
Proof.
  induction l as [|ij l IH]; simpl; intros Hstep st log HP.
  - unfold ret. eauto.
  - unfold bind.
    destruct (collect_step_run env st ij log) as (st1 & log1 & -> & Hst1).
    apply IH; [intros; apply Hstep; auto|].
    destruct Hst1 as [[-> _]|[-> Hne]]; auto.
    destruct ij as [ip jq]. apply Hstep; auto.
Qed.

Lemma cache_get_in (cache : Cache F) k seg :
  cache_get cache k = Some seg -> exists k', In (k', seg) cache.
Proof.
  induction cache as [|[k0 v] cache IH]; simpl; [discriminate|].
  destruct (key_eqb k0 k).
  - intro H. inversion H; subst. eauto.
  - intro H. destruct (IH H) as (k' & Hk'). eauto.
Qed.

Lemma index_pairs_in (points : list (PointDetail F)) i p j q :
  In ((i, p), (j, q)) (index_pairs points) <->
  nth_error points i = Some p /\ nth_error points j = Some q.
Proof.
  unfold index_pairs. rewrite in_flat_map. split.
  - intros ([i' p'] & Hi & Hj). apply in_map_iff in Hj as ([j' q'] & E & Hj).
    inversion E; subst. now rewrite enumerate_in in Hi, Hj.
  - intros [Hi Hj]. exists (i, p). rewrite enumerate_in. split; auto.
    apply in_map_iff. exists (j, q). now rewrite enumerate_in.
Qed.

Context {L : PyFloatLaws PF}.

Lemma key_eqb_refl (k : CacheKey F) : key_eqb k k = true.
Proof.
  destruct k as [[[a b] c] d]. simpl. now rewrite !repr_eqb_refl.
Qed.

Lemma cache_get_set_same (cache : Cache F) k v :
  cache_get (cache_set cache k v) k = Some v.
Proof. simpl. now rewrite key_eqb_refl. Qed.

Lemma cache_get_set_some (cache : Cache F) k v k' :
  cache_get cache k' <> None -> cache_get (cache_set cache k v) k' <> None.
Proof. simpl. destruct (key_eqb k k'); auto. discriminate. Qed.

(** Sanitization leaves nothing infinite, NaN or negative. *)
Lemma sanitize_clean (x : F) : clean (sanitize x).
Proof.
  unfold sanitize, needs_sentinel, clean.
  destruct (f_eq x f_inf) eqn:E1; simpl;
    [| destruct (f_isnan x) eqn:E2; simpl;
       [| destruct (f_lt x f_zero) eqn:E3; simpl ] ].
  1-3: unfold SENTINEL;
       repeat split; auto using billion_ne_inf, billion_not_nan, billion_not_lt_zero;
       intro H;
       [ pose proof billion_ne_inf as B; rewrite H, inf_eq_inf in B
       | pose proof billion_not_lt_zero as B; rewrite H, neg_inf_lt_zero in B ];
       discriminate.
  repeat split; auto; intro H; subst x.
  - rewrite inf_eq_inf in E1. discriminate.
  - rewrite neg_inf_lt_zero in E3. discriminate.
Qed.

Lemma sanitize_sentinel (x : F) :
  needs_sentinel x = true -> sanitize x = f_of_int 1000000000.
Proof. unfold sanitize. now intros ->. Qed.

Lemma sanitize_keeps (x : F) : needs_sentinel x = false -> sanitize x = x.
Proof. unfold sanitize. now intros ->. Qed.

(** Every pair of distinct indices has its key in the cache after pass 1,
    and every entry of the cache is the estimate of some pair. *)
Lemma collect_estimates_run (env : Env F) (points : list (PointDetail F))
    (log : list (Event F)) :
  exists collected log',
    collect_estimates env points log = (Ok collected, log')
    /\ (forall i j p q,
           nth_error points i = Some p -> nth_error points j = Some q -> i <> j ->
           cache_get (all_segments_data_cache collected) (cache_key p q) <> None)
    /\ (forall k seg,
           In (k, seg) (all_segments_data_cache collected) ->
           exists p q log0, k = cache_key p q /\ seg = estimate_of env p q log0).
Proof.
  unfold collect_estimates.
  set (P := fun (done : list ((nat * PointDetail F) * (nat * PointDetail F)))
                (st : Collected F) =>
              (forall i j p q, In ((i, p), (j, q)) done -> i <> j ->
                 cache_get (all_segments_data_cache st) (cache_key p q) <> None)
              /\ (forall k seg, In (k, seg) (all_segments_data_cache st) ->
                    exists p q log0, k = cache_key p q /\ seg = estimate_of env p q log0)).
  assert (G : forall l done st (lg : list (Event F)),
             P done st ->
             exists st' lg', foldM (collect_step env) l st lg = (Ok st', lg')
                             /\ P (done ++ l) st').
  { induction l as [|ij l IH]; simpl; intros done st lg HP.
    - rewrite app_nil_r. unfold ret. eauto.
    - unfold bind.
      destruct (collect_step_run env st ij lg) as (st1 & lg1 & -> & Hst1).
      replace (done ++ ij :: l) with ((done ++ [ij]) ++ l)
        by (now rewrite <- app_assoc).
      apply IH. destruct HP as [HP1 HP2].
      destruct ij as [[i p] [j q]]. simpl in Hst1.
      destruct Hst1 as [[-> Heq]|[-> Hne]].
      + split; auto. intros i' j' p' q' Hin Hd.
        apply in_app_or in Hin as [Hin|[Hin|[]]]; [eauto|].
        inversion Hin; subst. contradiction.
      + split.
        * intros i' j' p' q' Hin Hd. cbn [record_estimate all_segments_data_cache].
          apply in_app_or in Hin as [Hin|[Hin|[]]].
          -- apply cache_get_set_some. eauto.
          -- inversion Hin; subst. rewrite cache_get_set_same. discriminate.
        * intros k seg [Hin|Hin]; [|eauto].
          inversion Hin; subst. eauto. }
  match goal with
  | |- exists c lg', foldM _ _ ?st0 _ = _ /\ _ =>
      destruct (G (index_pairs points) [] st0 log) as (st' & log' & Hrun & HP1 & HP2)
  end.
  { split; [intros ? ? ? ? []|intros ? ? []]. }
  exists st', log'. split; [exact Hrun|]. split; [|exact HP2].
  intros i j p q Hi Hj Hne. apply (HP1 i j p q); auto.
  simpl. now apply index_pairs_in.
Qed.

End CollectFacts.

(* ================================================================== *)
(** ** C5: nothing infinite, NaN or negative leaves the estimate collector *)

Section SanitizedFacts.

Variable F : Type.
Context {PF : PyFloat F} {L : PyFloatLaws PF}.

Lemma estimate_of_clean (env : Env F) p q (log : list (Event F)) :
  clean (seg_distance (estimate_of env p q log))
  /\ clean (seg_duration (estimate_of env p q log)).
Proof. split; exact (sanitize_clean _). Qed.

End SanitizedFacts.

(** C5.  In every float arithmetic.  The sanitization of lines 336-339 maps a
    value that is [inf], NaN or below zero (so also [-inf]) to 1,000,000,000,
    and its result is never infinite, NaN or negative.  Pass 1 always runs to
    its end; afterwards the cache has an entry under the key of every ordered
    pair of distinct points, and every entry of the cache (these are the
    values the cost-matrix builder and the route assembler read) holds the
    sanitized provider distance and the sanitized resolved duration of a pair
    with that key, both neither infinite, nor NaN, nor negative. *)
Theorem estimates_are_sanitized :
  forall (F : Type) (PF : PyFloat F) (L : PyFloatLaws PF)
         (env : Env F) (request : OptimizeRouteRequest F) (log : list (Event F)),
    let points := all_points_details env request in
    (forall x : F,
        f_eq x f_inf = true \/ f_isnan x = true \/ f_lt x f_zero = true ->
        sanitize x = f_of_int 1000000000)
    /\ sanitize (f_neg_inf : F) = f_of_int 1000000000
    /\ (forall x : F, clean (sanitize x))
    /\ exists collected log',
        collect_estimates env points log = (Ok collected, log')
        /\ (forall i j p q,
               nth_error points i = Some p -> nth_error points j = Some q -> i <> j ->
               exists seg,
                 cache_get (all_segments_data_cache collected) (cache_key p q) = Some seg)
        /\ (forall k seg,
               In (k, seg) (all_segments_data_cache collected) ->
               clean (seg_distance seg) /\ clean (seg_duration seg)
               /\ exists p q log0,
                   k = cache_key p q
                   /\ seg_distance seg
                      = sanitize (provider_distance (provider_answer env p q log0))
                   /\ seg_duration seg = sanitize (resolved_duration env p q log0)).
Proof.
  intros F PF L env request log points.
  assert (S1 : forall x : F,
             f_eq x f_inf = true \/ f_isnan x = true \/ f_lt x f_zero = true ->
             sanitize x = f_of_int 1000000000).
  { intros x H. apply sanitize_sentinel. unfold needs_sentinel.
    destruct H as [->|[->| ->]]; rewrite ?orb_true_r; reflexivity. }
  split; [exact S1|]. split.
  { apply S1. right. right. exact neg_inf_lt_zero. }
  split; [exact (fun x => sanitize_clean x)|].
  destruct (collect_estimates_run env points log)
    as (collected & log' & Hrun & Hcover & Hsrc).
  exists collected, log'. split; [exact Hrun|]. split.
  - intros i j p q Hi Hj Hne.
    specialize (Hcover i j p q Hi Hj Hne).
    destruct (cache_get (all_segments_data_cache collected) (cache_key p q));
      [eauto|contradiction].
  - intros k seg Hin. destruct (Hsrc k seg Hin) as (p & q & log0 & -> & ->).
    split; [exact (sanitize_clean _)|]. split; [exact (sanitize_clean _)|].
    exists p, q, log0. auto.
Qed.

(** In binary64, during a provider outage. *)
Lemma estimates_are_sanitized_witness :
  sanitize PrimFloat.neg_infinity = 1000000000%float
  /\ clean (sanitize PrimFloat.nan)
  /\ exists collected log',
      collect_estimates b64_outage (all_points_details b64_outage b64_two_orders) []
      = (Ok collected, log').
Proof.
  destruct (@estimates_are_sanitized float Binary64.py_float Binary64Facts.laws
              b64_outage b64_two_orders [])
    as (_ & H1 & H2 & collected & log' & Hrun & _).
  split; [exact H1|]. split; [apply H2|]. exists collected, log'. exact Hrun.
Defined.

(* ================================================================== *)
(** ** C4: a negative or NaN prediction *)

(** C4, counterexample.  The provider reports 60 seconds and the predictor
    -5 (or NaN): the duration stored for the pair is 0, not the provider's
    60. *)
Lemma bad_prediction_does_not_fall_back :
  (exists seg log',
      estimate_pair b64_predicting_negative b64_here b64_there [] = (Ok seg, log')
      /\ provider_duration (provider_answer b64_predicting_negative b64_here b64_there [])
         = 60%float
      /\ seg_duration seg = 0%float
      /\ f_eq (seg_duration seg) 60%float = false)
  /\ (exists seg log',
         estimate_pair b64_predicting_nan b64_here b64_there [] = (Ok seg, log')
         /\ provider_duration (provider_answer b64_predicting_nan b64_here b64_there [])
            = 60%float
         /\ seg_duration seg = 0%float
         /\ f_eq (seg_duration seg) 60%float = false).
Proof.
  split; eexists; eexists; (split; [vm_compute; reflexivity|]);
    repeat split; reflexivity.
Qed.

Section ClampFacts.

Variable F : Type.
Context {PF : PyFloat F} {L : PyFloatLaws PF}.

(** [max(0.0, min(ml, mapbox))] is [0.0] for a NaN or negative [ml],
    whatever [mapbox] is. *)
Lemma resolve_duration_bad (ml mapbox_duration : F) :
  f_isnan ml = true \/ f_lt ml f_zero = true ->
  resolve_duration ml mapbox_duration = f_zero.
Proof.
  unfold resolve_duration, py_max, py_min. intros [H|H].
  - rewrite (lt_nan_r mapbox_duration ml H), (lt_nan_r f_zero ml H). reflexivity.
  - destruct (f_lt mapbox_duration ml) eqn:E.
    + rewrite lt_zero_asym; [reflexivity|]. eapply lt_lt_zero; eauto.
    + rewrite lt_zero_asym; auto.
Qed.

Lemma sanitize_zero : sanitize (f_zero : F) = f_zero.
Proof.
  apply sanitize_keeps. unfold needs_sentinel.
  now rewrite zero_ne_inf, zero_not_nan, zero_not_lt_zero.
Qed.

End ClampFacts.

(** C4, amended.  In every float arithmetic: for an ordered pair for which
    the predictor returns a NaN or a negative value, the duration resolved
    for the pair is 0.0 (the value is clamped at zero; the provider's
    duration is not used), it is stored unchanged by the sanitization, and
    what is stored is neither negative, nor NaN, nor infinite. *)
Theorem bad_prediction_is_clamped_to_zero :
  forall (F : Type) (PF : PyFloat F) (L : PyFloatLaws PF)
         (env : Env F) (p q : PointDetail F) (log : list (Event F))
         (model : nat -> Features F -> option F) (ml : F),
    DELIVERY_MODEL env = Some model ->
    predictor_answer env model p q log = Some ml ->
    f_isnan ml = true \/ f_lt ml f_zero = true ->
    resolved_duration env p q log = f_zero
    /\ exists seg log',
        estimate_pair env p q log = (Ok seg, log')
        /\ seg_duration seg = f_zero
        /\ clean (seg_duration seg).
Proof.
  intros F PF L env p q log model ml Hmodel Hml Hbad.
  assert (R : resolved_duration env p q log = f_zero).
  { unfold resolved_duration. rewrite Hmodel, Hml.
    exact (resolve_duration_bad ml _ Hbad). }
  split; [exact R|].
  destruct (estimate_pair_run env p q log) as (log' & Hrun).
  exists (estimate_of env p q log), log'. split; [exact Hrun|].
  unfold estimate_of. cbn [seg_duration]. rewrite R.
  pose proof (sanitize_zero (F := F)) as Z0. rewrite Z0.
  split; [reflexivity|]. rewrite <- Z0. exact (sanitize_clean _).
Qed.

Lemma bad_prediction_is_clamped_to_zero_witness :
  resolved_duration b64_predicting_negative b64_here b64_there [] = 0%float
  /\ exists seg log',
      estimate_pair b64_predicting_negative b64_here b64_there [] = (Ok seg, log')
      /\ seg_duration seg = 0%float
      /\ clean (seg_duration seg).
Proof.
  apply (@bad_prediction_is_clamped_to_zero float Binary64.py_float Binary64Facts.laws
           b64_predicting_negative b64_here b64_there []
           (fun _ _ => Some (-5)%float) (-5)%float).
  - reflexivity.
  - reflexivity.
  - right. reflexivity.
Defined.

(* ================================================================== *)
(** ** Where an [HTTPException] can come from *)

Lemma pure_no_http_bind A B (c : outcome A) (k : A -> outcome B) :
  pure_no_http c -> (forall a, pure_no_http (k a)) -> pure_no_http (obind c k).
Proof.
  intros Hc Hk s d. destruct c as [a| s0 d0 | e |]; simpl; try discriminate.
  - apply Hk.
  - intros _. now apply (Hc s0 d0).
Qed.

Lemma pure_no_http_ok A (a : A) : pure_no_http (Ok a).
Proof. intros s d. discriminate. Qed.

Lemma py_getitem_no_http A (l : list A) i : pure_no_http (py_getitem l i).
Proof.
  unfold py_getitem. intros s d.
  destruct (_ && _); [|discriminate]. destruct (nth_error _ _); discriminate.
Qed.

Lemma omapM_no_http A B (f : A -> outcome B) l :
  (forall a, pure_no_http (f a)) -> pure_no_http (omapM f l).
Proof.
  intro Hf. induction l as [|a l IH]; simpl; [apply pure_no_http_ok|].
  apply pure_no_http_bind; [apply Hf|]. intro b.
  apply pure_no_http_bind; [apply IH|]. intro bs. apply pure_no_http_ok.
Qed.

Lemma ofoldM_no_http A S (body : S -> A -> outcome S) l :
  (forall s a, pure_no_http (body s a)) -> forall s, pure_no_http (ofoldM body l s).
Proof.
  intro Hb. induction l as [|a l IH]; simpl; intro s; [apply pure_no_http_ok|].
  apply pure_no_http_bind; [apply Hb|apply IH].
Qed.

Section HttpFacts.

Variable F : Type.
Context {PF : PyFloat F}.

Lemma no_http_bind A B (c : M F A) (k : A -> M F B) :
  no_http c -> (forall a, no_http (k a)) -> no_http (bind c k).
Proof.
  intros Hc Hk log s d log' H. apply bind_http_inv in H as [H|(a & log1 & _ & H)].
  - now apply Hc in H.
  - now apply Hk in H.
Qed.

Lemma no_http_lift A (o : outcome A) : pure_no_http o -> no_http (lift (F := F) o).
Proof. intros Ho log s d log' H. apply lift_inv in H as [H _]. now apply Ho in H. Qed.

Lemma no_http_ret A (a : A) : no_http (ret (F := F) a).
Proof. intros log s d log'. discriminate. Qed.

Lemma no_http_call A (ev : Event F) (oracle : nat -> A) : no_http (call ev oracle).
Proof. intros log s d log'. discriminate. Qed.

Lemma py_truediv_no_http (a b : F) : pure_no_http (py_truediv a b).
Proof. unfold py_truediv. intros s d. destruct (f_eq b f_zero); discriminate. Qed.

Lemma normalize_weights_no_http request : pure_no_http (normalize_weights request).
Proof.
  unfold normalize_weights.
  repeat (apply pure_no_http_bind; [apply py_truediv_no_http|intro]).
  apply pure_no_http_ok.
Qed.

Lemma build_cost_matrix_no_http points (cache : Cache F) wt wd md mD :
  pure_no_http (build_cost_matrix points cache wt wd md mD).
Proof.
  unfold build_cost_matrix. apply omapM_no_http. intro ip.
  apply omapM_no_http. intros jq. unfold cost_entry.
  destruct ip as [i p], jq as [j q]. destruct (Nat.eqb i j); [apply pure_no_http_ok|].
  destruct (cache_get _ _); [|apply pure_no_http_ok].
  unfold combined_cost.
  repeat (apply pure_no_http_bind; [apply py_truediv_no_http|intro]).
  apply pure_no_http_ok.
Qed.

Lemma scale_cost_matrix_no_http (cm : list (list F)) :
  pure_no_http (scale_cost_matrix cm).
Proof.
  unfold scale_cost_matrix. apply omapM_no_http. intro row.
  apply omapM_no_http. intro c. unfold scale_cost. intros s d.
  destruct (negb _); [|discriminate]. destruct (f_lt _ _); [|discriminate].
  destruct (f_trunc _); discriminate.
Qed.

Lemma decode_solution_no_http fuel routing next_var (cm : list (list F)) index route total :
  pure_no_http (decode_solution fuel routing next_var cm index route total).
Proof.
  revert index route total. induction fuel as [|fuel IH]; simpl; intros index route total.
  - intros s d. discriminate.
  - destruct (IsEnd routing index); [apply pure_no_http_ok|].
    apply pure_no_http_bind; [apply py_getitem_no_http|intro row].
    apply pure_no_http_bind; [apply py_getitem_no_http|intro c]. apply IH.
Qed.

Lemma compute_totals_no_http points (cache : Cache F) route :
  pure_no_http (compute_totals points cache route).
Proof.
  unfold compute_totals. apply ofoldM_no_http. intros st [a b]. unfold segment_step.
  apply pure_no_http_bind; [apply py_getitem_no_http|intro p].
  apply pure_no_http_bind; [apply py_getitem_no_http|intro q].
  destruct (match cache_get _ _ with Some _ => _ | None => _ end);
    apply pure_no_http_ok.
Qed.

Lemma get_mapbox_route_data_no_http (env : Env F) coords overview steps :
  no_http (get_mapbox_route_data env coords overview steps).
Proof.
  unfold get_mapbox_route_data. destruct coords; [apply no_http_ret|apply no_http_call].
Qed.

Lemma collect_estimates_no_http (env : Env F) points :
  no_http (collect_estimates env points).
Proof.
  intros log s d log' H. unfold collect_estimates in H.
  match type of H with
  | foldM _ ?l ?st0 _ = _ =>
      destruct (collect_fold_run env (fun _ => True) l (fun _ _ _ _ _ _ _ => I) st0 log I)
        as (st' & lg & Hrun & _)
  end.
  congruence.
Qed.

Lemma prepare_cost_matrix_no_http (env : Env F) request :
  no_http (prepare_cost_matrix env request).
Proof.
  unfold prepare_cost_matrix.
  apply no_http_bind; [apply no_http_lift, normalize_weights_no_http|intro w].
  apply no_http_bind; [apply collect_estimates_no_http|intro c].
  apply no_http_bind; [apply no_http_lift, build_cost_matrix_no_http|intro cm].
  apply no_http_ret.
Qed.

Lemma solve_tsp_no_http fuel (env : Env F) cm n s e :
  no_http (solve_tsp_with_ortools fuel env cm n s e).
Proof.
  unfold solve_tsp_with_ortools.
  apply no_http_bind; [apply no_http_lift, scale_cost_matrix_no_http|intro scaled].
  apply no_http_bind; [apply no_http_call|intros [next|]]; [|apply no_http_ret].
  apply no_http_bind; [apply no_http_lift, decode_solution_no_http|intro r].
  apply no_http_ret.
Qed.

Lemma plan_route_no_http fuel (env : Env F) request :
  no_http (plan_route fuel env request).
Proof.
  unfold plan_route.
  apply no_http_bind; [apply prepare_cost_matrix_no_http|intro prepared].
  apply no_http_bind; [apply solve_tsp_no_http|intro r]. apply no_http_ret.
Qed.

Lemma assemble_response_no_http (env : Env F) points cache route :
  no_http (assemble_response env points cache route).
Proof.
  unfold assemble_response.
  apply no_http_bind.
  - unfold fetch_full_route. destruct (_ <? _)%nat; [|apply no_http_ret].
    apply no_http_bind; [apply get_mapbox_route_data_no_http|].
    intros [d|]; apply no_http_ret.
  - intro full.
    apply no_http_bind; [apply no_http_lift, compute_totals_no_http|intro t].
    apply no_http_ret.
Qed.


(** The only sources of an [HTTPException]: the zero-weights guard (400) and
    a solver that found no solution (500). *)
Lemma optimize_http_inv fuel (env : Env F) request (log : list (Event F)) status d log' :
  optimize_delivery_route fuel env request log = (HTTPException status d, log') ->
  (status = 400
   /\ f_eq (f_add (weight_time request) (weight_distance request)) f_zero = true
   /\ log' = log)
  \/ (status = 500
      /\ d = "Failed to find an optimal route with OR-Tools."%string
      /\ exists cache, plan_route fuel env request log = (Ok (cache, None), log')).
Proof.
  unfold optimize_delivery_route. rewrite early_return_unreachable.
  destruct (f_eq _ f_zero) eqn:E.
  - intro H. apply lift_inv in H as [H ->]. inversion H; subst. auto.
  - intro H. right.
    apply bind_http_inv in H as [H|([cache res] & log1 & Hplan & H)].
    + now apply plan_route_no_http in H.
    + simpl in H. destruct res as [[route total]|].
      * now apply assemble_response_no_http in H.
      * apply lift_inv in H as [H ->]. inversion H; subst. eauto.
Qed.

End HttpFacts.

(* ================================================================== *)
(** ** C3: provider failures and the optimization failure *)


Section OutageFacts.

Variable F : Type.
Context {PF : PyFloat F} {L : PyFloatLaws PF}.



End OutageFacts.



(* ================================================================== *)
(** ** C8: the total cost returned by the solver adapter *)

Lemma consecutive_cons A (x : A) (l : list A) :
  consecutive (x :: l)
  = match l with [] => [] | y :: _ => (x, y) :: consecutive l end.
Proof. unfold consecutive. now destruct l. Qed.

Lemma consecutive_snoc A (l : list A) (a b : A) :
  consecutive (l ++ [a; b]) = consecutive (l ++ [a]) ++ [(a, b)].
Proof.
  induction l as [|x l IH]; [reflexivity|].
  rewrite <- !app_comm_cons, !consecutive_cons, IH.
  now destruct l.
Qed.

Lemma py_getitem_in_range A (l : list A) (i : Z) :
  0 <= i < Z.of_nat (length l) -> exists a, py_getitem l i = Ok a /\ In a l.
Proof.
  intro H. unfold py_getitem.
  replace (i <? 0) with false by (symmetry; apply Z.ltb_ge; lia).
  replace (0 <=? i) with true by (symmetry; apply Z.leb_le; lia).
  replace (i <? Z.of_nat (length l)) with true by (symmetry; apply Z.ltb_lt; lia).
  simpl. destruct (nth_error l (Z.to_nat i)) as [a|] eqn:E.
  - exists a. split; [reflexivity|]. eapply nth_error_In; eauto.
  - apply nth_error_None in E. lia.
Qed.

Section SolverFacts.

Variable F : Type.
Context {PF : PyFloat F}.

Lemma path_cost_snoc (cm : list (list F)) (l : list Z) (a b : Z) total row c :
  path_cost cm (l ++ [a]) = Ok total ->
  py_getitem cm a = Ok row -> py_getitem row b = Ok c ->
  path_cost cm (l ++ [a; b]) = Ok (f_add total c).
Proof.
  unfold path_cost. intros Hl Hrow Hc.
  rewrite consecutive_snoc, ofoldM_app, Hl. cbn [ofoldM obind fst snd].
  rewrite Hrow. cbn [obind]. rewrite Hc. reflexivity.
Qed.

(** The loop keeps the running total equal to the cost of the path walked
    so far, in the float matrix. *)
Lemma decode_solution_cost fuel routing next_var (cm : list (list F)) :
  forall index route total result total_cost,
    path_cost cm (route ++ [IndexToNode routing index]) = Ok total ->
    decode_solution fuel routing next_var cm index route total
    = Ok (result, total_cost) ->
    path_cost cm result = Ok total_cost.
Proof.
  induction fuel as [|fuel IH]; simpl; intros index route total result tc Hinv H;
    [discriminate|].
  destruct (IsEnd routing index).
  - inversion H; subst. exact Hinv.
  - apply obind_ok_inv in H as (row & Hrow & H).
    apply obind_ok_inv in H as (c & Hc & H).
    eapply IH; [|exact H]. rewrite <- app_assoc. simpl.
    eapply path_cost_snoc; eauto.
Qed.

(** The loop ends, within the fuel, on a solution that leads to an end
    index through nodes of the matrix. *)
Lemma decode_solution_ends routing next_var (cm : list (list F)) steps :
  Forall (fun row => length row = length cm) cm ->
  forall fuel index route total,
    reaches_end routing next_var (Z.of_nat (length cm)) index steps ->
    (steps < fuel)%nat ->
    exists result total_cost,
      decode_solution fuel routing next_var cm index route total
      = Ok (result, total_cost)
      /\ length result = (length route + S steps)%nat.
Proof.
  intro Hsq. induction steps as [|steps IH]; intros fuel index route total Hr Hf;
    (destruct fuel as [|fuel]; [lia|]); simpl in *.
  - destruct Hr as [_ ->]. eexists. eexists. split; [reflexivity|].
    rewrite length_app. simpl. lia.
  - destruct Hr as (Hnode & -> & Hr).
    destruct (py_getitem_in_range cm Hnode) as (row & -> & Hrow). simpl.
    rewrite Forall_forall in Hsq. specialize (Hsq row Hrow).
    assert (Hnext : 0 <= IndexToNode routing (next_var index) < Z.of_nat (length row)).
    { rewrite Hsq. destruct steps; simpl in Hr; tauto. }
    destruct (py_getitem_in_range row Hnext) as (c & -> & _). simpl.
    destruct (IH fuel (next_var index) (route ++ [IndexToNode routing index])
                 (f_add total c) Hr) as (result & tc & -> & Hlen); [lia|].
    eexists. eexists. split; [reflexivity|].
    rewrite Hlen, length_app. simpl. lia.
Qed.

Lemma solve_tsp_some_inv fuel (env : Env F) cm n s e (log log' : list (Event F))
    route total_cost :
  solve_tsp_with_ortools fuel env cm n s e log = (Ok (Some (route, total_cost)), log') ->
  exists scaled next_var,
    scale_cost_matrix cm = Ok scaled
    /\ SolveWithParameters env (length log) n s e
         (travel_cost_callback (pywrapcp_routing env n s e) scaled) = Some next_var
    /\ decode_solution fuel (pywrapcp_routing env n s e) next_var cm
         (Start (pywrapcp_routing env n s e)) [] f_zero = Ok (route, total_cost)
    /\ log' = log ++ [SolveCall n s e scaled].
Proof.
  unfold solve_tsp_with_ortools. intro H.
  apply bind_ok_inv in H as (scaled & log1 & Hs & H).
  apply lift_inv in Hs as [Hs ->].
  apply bind_ok_inv in H as (sol & log2 & Hc & H).
  unfold call in Hc. inversion Hc; subst. clear Hc.
  destruct (SolveWithParameters _ _ _ _ _ _) as [next|] eqn:E.
  - apply bind_ok_inv in H as (r & log3 & Hd & H).
    apply lift_inv in Hd as [Hd ->]. apply ret_inv in H as [H ->].
    inversion H; subst. eauto 8.
  - apply ret_inv in H as [H _]. discriminate.
Qed.

End SolverFacts.

(** C8.  In every float arithmetic.  When [solve_tsp_with_ortools] returns a
    route and a total cost, the total cost is the sum, accumulated from 0.0
    along the route, of the entries of the float cost matrix it was given
    (the unscaled one) over the consecutive pairs of the route; the scaled
    integer matrix only goes to the solver.  And it does return them: when
    OR-Tools returns a solution that leads from the start index to an end
    index in [steps] moves through nodes of the (square) matrix, the decoding
    loop ends within any fuel above [steps] with a route of [steps + 1]
    nodes. *)
Theorem total_cost_is_unscaled_path_cost :
  (forall (F : Type) (PF : PyFloat F) fuel (env : Env F) cost_matrix n s e
          (log log' : list (Event F)) route total_cost,
      solve_tsp_with_ortools fuel env cost_matrix n s e log
      = (Ok (Some (route, total_cost)), log') ->
      path_cost cost_matrix route = Ok total_cost)
  /\ (forall (F : Type) (PF : PyFloat F) fuel (env : Env F) cost_matrix n s e
             (log : list (Event F)) scaled next_var steps,
         let routing := pywrapcp_routing env n s e in
         scale_cost_matrix cost_matrix = Ok scaled ->
         SolveWithParameters env (length log) n s e
           (travel_cost_callback routing scaled) = Some next_var ->
         Forall (fun row => length row = length cost_matrix) cost_matrix ->
         reaches_end routing next_var (Z.of_nat (length cost_matrix))
           (Start routing) steps ->
         (steps < fuel)%nat ->
         exists route total_cost,
           solve_tsp_with_ortools fuel env cost_matrix n s e log
           = (Ok (Some (route, total_cost)), log ++ [SolveCall n s e scaled])
           /\ length route = S steps
           /\ path_cost cost_matrix route = Ok total_cost).
Proof.
  split.
  - intros F PF fuel env cm n s e log log' route tc H.
    apply solve_tsp_some_inv in H as (scaled & next & _ & _ & Hd & _).
    eapply decode_solution_cost; [|exact Hd]. reflexivity.
  - intros F PF fuel env cm n s e log scaled next steps routing Hs Hsol Hsq Hr Hf.
    destruct (@decode_solution_ends F PF routing next cm steps Hsq fuel
                (Start routing) [] f_zero Hr Hf)
      as (route & tc & Hd & Hlen).
    exists route, tc. split; [|split].
    + unfold solve_tsp_with_ortools. unfold bind at 1. unfold lift at 1.
      rewrite Hs. unfold bind at 1. unfold call. fold routing. rewrite Hsol.
      unfold bind, lift. rewrite Hd. reflexivity.
    + exact Hlen.
    + eapply decode_solution_cost; [|exact Hd]. reflexivity.
Qed.

(** A run in binary64: the arcs of the route cost 0.0015 each, the total
    cost is 0.003, and the scaled costs handed to OR-Tools are 1 each. *)
Example total_cost_is_not_the_scaled_objective :
  solve_tsp_with_ortools 10 b64_steady
    [[0; 0.0015; 0.0015]; [0.0015; 0; 0.0015]; [0.0015; 0.0015; 0]]%float
    3 0 2 []
  = (Ok (Some ([0; 1; 2], 0.003%float)),
     [SolveCall 3 0 2 [[0; 1; 1]; [1; 0; 1]; [1; 1; 0]]]).
Proof. vm_compute. reflexivity. Qed.

(* ================================================================== *)
(** ** C10: the totals of the response *)


Lemma consecutive_length A (l : list A) : length (consecutive l) = (length l - 1)%nat.
Proof.
  unfold consecutive. rewrite length_combine. destruct l; cbn [tl length]; lia.
Qed.


Lemma node_ids_in (n : nat) (a : Z) : In a (node_ids n) -> 0 <= a < Z.of_nat n.
Proof.
  unfold node_ids. rewrite in_map_iff. intros (i & <- & Hi).
  apply in_seq in Hi. lia.
Qed.

Section TotalsFacts.

Variable F : Type.
Context {PF : PyFloat F}.

Lemma py_getitem_nth (points : list (PointDetail F)) (a : Z) :
  0 <= a < Z.of_nat (length points) ->
  exists p, py_getitem points a = Ok p /\ nth_error points (Z.to_nat a) = Some p.
Proof.
  intro H. unfold py_getitem.
  replace (a <? 0) with false by (symmetry; apply Z.ltb_ge; lia).
  replace (0 <=? a) with true by (symmetry; apply Z.leb_le; lia).
  replace (a <? Z.of_nat (length points)) with true by (symmetry; apply Z.ltb_lt; lia).
  simpl. destruct (nth_error points (Z.to_nat a)) as [p|] eqn:E; [eauto|].
  apply nth_error_None in E. lia.
Qed.



End TotalsFacts.




(* ================================================================== *)
(** ** The cost matrix in exact arithmetic *)

Module ExactCosts.

Import Exact ExactFacts ExactBounds.












End ExactCosts.

(* ================================================================== *)
(** ** Pass 2: the entries of the cost matrix *)

Lemma omapM_ok_in A B (f : A -> outcome B) l bs b :
  omapM f l = Ok bs -> In b bs -> exists a, In a l /\ f a = Ok b.
Proof.
  intros H Hb. apply In_nth_error in Hb as (i & Hi).
  eapply omapM_ok_nth in H as (a & Ha & Hf); [|exact Hi].
  exists a. split; [eapply nth_error_In; eauto|exact Hf].
Qed.

Section MatrixFacts.

Variable F : Type.
Context {PF : PyFloat F}.

Lemma prepare_cost_matrix_inv (env : Env F) request (log log' : list (Event F)) cache cm :
  prepare_cost_matrix env request log = (Ok (cache, cm), log') ->
  exists w collected,
    normalize_weights request = Ok w
    /\ collect_estimates env (all_points_details env request) log = (Ok collected, log')
    /\ cache = all_segments_data_cache collected
    /\ build_cost_matrix (all_points_details env request) cache (fst w) (snd w)
         (py_max f_one (max_duration_for_normalization collected))
         (py_max f_one (max_distance_for_normalization collected)) = Ok cm.
Proof.
  unfold prepare_cost_matrix. intro H.
  apply bind_ok_inv in H as (w & log1 & Hw & H). apply lift_inv in Hw as [Hw ->].
  apply bind_ok_inv in H as (collected & log2 & Hc & H).
  apply bind_ok_inv in H as (cm' & log3 & Hb & H). apply lift_inv in Hb as [Hb ->].
  apply ret_inv in H as [H ->]. inversion H; subst. eauto 8.
Qed.


Lemma build_cost_matrix_shape points (cache : Cache F) a b Mt Md cm :
  build_cost_matrix points cache a b Mt Md = Ok cm ->
  length cm = length points
  /\ forall row, In row cm -> length row = length points.
Proof.
  unfold build_cost_matrix. intro H. split.
  - apply omapM_ok_length in H. rewrite H. apply enumerate_length.
  - intros row Hrow. eapply omapM_ok_in in H as (ip & _ & Hr); [|exact Hrow].
    apply omapM_ok_length in Hr. rewrite Hr. apply enumerate_length.
Qed.


(** The log after sections 7.2 and 7.3, whatever the solver answers: the
    calls of pass 1, then the solver call with the scaled matrix. *)
Lemma plan_route_log fuel (env : Env F) request (log log' : list (Event F)) cache cm scaled :
  prepare_cost_matrix env request log = (Ok (cache, cm), log') ->
  scale_cost_matrix cm = Ok scaled ->
  let n := length (all_points_details env request) in
  snd (plan_route fuel env request log)
  = log' ++ [SolveCall n 0 (Z.of_nat n - 1) scaled].
Proof.
  intros Hp Hs n. unfold plan_route, solve_tsp_with_ortools, bind, lift, call, ret.
  fold n. rewrite Hp. cbn [fst snd]. rewrite Hs.
  destruct (SolveWithParameters env _ _ _ _ _) as [next|]; [|reflexivity].
  destruct (decode_solution _ _ _ _ _ _ _); reflexivity.
Qed.

End MatrixFacts.

Module ExactMatrix.

Import Exact ExactFacts ExactBounds ExactCosts.


End ExactMatrix.

(* ================================================================== *)
(** ** C6: the entries of the cost matrix *)




(* ================================================================== *)
(** ** C9: the cache covers every pair, the solver sees bounded costs *)



(* ================================================================== *)
(** ** The hypotheses of C7 and C8 at concrete inputs *)

(** In exact arithmetic the weights one half and one half are normalized to
    weights that sum to 1. *)
Lemma weights_guard_and_normalization_witness :
  exists a b, normalize_weights x_one_order = Ok (a, b) /\ f_add a b = f_one.
Proof.
  exact (proj2 (proj2 weights_guard_and_normalization) x_one_order eq_refl eq_refl).
Defined.

(** In binary64: a three-node matrix, the solution [0 -> 1 -> 2], fuel 10. *)
Lemma total_cost_is_unscaled_path_cost_witness :
  exists route total_cost,
    solve_tsp_with_ortools 10 b64_steady
      [[0; 0.0015; 0.0015]; [0.0015; 0; 0.0015]; [0.0015; 0.0015; 0]]%float 3 0 2 []
    = (Ok (Some (route, total_cost)), [] ++ [SolveCall 3 0 2 [[0; 1; 1]; [1; 0; 1]; [1; 1; 0]]])
    /\ length route = 3%nat
    /\ path_cost
         [[0; 0.0015; 0.0015]; [0.0015; 0; 0.0015]; [0.0015; 0.0015; 0]]%float route
       = Ok total_cost.
Proof.
  apply (proj2 total_cost_is_unscaled_path_cost float Binary64.py_float 10%nat
           b64_steady
           [[0; 0.0015; 0.0015]; [0.0015; 0; 0.0015]; [0.0015; 0.0015; 0]]%float
           3%nat 0 2 [] [[0; 1; 1]; [1; 0; 1]; [1; 1; 0]] chain_solution 2%nat).
  - vm_compute. reflexivity.
  - reflexivity.
  - repeat constructor.
  - simpl. repeat split; reflexivity || lia.
  - lia.
Defined.

Section AccountingFacts.

Variable F : Type.
Context {PF : PyFloat F}.

Lemma count_calls_app (kind : Event F -> bool) (l1 l2 : list (Event F)) :
  count_calls kind (l1 ++ l2) = (count_calls kind l1 + count_calls kind l2)%nat.
Proof. unfold count_calls. now rewrite filter_app, length_app. Qed.

(** The estimate of a pair logs the provider request, then the prediction
    when a predictor is loaded, and nothing else. *)
Lemma estimate_pair_log (env : Env F) (p q : PointDetail F) (log : list (Event F)) :
  estimate_pair env p q log
  = (Ok (estimate_of env p q log), log ++ pair_events env p q log).
Proof.
  unfold estimate_pair, estimate_of, resolved_duration, predictor_answer,
    provider_answer, predict_duration, get_mapbox_route_data, pair_coords,
    pair_events, bind, call, ret.
  destruct (DELIVERY_MODEL env) as [model|]; [|reflexivity].
  rewrite last_length, <- app_assoc.
  destruct (model _ _); reflexivity.
Qed.

Lemma pair_events_counts (env : Env F) p q (log : list (Event F)) :
  count_calls (@is_provider_request F) (pair_events env p q log) = 1%nat
  /\ count_calls (@is_prediction F) (pair_events env p q log)
     = predictions_per_pair env
  /\ count_calls (@is_solver_run F) (pair_events env p q log) = 0%nat.
Proof.
  unfold pair_events, predictions_per_pair.
  destruct (DELIVERY_MODEL env); repeat split; reflexivity.
Qed.

(** The calls of pass 1 over a list of pairs: one provider request per pair
    that is not skipped, one prediction per such pair when a predictor is
    loaded, and no solver run. *)
Lemma collect_fold_log (env : Env F) l :
  forall st (log : list (Event F)),
    exists st' added,
      foldM (collect_step env) l st log = (Ok st', log ++ added)
      /\ count_calls (@is_provider_request F) added
         = length (filter (@off_diagonal F) l)
      /\ count_calls (@is_prediction F) added
         = (predictions_per_pair env * length (filter (@off_diagonal F) l))%nat
      /\ count_calls (@is_solver_run F) added = 0%nat.
Proof.
  induction l as [|[[i p] [j q]] l IH]; intros st log.
  - exists st, []. rewrite app_nil_r. simpl. unfold ret.
    rewrite Nat.mul_0_r. auto.
  - cbn [foldM filter]. unfold bind at 1. unfold collect_step at 1.
    replace (off_diagonal (i, p, (j, q))) with (negb (Nat.eqb i j)) by reflexivity.
    destruct (Nat.eqb i j); cbn [negb].
    + unfold ret at 1. exact (IH st log).
    + unfold bind at 1. rewrite estimate_pair_log. unfold ret at 1.
      destruct (IH (record_estimate st p q (estimate_of env p q log))
                   (log ++ pair_events env p q log))
        as (st' & added & Hrun & Hm & Hp & Hs).
      exists st', (pair_events env p q log ++ added).
      rewrite app_assoc. split; [exact Hrun|].
      destruct (pair_events_counts env p q log) as (Em & Ep & Es).
      rewrite !count_calls_app, Em, Ep, Es, Hm, Hp, Hs.
      cbn [length]. repeat split; lia.
Qed.

End AccountingFacts.

Lemma filter_flat_map_length A B (f : B -> bool) (g : A -> list B) (l : list A) k :
  (forall a, In a l -> length (filter f (g a)) = k) ->
  length (filter f (flat_map g l)) = (length l * k)%nat.
Proof.
  induction l as [|a l IH]; intro H; [reflexivity|].
  cbn [flat_map length]. rewrite filter_app, length_app, IH, (H a).
  - simpl. lia.
  - now left.
  - intros b Hb. apply H. now right.
Qed.

Lemma enumerate_others_gen A (l : list A) (i s : nat) :
  (s <= i < s + length l)%nat ->
  length (filter (fun jp : nat * A => negb (Nat.eqb i (fst jp)))
            (combine (seq s (length l)) l))
  = (length l - 1)%nat.
Proof.
  revert s. induction l as [|x l IH]; intros s H; [simpl in H; lia|].
  cbn [length seq combine filter fst].
  destruct (Nat.eqb i s) eqn:E; cbn [negb].
  - apply Nat.eqb_eq in E. subst s.
    assert (G : forall (m : list A) t, (i < t)%nat ->
              filter (fun jp : nat * A => negb (Nat.eqb i (fst jp)))
                (combine (seq t (length m)) m) = combine (seq t (length m)) m).
    { induction m as [|y m IHm]; intros t Ht; [reflexivity|].
      cbn [length seq combine filter fst].
      replace (Nat.eqb i t) with false by (symmetry; apply Nat.eqb_neq; lia).
      cbn [negb]. f_equal. apply IHm. lia. }
    rewrite G by lia. rewrite length_combine, length_seq. lia.
  - apply Nat.eqb_neq in E. cbn [length]. rewrite IH by (simpl in H; lia).
    simpl in H. lia.
Qed.

Section PairCount.

Variable F : Type.
Context {PF : PyFloat F}.

(** The two nested loops of pass 1 visit [n * (n - 1)] pairs of distinct
    indices. *)
Lemma off_diagonal_pairs (points : list (PointDetail F)) :
  length (filter (@off_diagonal F) (index_pairs points))
  = (length points * (length points - 1))%nat.
Proof.
  unfold index_pairs.
  rewrite filter_flat_map_length with (k := (length points - 1)%nat);
    [now rewrite enumerate_length|].
  intros [i p] Hi. apply enumerate_in in Hi.
  assert (Hlt : (i < length points)%nat) by (apply nth_error_Some; congruence).
  rewrite <- (enumerate_others_gen points (i := i) (s := 0)) by lia.
  unfold enumerate.
  induction (combine (seq 0 (length points)) points) as [|[j q] l IH];
    [reflexivity|].
  cbn [map filter]. unfold off_diagonal at 1. cbn [fst snd].
  destruct (Nat.eqb i j); cbn [negb length]; auto.
Qed.

End PairCount.

Section RunLog.

Variable F : Type.
Context {PF : PyFloat F}.

(** Whatever OR-Tools answers, [solve_tsp_with_ortools] runs it once, on the
    scaled matrix. *)
Lemma solve_tsp_ok_log fuel (env : Env F) cm n s e (log log' : list (Event F)) res :
  solve_tsp_with_ortools fuel env cm n s e log = (Ok res, log') ->
  exists scaled,
    scale_cost_matrix cm = Ok scaled /\ log' = log ++ [SolveCall n s e scaled].
Proof.
  unfold solve_tsp_with_ortools. intro H.
  apply bind_ok_inv in H as (scaled & log1 & Hs & H).
  apply lift_inv in Hs as [Hs ->].
  apply bind_ok_inv in H as (sol & log2 & Hc & H).
  unfold call in Hc. inversion Hc; subst. clear Hc.
  exists scaled. split; [exact Hs|].
  destruct (SolveWithParameters _ _ _ _ _ _) as [next|].
  - apply bind_ok_inv in H as (r & log3 & Hd & H).
    apply lift_inv in Hd as [_ ->]. now apply ret_inv in H as [_ ->].
  - now apply ret_inv in H as [_ ->].
Qed.

(** The log of sections 7.2 and 7.3: the calls of pass 1, one provider
    request (and one prediction, with a predictor) per ordered pair of
    distinct points, then the solver run. *)
Lemma plan_route_ok_log fuel (env : Env F) request (log log1 : list (Event F)) cache res :
  plan_route fuel env request log = (Ok (cache, res), log1) ->
  let n := length (all_points_details env request) in
  exists pass1 cm scaled,
    prepare_cost_matrix env request log = (Ok (cache, cm), log ++ pass1)
    /\ scale_cost_matrix cm = Ok scaled
    /\ log1 = log ++ pass1 ++ [SolveCall n 0 (Z.of_nat n - 1) scaled]
    /\ count_calls (@is_provider_request F) pass1 = (n * (n - 1))%nat
    /\ count_calls (@is_prediction F) pass1
       = (predictions_per_pair env * (n * (n - 1)))%nat
    /\ count_calls (@is_solver_run F) pass1 = 0%nat.
Proof.
  intros H n. unfold plan_route in H.
  apply bind_ok_inv in H as ([cache' cm] & log2 & Hprep & H).
  apply bind_ok_inv in H as (r & log3 & Hsolve & H).
  apply ret_inv in H as [H ->]. inversion H; subst cache' r. clear H.
  cbn [fst snd] in Hsolve.
  apply solve_tsp_ok_log in Hsolve as (scaled & Hscaled & ->).
  pose proof Hprep as Hinv.
  apply prepare_cost_matrix_inv in Hinv as (w & collected & _ & Hcol & _ & _).
  unfold collect_estimates in Hcol.
  match type of Hcol with
  | foldM _ _ ?st0 _ = _ =>
      destruct (collect_fold_log env (index_pairs (all_points_details env request))
                  st0 log) as (st' & pass1 & Hrun & Hm & Hp & Hs)
  end.
  rewrite Hrun in Hcol. inversion Hcol; subst. clear Hcol.
  exists pass1, cm, scaled. rewrite off_diagonal_pairs in Hm, Hp.
  fold n in Hm, Hp. rewrite <- app_assoc. auto 8.
Qed.

(** A request for a non-empty coordinate list is one call of the provider. *)
Lemma get_mapbox_route_data_call (env : Env F) coords overview steps
    (log : list (Event F)) :
  coords <> [] ->
  get_mapbox_route_data env coords overview steps log
  = (Ok (mapbox_api env (length log) coords overview steps),
     log ++ [MapboxCall coords overview steps]).
Proof. destruct coords; [contradiction|reflexivity]. Qed.

(** The route that is used has at least two points of the point list. *)
Lemma used_route_has_two_points (points : list (PointDetail F)) (route : list Z) :
  (2 <= length points)%nat ->
  (1 <? length (route_point_details points (checked_route (length points) route)))%nat
  = true.
Proof.
  intro Hn. destruct (checked_route_ends route Hn) as (middle & Hhead & Hlast).
  rewrite Hhead in *. apply Nat.ltb_lt.
  destruct middle as [|m middle]; [simpl in Hlast; lia|].
  assert (Hne : m :: middle <> []) by discriminate.
  rewrite (nonempty_snoc 0 Hne) in *.
  change (0 :: removelast (m :: middle) ++ [last (m :: middle) 0])
    with ((0 :: removelast (m :: middle)) ++ [last (m :: middle) 0]) in Hlast.
  rewrite last_last in Hlast.
  set (mid := removelast (m :: middle)) in *. rewrite Hlast.
  unfold route_point_details. cbn [flat_map]. rewrite flat_map_app. cbn [flat_map].
  change (point_at points 0) with (point_at points (Z.of_nat 0)).
  replace (Z.of_nat (length points) - 1) with (Z.of_nat (length points - 1)) by lia.
  rewrite !point_at_nat.
  destruct (nth_error points 0) as [p0|] eqn:E0;
    [|apply nth_error_None in E0; lia].
  destruct (nth_error points (length points - 1)) as [pl|] eqn:El;
    [|apply nth_error_None in El; lia].
  rewrite !length_app. simpl. lia.
Qed.

(** Section 7.4 makes one provider request, the last call of the run: for
    the coordinates of the route points, in route order, with the full
    overview and the steps.  Its answer only fills the geometry and the
    legs. *)
Lemma assemble_response_run (env : Env F) points cache route
    (log log' : list (Event F)) resp :
  (2 <= length points)%nat ->
  assemble_response env points cache route log = (Ok resp, log') ->
  let coords := map (@route_point_coords F) (optimized_route resp) in
  log' = log ++ [MapboxCall coords "full" true]
  /\ (full_route_geometry resp, full_route_legs resp)
     = match mapbox_api env (length log) coords "full" true with
       | Some d => (mr_geometry d, option_map (map (@convert_leg F PF)) (mr_legs d))
       | None => (None, None)
       end.
Proof.
  intros Hn H coords. unfold assemble_response, fetch_full_route in H.
  rewrite length_map, used_route_has_two_points in H by exact Hn.
  set (visited := route_point_details points (checked_route (length points) route)) in *.
  assert (Hc : map (fun pd : PointDetail F => (pd_longitude pd, pd_latitude pd)) visited
               = map (@route_point_coords F) (map to_route_point visited))
    by (now rewrite map_map).
  pose proof (used_route_has_two_points points route Hn) as Hlen. fold visited in Hlen.
  rewrite Hc in H.
  apply bind_ok_inv in H as (full & log1 & Hfull & H).
  apply bind_ok_inv in Hfull as (answer & log2 & Hcall & Hfull).
  rewrite get_mapbox_route_data_call in Hcall
    by (destruct visited; [discriminate|discriminate]).
  inversion Hcall; subst answer log2. clear Hcall.
  apply bind_ok_inv in H as (totals & log3 & Ht & H). apply lift_inv in Ht as [_ ->].
  apply ret_inv in H as [H ->]. inversion H; subst resp. clear H.
  cbn [optimized_route full_route_geometry full_route_legs]. fold coords in Hfull |- *.
  destruct (mapbox_api env (length log) _ _ _) as [d|];
    apply ret_inv in Hfull as [Hfull ->]; inversion Hfull; subst full;
    split; reflexivity.
Qed.

End RunLog.

(* ================================================================== *)
(** ** The external calls of a request *)

(** X1.  In every float arithmetic.  A request with [k] orders that is
    answered with a route has made, for [n = k + 2] points: exactly
    [n * (n - 1) + 1] requests to the routing provider (one per ordered pair
    of distinct points in pass 1, and the full-route request), exactly
    [n * (n - 1)] predictions when a predictor is loaded and none otherwise,
    and exactly one run of the solver.  Nothing is taken from the log: the
    calls are appended to it. *)
Theorem successful_run_call_budget :
  forall (F : Type) (PF : PyFloat F) (fuel : nat) (env : Env F)
         (request : OptimizeRouteRequest F) (log log' : list (Event F))
         (resp : OptimizedRouteResponse F),
    optimize_delivery_route fuel env request log = (Ok resp, log') ->
    let n := S (S (length (orders request))) in
    exists added,
      log' = log ++ added
      /\ count_calls (@is_provider_request F) added = (n * (n - 1) + 1)%nat
      /\ count_calls (@is_prediction F) added
         = (predictions_per_pair env * (n * (n - 1)))%nat
      /\ count_calls (@is_solver_run F) added = 1%nat.
Proof.
  intros F PF fuel env request log log' resp H n.
  apply optimize_ok_inv in H as (cache & route & total & log1 & Hplan & Hasm).
  apply plan_route_ok_log in Hplan
    as (pass1 & cm & scaled & _ & _ & -> & Hm & Hp & Hs).
  rewrite all_points_length in Hm, Hp. fold n in Hm, Hp.
  apply assemble_response_run in Hasm as [-> _];
    [|rewrite all_points_length; lia].
  eexists. split; [rewrite <- !app_assoc; reflexivity|].
  rewrite !count_calls_app, Hm, Hp, Hs. unfold count_calls.
  cbn [filter is_provider_request is_prediction is_solver_run length].
  repeat split; lia.
Qed.

(** Two orders and a predictor, in binary64: 13 provider requests, 12
    predictions, one solver run. *)
Lemma successful_run_call_budget_witness :
  exists resp log',
    optimize_delivery_route 10 b64_predicting b64_two_orders [] = (Ok resp, log')
    /\ count_calls (@is_provider_request float) log' = 13%nat
    /\ count_calls (@is_prediction float) log' = 12%nat
    /\ count_calls (@is_solver_run float) log' = 1%nat.
Proof.
  destruct (optimize_delivery_route 10 b64_predicting b64_two_orders [])
    as [[resp| | |] log'] eqn:E; try (vm_compute in E; discriminate).
  exists resp, log'. split; [reflexivity|].
  destruct (@successful_run_call_budget float Binary64.py_float 10%nat
              b64_predicting b64_two_orders [] log' resp E)
    as (added & -> & Hm & Hp & Hs).
  simpl app. rewrite Hm, Hp, Hs. repeat split; reflexivity.
Defined.

(** X2.  In every float arithmetic.  An error answer of the endpoint has
    cost either nothing or everything but the full-route request: with
    status 400 no external call was made; with status 500 (the solver found
    no solution) pass 1 has made its [n * (n - 1)] provider requests (and as
    many predictions, with a predictor), the solver has run once, as the
    last call, and no full-route request was made. *)
Theorem failed_run_call_budget :
  forall (F : Type) (PF : PyFloat F) (fuel : nat) (env : Env F)
         (request : OptimizeRouteRequest F) (log log' : list (Event F))
         (status : Z) (detail : string),
    optimize_delivery_route fuel env request log = (HTTPException status detail, log') ->
    let n := S (S (length (orders request))) in
    (status = 400 /\ log' = log)
    \/ (status = 500
        /\ exists pass1 scaled,
            log' = log ++ pass1 ++ [SolveCall n 0 (Z.of_nat n - 1) scaled]
            /\ count_calls (@is_provider_request F) pass1 = (n * (n - 1))%nat
            /\ count_calls (@is_prediction F) pass1
               = (predictions_per_pair env * (n * (n - 1)))%nat
            /\ count_calls (@is_solver_run F) pass1 = 0%nat).
Proof.
  intros F PF fuel env request log log' status detail H n.
  apply optimize_http_inv in H as [(-> & _ & ->)|(-> & _ & cache & Hplan)];
    [left; auto|right].
  split; [reflexivity|].
  apply plan_route_ok_log in Hplan
    as (pass1 & cm & scaled & _ & _ & -> & Hm & Hp & Hs).
  rewrite all_points_length in *. fold n in Hm, Hp |- *.
  exists pass1, scaled. auto.
Qed.

(** One order and a solver that finds nothing, in binary64: status 500
    after six provider requests and the solver run. *)
Lemma failed_run_call_budget_witness :
  exists detail log',
    optimize_delivery_route 10 b64_no_solution b64_one_order []
    = (HTTPException 500 detail, log')
    /\ count_calls (@is_provider_request float) log' = 6%nat
    /\ count_calls (@is_solver_run float) log' = 1%nat.
Proof.
  destruct (optimize_delivery_route 10 b64_no_solution b64_one_order [])
    as [[resp|status detail| |] log'] eqn:E; try (vm_compute in E; discriminate).
  destruct (@failed_run_call_budget float Binary64.py_float 10%nat
              b64_no_solution b64_one_order [] log' status detail E)
    as [[-> _]|(-> & pass1 & scaled & -> & Hm & _ & Hs)];
    [vm_compute in E; discriminate|].
  exists detail. eexists. split; [reflexivity|].
  simpl app. rewrite !count_calls_app, Hm, Hs.
  split; reflexivity.
Defined.

(** X3.  In every float arithmetic.  The last external call of a request
    that is answered with a route is the full-route request: it asks the
    provider for the coordinates (longitude, latitude) of the points of
    [optimized_route], in route order, with the full overview and the
    steps.  The geometry and the legs of the response are read off its
    answer, each leg and step converted; when that request fails the
    response is made all the same, with neither geometry nor legs. *)
Theorem full_route_request_follows_the_route :
  forall (F : Type) (PF : PyFloat F) (fuel : nat) (env : Env F)
         (request : OptimizeRouteRequest F) (log log' : list (Event F))
         (resp : OptimizedRouteResponse F),
    optimize_delivery_route fuel env request log = (Ok resp, log') ->
    let coords := map (@route_point_coords F) (optimized_route resp) in
    exists before,
      log' = before ++ [MapboxCall coords "full" true]
      /\ (full_route_geometry resp, full_route_legs resp)
         = match mapbox_api env (length before) coords "full" true with
           | Some d => (mr_geometry d, option_map (map (@convert_leg F PF)) (mr_legs d))
           | None => (None, None)
           end.
Proof.
  intros F PF fuel env request log log' resp H coords.
  apply optimize_ok_inv in H as (cache & route & total & log1 & _ & Hasm).
  apply assemble_response_run in Hasm as [-> Hfull];
    [|rewrite all_points_length; lia].
  exists log1. split; [reflexivity|exact Hfull].
Qed.

(** During a provider outage, in binary64: the route is answered without
    geometry and without legs. *)
Lemma full_route_request_follows_the_route_witness :
  exists resp before,
    optimize_delivery_route 10 b64_outage b64_one_order []
    = (Ok resp, before ++ [MapboxCall
                             [(107, 11); (108, 12); (106, 10)]%float "full" true])
    /\ full_route_geometry resp = None /\ full_route_legs resp = None.
Proof.
  destruct (optimize_delivery_route 10 b64_outage b64_one_order [])
    as [[resp| | |] log'] eqn:E; try (vm_compute in E; discriminate).
  destruct (@full_route_request_follows_the_route float Binary64.py_float 10%nat
              b64_outage b64_one_order [] log' resp E)
    as (before & -> & Hfull).
  exists resp, before.
  assert (Hc : map (@route_point_coords float) (optimized_route resp)
               = [(107, 11); (108, 12); (106, 10)]%float).
  { vm_compute in E. inversion E. reflexivity. }
  rewrite Hc in *. split; [reflexivity|].
  simpl in Hfull. inversion Hfull. split; reflexivity.
Defined.

(* ================================================================== *)
(** ** The segments of the response *)

Lemma consecutive_map A B (f : A -> B) (l : list A) :
  consecutive (map f l) = map (fun ab => (f (fst ab), f (snd ab))) (consecutive l).
Proof.
  induction l as [|a l IH]; [reflexivity|].
  cbn [map]. rewrite !consecutive_cons. destruct l as [|b l]; [reflexivity|].
  cbn [map] in *. now rewrite IH.
Qed.

Section SegmentFacts.

Variable F : Type.
Context {PF : PyFloat F}.

(** An index within the point list, counted from its start, denotes the
    same point for the route loop and for the segment loop. *)
Lemma point_at_in_range (points : list (PointDetail F)) (a : Z) :
  0 <= a < Z.of_nat (length points) ->
  exists p, py_getitem points a = Ok p /\ point_at points a = [p].
Proof.
  intro H. destruct (py_getitem_nth points H) as (p & Hp & Hn).
  exists p. split; [exact Hp|]. unfold point_at. rewrite Hn.
  replace (0 <=? a) with true by (symmetry; apply Z.leb_le; lia).
  replace (a <? Z.of_nat (length points)) with true by (symmetry; apply Z.ltb_lt; lia).
  reflexivity.
Qed.

(** One step of the segment loop fails only on an index out of range, and
    otherwise appends one segment between the two points it looked up. *)
Lemma segment_step_inv (points : list (PointDetail F)) (cache : Cache F) st a b :
  match py_getitem points a, py_getitem points b with
  | Ok p, Ok q =>
      exists st' duration distance,
        segment_step points cache st (a, b) = Ok st'
        /\ segments_details_list st'
           = segments_details_list st ++ [make_segment p q duration distance]
  | _, _ => segment_step points cache st (a, b) = Uncaught "IndexError"
  end.
Proof.
  unfold segment_step.
  assert (G : forall i, (exists p, py_getitem points i = Ok p)
                        \/ py_getitem points i = Uncaught "IndexError").
  { intro i. unfold py_getitem.
    destruct (_ && _); [|auto]. destruct (nth_error _ _); eauto. }
  destruct (G a) as [(p & ->)| ->]; [|reflexivity].
  destruct (G b) as [(q & ->)| ->]; [|reflexivity].
  cbn [obind].
  destruct (cache_get cache (cache_key p q)) as [sd|];
    [destruct (negb _ && negb _)|]; eexists; eexists; eexists;
    (split; [reflexivity|reflexivity]).
Qed.

(** The segment loop over a route of indices within the point list: the
    segments join the consecutive points of the route. *)
Lemma segments_join_route_points (points : list (PointDetail F)) (cache : Cache F) :
  forall route st,
    Forall (fun i => 0 <= i < Z.of_nat (length points)) route ->
    exists st',
      ofoldM (segment_step points cache) (consecutive route) st = Ok st'
      /\ map (@segment_ends F) (segments_details_list st')
         = map (@segment_ends F) (segments_details_list st)
           ++ consecutive (map (@point_label F)
                             (map to_route_point (route_point_details points route)))
      /\ length (route_point_details points route) = length route.
Proof.
  induction route as [|a route IH]; intros st Hr.
  - exists st. simpl. now rewrite app_nil_r.
  - inversion Hr as [|a' r' Ha Hrest]; subst.
    destruct (point_at_in_range points Ha) as (p & Hp & Hpa).
    rewrite consecutive_cons. destruct route as [|b route].
    + exists st. unfold route_point_details. cbn [flat_map]. rewrite Hpa.
      simpl. now rewrite app_nil_r.
    + inversion Hrest as [|b' r'' Hb _]; subst.
      destruct (point_at_in_range points Hb) as (q & Hq & Hqb).
      pose proof (segment_step_inv points cache st a b) as Hstep.
      rewrite Hp, Hq in Hstep. destruct Hstep as (st1 & t & d & Hstep & Hsegs).
      destruct (IH st1 Hrest) as (st' & Hrun & Hends & Hlen).
      exists st'. cbn [ofoldM]. rewrite Hstep. cbn [obind].
      split; [exact Hrun|]. split.
      * rewrite Hends, Hsegs, map_app, <- app_assoc. f_equal.
        unfold route_point_details in *. cbn [flat_map] in *.
        rewrite Hpa, Hqb in *. cbn [app map] in *.
        rewrite (consecutive_cons (point_label (to_route_point p))). reflexivity.
      * unfold route_point_details in *. cbn [flat_map] in *. rewrite Hpa.
        cbn [app length]. now rewrite Hlen.
Qed.


Lemma py_getitem_accepts A (l : list A) (i : Z) :
  - Z.of_nat (length l) <= i < Z.of_nat (length l) ->
  exists a, py_getitem l i = Ok a.
Proof.
  intro H. unfold py_getitem. destruct (i <? 0) eqn:E.
  - apply Z.ltb_lt in E.
    replace (0 <=? i + Z.of_nat (length l)) with true by (symmetry; apply Z.leb_le; lia).
    replace (i + Z.of_nat (length l) <? Z.of_nat (length l)) with true
      by (symmetry; apply Z.ltb_lt; lia).
    simpl. destruct (nth_error l _) as [a|] eqn:N; [eauto|].
    apply nth_error_None in N. lia.
  - apply Z.ltb_ge in E. destruct (py_getitem_in_range l (i := i)) as (a & Ha & _);
      [lia|]. unfold py_getitem in Ha. rewrite (proj2 (Z.ltb_ge i 0) E) in Ha. eauto.
Qed.

Lemma py_getitem_refuses A (l : list A) (i : Z) :
  i < - Z.of_nat (length l) \/ Z.of_nat (length l) <= i ->
  py_getitem l i = Uncaught "IndexError".
Proof.
  intro H. unfold py_getitem. destruct (i <? 0) eqn:E.
  - apply Z.ltb_lt in E.
    destruct (0 <=? i + Z.of_nat (length l)) eqn:E1; [|reflexivity].
    apply Z.leb_le in E1. lia.
  - apply Z.ltb_ge in E.
    replace (i <? Z.of_nat (length l)) with false by (symmetry; apply Z.ltb_ge; lia).
    now rewrite andb_false_r.
Qed.

Lemma segments_fold_accepts (points : list (PointDetail F)) (cache : Cache F) :
  forall pairs st,
    (forall a b, In (a, b) pairs ->
       - Z.of_nat (length points) <= a < Z.of_nat (length points)
       /\ - Z.of_nat (length points) <= b < Z.of_nat (length points)) ->
    exists st', ofoldM (segment_step points cache) pairs st = Ok st'.
Proof.
  induction pairs as [|[a b] pairs IH]; intros st H; [simpl; eauto|].
  cbn [ofoldM]. pose proof (segment_step_inv points cache st a b) as Hstep.
  destruct (H a b (or_introl eq_refl)) as [Ha Hb].
  destruct (py_getitem_accepts points Ha) as (p & Hp).
  destruct (py_getitem_accepts points Hb) as (q & Hq).
  rewrite Hp, Hq in Hstep. destruct Hstep as (st1 & t & d & -> & _).
  cbn [obind]. apply IH. intros a' b' Hin. apply H. now right.
Qed.

Lemma segments_fold_refuses (points : list (PointDetail F)) (cache : Cache F) :
  forall pairs st a b,
    In (a, b) pairs ->
    (py_getitem points a = Uncaught "IndexError"
     \/ py_getitem points b = Uncaught "IndexError") ->
    ofoldM (segment_step points cache) pairs st = Uncaught "IndexError".
Proof.
  induction pairs as [|[a0 b0] pairs IH]; intros st a b Hin Hbad; [contradiction|].
  cbn [ofoldM]. pose proof (segment_step_inv points cache st a0 b0) as Hstep.
  destruct (py_getitem points a0) as [p| | |] eqn:Ea;
    try (rewrite Hstep; reflexivity).
  destruct (py_getitem points b0) as [q| | |] eqn:Eb;
    try (rewrite Hstep; reflexivity).
  destruct Hstep as (st1 & t & d & -> & _). cbn [obind].
  destruct Hin as [E|Hin]; [|eapply IH; eauto].
  inversion E; subst. destruct Hbad; congruence.
Qed.

End SegmentFacts.

(** Every element of a list of two elements or more is an end of one of its
    consecutive pairs. *)
Lemma consecutive_covers A (l : list A) (x : A) :
  (2 <= length l)%nat -> In x l ->
  exists a b, In (a, b) (consecutive l) /\ (x = a \/ x = b).
Proof.
  induction l as [|a l IH]; intros Hlen Hin; [contradiction|].
  rewrite consecutive_cons. destruct l as [|b l]; [simpl in Hlen; lia|].
  destruct Hin as [->|Hin]; [exists x, b; simpl; auto|].
  destruct l as [|c l].
  - destruct Hin as [->|[]]. exists a, x. simpl. auto.
  - destruct IH as (a' & b' & Hin' & Hx); [simpl; lia|exact Hin|].
    exists a', b'. split; [now right|exact Hx].
Qed.

Lemma consecutive_in A (l : list A) (a b : A) :
  In (a, b) (consecutive l) -> In a l /\ In b l.
Proof.
  unfold consecutive. intro H. split.
  - eapply in_combine_l; eauto.
  - destruct l as [|x l]; [contradiction|]. right. eapply in_combine_r; eauto.
Qed.

Lemma py_getitem_ok_range A (l : list A) (i : Z) (a : A) :
  py_getitem l i = Ok a -> - Z.of_nat (length l) <= i < Z.of_nat (length l).
Proof.
  intro H.
  destruct (Z_lt_dec i (- Z.of_nat (length l))) as [H1|H1];
    [rewrite py_getitem_refuses in H by auto; discriminate|].
  destruct (Z_le_dec (Z.of_nat (length l)) i) as [H2|H2];
    [rewrite py_getitem_refuses in H by auto; discriminate|].
  lia.
Qed.

Section AssemblyFacts.

Variable F : Type.
Context {PF : PyFloat F}.

(** The decoding loop has indexed the cost matrix with every node of the
    route it returns, unless the route is a single node. *)
Lemma decode_solution_in_range routing next_var (cm : list (list F)) :
  (forall row, In row cm -> length row = length cm) ->
  forall fuel index acc total route total_cost,
    decode_solution fuel routing next_var cm index acc total = Ok (route, total_cost) ->
    exists rest,
      route = acc ++ IndexToNode routing index :: rest
      /\ Forall (fun i => - Z.of_nat (length cm) <= i < Z.of_nat (length cm)) rest
      /\ (rest <> [] ->
          - Z.of_nat (length cm) <= IndexToNode routing index < Z.of_nat (length cm)).
Proof.
  intro Hsq. induction fuel as [|fuel IH]; intros index acc total route tc H;
    [discriminate|].
  cbn [decode_solution] in H. destruct (IsEnd routing index).
  - inversion H; subst. exists []. split; [reflexivity|]. split; [constructor|].
    intro C. now contradiction C.
  - apply obind_ok_inv in H as (row & Hrow & H).
    apply obind_ok_inv in H as (c & Hc & H).
    apply IH in H as (rest & -> & Hrest & _).
    pose proof (py_getitem_ok_range _ _ Hrow) as Hcur.
    pose proof (py_getitem_ok_range _ _ Hc) as Hnext.
    assert (Hin : In row cm).
    { unfold py_getitem in Hrow. destruct (_ && _); [|discriminate].
      destruct (nth_error cm _) eqn:E; [|discriminate].
      inversion Hrow; subst. eapply nth_error_In; eauto. }
    rewrite (Hsq row Hin) in Hnext.
    exists (IndexToNode routing (next_var index) :: rest).
    rewrite <- app_assoc. split; [reflexivity|]. split; [|intros _; exact Hcur].
    constructor; assumption.
Qed.

(** When [plan_route] has returned, the zero-weights guard has not fired:
    the endpoint goes on with the solver's answer. *)
Lemma optimize_after_plan fuel (env : Env F) request (log log1 : list (Event F))
    cache route total_cost :
  plan_route fuel env request log = (Ok (cache, Some (route, total_cost)), log1) ->
  optimize_delivery_route fuel env request log
  = assemble_response env (all_points_details env request) cache route log1.
Proof.
  intro H. unfold optimize_delivery_route. rewrite early_return_unreachable.
  destruct (f_eq (f_add (weight_time request) (weight_distance request)) f_zero)
    eqn:E.
  - exfalso. unfold plan_route in H.
    apply bind_ok_inv in H as ([c cm] & log2 & Hprep & _).
    apply prepare_cost_matrix_inv in Hprep as (w & col & Hw & _).
    unfold normalize_weights, py_truediv in Hw. rewrite E in Hw. discriminate.
  - unfold bind at 1. rewrite H. reflexivity.
Qed.


(** The matrix handed to the solver is square, of the size of the point
    list. *)
Lemma plan_route_matrix_shape fuel (env : Env F) request (log log1 : list (Event F))
    cache route total_cost :
  plan_route fuel env request log = (Ok (cache, Some (route, total_cost)), log1) ->
  let n := length (all_points_details env request) in
  exists cm next_var log0,
    length cm = n
    /\ (forall row, In row cm -> length row = length cm)
    /\ decode_solution fuel (pywrapcp_routing env n 0 (Z.of_nat n - 1)) next_var cm
         (Start (pywrapcp_routing env n 0 (Z.of_nat n - 1))) [] f_zero
       = Ok (route, total_cost)
    /\ solve_tsp_with_ortools fuel env cm n 0 (Z.of_nat n - 1) log0
       = (Ok (Some (route, total_cost)), log1).
Proof.
  intros H n. unfold plan_route in H. fold n in H.
  apply bind_ok_inv in H as ([c cm] & log2 & Hprep & H).
  apply bind_ok_inv in H as (r & log3 & Hsolve & H).
  apply ret_inv in H as [H ->]. inversion H; subst c r. clear H.
  cbn [fst snd] in Hsolve. pose proof Hsolve as Hs.
  apply solve_tsp_some_inv in Hs as (scaled & next_var & _ & _ & Hd & _).
  apply prepare_cost_matrix_inv in Hprep as (w & col & _ & _ & _ & Hb).
  apply build_cost_matrix_shape in Hb as [Hlen Hrows].
  exists cm, next_var, log2. split; [exact Hlen|]. split; [|split; assumption].
  intros row Hrow. rewrite Hlen. now apply Hrows.
Qed.

(** Every index of the route that section 7.4 uses is one that Python
    accepts as an index of the point list. *)
Lemma used_route_accepted fuel (env : Env F) request (log log1 : list (Event F))
    cache route total_cost :
  plan_route fuel env request log = (Ok (cache, Some (route, total_cost)), log1) ->
  let n := length (all_points_details env request) in
  Forall (fun i => - Z.of_nat n <= i < Z.of_nat n) (checked_route n route).
Proof.
  intros H n. assert (Hn : (2 <= n)%nat) by (unfold n; rewrite all_points_length; lia).
  unfold checked_route. destruct (route_rejected route 0 (Z.of_nat n - 1)) eqn:Hrej.
  - rewrite fallback_route_ids by exact Hn. apply Forall_forall. intros i Hi.
    apply node_ids_in in Hi. lia.
  - apply plan_route_matrix_shape in H as (cm & next_var & log0 & Hlen & Hsq & Hd & _).
    fold n in Hlen, Hd.
    apply decode_solution_in_range in Hd as (rest & Hroute & Hrest & Hfirst);
      [|exact Hsq].
    rewrite Hlen in *. simpl in Hroute. subst route.
    destruct rest as [|r rest].
    + unfold route_rejected in Hrej. cbn [last] in Hrej.
      apply orb_false_elim in Hrej as [H1 H2].
      apply negb_false_iff, Z.eqb_eq in H1, H2. lia.
    + constructor; [apply Hfirst; discriminate|exact Hrest].
Qed.

End AssemblyFacts.

(** X4.  In every float arithmetic.  Once [solve_tsp_with_ortools] has
    returned a route, every index of the route that section 7.4 uses is one
    that Python accepts as an index of the point list (from [-n] to
    [n - 1]), whatever the solver returned: the decoding loop has indexed
    the cost matrix, which is as large as the point list, with every node of
    a route of two nodes or more, and a route that is rejected by the check
    of line 410 is replaced by the identity route.  So the subscripts
    [all_points_details[from_idx]] and [all_points_details[to_idx]] of the
    segment loop (lines 472-476 and 488-491) find a point for every pair of
    consecutive indices: none of them raises [IndexError]. *)
Theorem used_route_indexes_the_point_list :
  forall (F : Type) (PF : PyFloat F) (fuel : nat) (env : Env F)
         (request : OptimizeRouteRequest F) (log log1 : list (Event F))
         (cache : Cache F) (route : list Z) (total_cost : F),
    let points := all_points_details env request in
    let n := length points in
    plan_route fuel env request log = (Ok (cache, Some (route, total_cost)), log1) ->
    Forall (fun i => - Z.of_nat n <= i < Z.of_nat n) (checked_route n route)
    /\ forall from_idx to_idx,
        In (from_idx, to_idx) (consecutive (checked_route n route)) ->
        exists from_point to_point,
          py_getitem points from_idx = Ok from_point
          /\ py_getitem points to_idx = Ok to_point.
Proof.
  intros F PF fuel env request log log1 cache route total_cost points n H.
  pose proof (used_route_accepted _ _ _ _ H) as Hacc. fold points n in Hacc.
  split; [exact Hacc|]. intros a b Hin.
  apply consecutive_in in Hin as [Ha Hb]. rewrite Forall_forall in Hacc.
  destruct (py_getitem_accepts points (Hacc a Ha)) as (p & Hp).
  destruct (py_getitem_accepts points (Hacc b Hb)) as (q & Hq).
  eauto.
Qed.

(** One order, in binary64: the route [0; 1; 2] indexes the three points. *)
Lemma used_route_indexes_the_point_list_witness :
  exists cache total_cost log1,
    plan_route 10 b64_steady b64_one_order []
    = (Ok (cache, Some ([0; 1; 2], total_cost)), log1)
    /\ Forall (fun i => - 3 <= i < 3) (checked_route 3 [0; 1; 2]).
Proof.
  assert (HP : exists cache total_cost log1,
             plan_route 10 b64_steady b64_one_order []
             = (Ok (cache, Some ([0; 1; 2], total_cost)), log1))
    by (eexists; eexists; eexists; vm_compute; reflexivity).
  destruct HP as (cache & total_cost & log1 & P).
  exists cache, total_cost, log1. split; [exact P|].
  exact (proj1 (@used_route_indexes_the_point_list float Binary64.py_float 10%nat
                  b64_steady b64_one_order [] log1 cache [0; 1; 2] total_cost P)).
Defined.

(** X5.  In every float arithmetic.  When every index of the route that is
    used is a node number (from 0 up to the number of points, excluded),
    the response lists one route point per index and its segments join the
    consecutive points of [optimized_route]: the first segment leaves the
    first route point, each segment starts where the one before it ends,
    and the ids and types at its two ends are those of the two route
    points. *)
Theorem segments_join_consecutive_route_points :
  forall (F : Type) (PF : PyFloat F) (fuel : nat) (env : Env F)
         (request : OptimizeRouteRequest F) (log log' log1 : list (Event F))
         (resp : OptimizedRouteResponse F) (cache : Cache F) (route : list Z)
         (total_cost : F),
    let n := length (all_points_details env request) in
    optimize_delivery_route fuel env request log = (Ok resp, log') ->
    plan_route fuel env request log = (Ok (cache, Some (route, total_cost)), log1) ->
    Forall (fun i => 0 <= i < Z.of_nat n) (checked_route n route) ->
    exists segments,
      segments_details resp = Some segments
      /\ map (@segment_ends F) segments
         = consecutive (map (@point_label F) (optimized_route resp))
      /\ length (optimized_route resp) = length (checked_route n route)
      /\ length segments = (length (optimized_route resp) - 1)%nat.
Proof.
  intros F PF fuel env request log log' log1 resp cache route total_cost n
         Hopt Hplan Hrange.
  rewrite (optimize_after_plan _ _ _ _ Hplan) in Hopt.
  apply assemble_ok_inv in Hopt as (totals & Htot & Hroute & _ & _ & Hsegs).
  fold n in Htot, Hroute.
  destruct (@segments_join_route_points F PF (all_points_details env request) cache
              (checked_route n route)
              {| actual_total_predicted_time_seconds := f_zero;
                 actual_total_distance_meters := f_zero;
                 segments_details_list := [] |} Hrange)
    as (totals' & Hrun & Hends & Hlen).
  unfold compute_totals in Htot. rewrite Hrun in Htot. inversion Htot; subst totals'.
  exists (segments_details_list totals). split; [exact Hsegs|].
  rewrite Hroute. simpl in Hends. split; [exact Hends|].
  rewrite length_map. split; [exact Hlen|].
  rewrite <- (length_map (@segment_ends F)), Hends, consecutive_length.
  now rewrite !length_map.
Qed.

(** Two orders, in binary64. *)
Lemma segments_join_consecutive_route_points_witness :
  exists resp log' segments,
    optimize_delivery_route 10 b64_steady b64_two_orders [] = (Ok resp, log')
    /\ segments_details resp = Some segments
    /\ map (@segment_ends float) segments
       = consecutive (map (@point_label float) (optimized_route resp))
    /\ map fst (map fst (map (@segment_ends float) segments))
       = [Some "current_location_0"; Some "A"; Some "B"]%string.
Proof.
  assert (HE : exists resp log',
             optimize_delivery_route 10 b64_steady b64_two_orders [] = (Ok resp, log')
             /\ map fst (map fst (consecutive
                                    (map (@point_label float) (optimized_route resp))))
                = [Some "current_location_0"; Some "A"; Some "B"]%string)
    by (eexists; eexists; split; [vm_compute; reflexivity|vm_compute; reflexivity]).
  destruct HE as (resp & log' & E & Hids).
  assert (HP : exists cache total_cost log1,
             plan_route 10 b64_steady b64_two_orders []
             = (Ok (cache, Some ([0; 1; 2; 3], total_cost)), log1))
    by (eexists; eexists; eexists; vm_compute; reflexivity).
  destruct HP as (cache & total_cost & log1 & P).
  destruct (@segments_join_consecutive_route_points float Binary64.py_float 10%nat
              b64_steady b64_two_orders [] log' log1 resp cache [0; 1; 2; 3]
              total_cost E P)
    as (segments & Hsegs & Hends & _).
  { repeat constructor; vm_compute; congruence. }
  exists resp, log', segments. split; [exact E|]. split; [exact Hsegs|].
  split; [exact Hends|]. rewrite Hends. exact Hids.
Defined.

(* ================================================================== *)
(** ** The exceptions that escape the endpoint *)




Section EscapeFacts.

Variable F : Type.
Context {PF : PyFloat F}.






(** The two facts about zero that the divisions rest on: one is not zero,
    and neither is a value above one. *)
Hypothesis one_not_zero : f_eq (f_one : F) f_zero = false.
Hypothesis above_one_not_zero :
  forall m : F, f_lt f_one m = true -> f_eq m f_zero = false.

Lemma floored_not_zero (m : F) : f_eq (py_max f_one m) f_zero = false.
Proof. unfold py_max. destruct (f_lt f_one m) eqn:E; auto. Qed.



End EscapeFacts.

Lemma b64_one_not_zero : PrimFloat.eqb PrimFloat.one PrimFloat.zero = false.
Proof. reflexivity. Qed.

Lemma b64_above_one_not_zero (m : float) :
  PrimFloat.ltb PrimFloat.one m = true -> PrimFloat.eqb m PrimFloat.zero = false.
Proof.
  rewrite ltb_spec, eqb_spec.
  change (Prim2SF PrimFloat.zero) with (S754_zero false).
  change (Prim2SF PrimFloat.one) with (S754_finite false 4503599627370496 (-52)).
  unfold SFltb, SFeqb.
  destruct (Prim2SF m) as [b|b| |b mm e]; simpl; try destruct b; simpl;
    try discriminate; auto.
Qed.



(* ================================================================== *)
(** ** The predictor can only shorten a duration *)

Section DurationBound.

Variable F : Type.
Context {PF : PyFloat F} {L : PyFloatLaws PF}.

(** Two more facts about comparisons: nothing is below itself, and a value
    that is neither [inf] nor NaN is below [inf]. *)
Hypothesis lt_irrefl : forall x : F, f_lt x x = false.
Hypothesis below_inf :
  forall x y : F,
    f_eq x f_inf = false -> f_isnan x = false -> f_eq y f_inf = true ->
    f_lt x y = true.

Lemma clean_keeps (x : F) : clean x -> needs_sentinel x = false.
Proof.
  intros (H1 & H2 & H3 & _). unfold needs_sentinel. now rewrite H1, H2, H3.
Qed.

Lemma zero_keeps : needs_sentinel (f_zero : F) = false.
Proof.
  unfold needs_sentinel. now rewrite zero_ne_inf, zero_not_nan, zero_not_lt_zero.
Qed.

(** Lines 327-329 on a provider duration that is finite and not negative:
    the resolved duration is not above it, and it is kept by the
    sanitization. *)
Lemma resolve_duration_bounded (ml mapbox_duration : F) :
  clean mapbox_duration ->
  needs_sentinel (resolve_duration ml mapbox_duration) = false
  /\ f_lt mapbox_duration (resolve_duration ml mapbox_duration) = false.
Proof.
  intro Hc. pose proof (clean_keeps Hc) as Hk.
  destruct Hc as (H1 & H2 & H3 & _).
  unfold resolve_duration, py_min, py_max.
  destruct (f_lt mapbox_duration ml) eqn:E.
  - destruct (f_lt f_zero mapbox_duration); [auto|]. split; [apply zero_keeps|exact H3].
  - destruct (f_lt f_zero ml) eqn:E0; [|split; [apply zero_keeps|exact H3]].
    split; [|exact E]. unfold needs_sentinel.
    destruct (f_eq ml f_inf) eqn:Ei.
    { rewrite (below_inf _ _ H1 H2 Ei) in E. discriminate. }
    destruct (f_isnan ml) eqn:En.
    { rewrite (lt_nan_r f_zero ml En) in E0. discriminate. }
    destruct (f_lt ml f_zero) eqn:Ez; [|reflexivity].
    rewrite (lt_zero_asym ml Ez) in E0. discriminate.
Qed.

Lemma estimate_duration_bounded (env : Env F) p q (log : list (Event F)) :
  clean (provider_duration (provider_answer env p q log)) ->
  f_lt (provider_duration (provider_answer env p q log))
       (seg_duration (estimate_of env p q log)) = false.
Proof.
  intro Hc. unfold estimate_of. cbn [seg_duration]. unfold resolved_duration.
  set (mb := provider_duration (provider_answer env p q log)) in *.
  assert (Hself : f_lt mb (sanitize mb) = false)
    by (rewrite (sanitize_keeps _ (clean_keeps Hc)); apply lt_irrefl).
  destruct (DELIVERY_MODEL env) as [model|]; [|exact Hself].
  destruct (predictor_answer env model p q log) as [ml|]; [|exact Hself].
  destruct (resolve_duration_bounded ml Hc) as [Hk Hb].
  now rewrite (sanitize_keeps _ Hk).
Qed.

End DurationBound.

Lemma b64_lt_irrefl (x : float) : PrimFloat.ltb x x = false.
Proof.
  rewrite ltb_spec. unfold SFltb.
  destruct (Prim2SF x) as [b|b| |b m e]; simpl; try destruct b; auto;
    rewrite Z.compare_refl, Pos.compare_cont_refl; reflexivity.
Qed.

Lemma b64_below_inf (x y : float) :
  PrimFloat.eqb x PrimFloat.infinity = false -> PrimFloat.is_nan x = false ->
  PrimFloat.eqb y PrimFloat.infinity = true -> PrimFloat.ltb x y = true.
Proof.
  unfold PrimFloat.is_nan. rewrite !eqb_spec, ltb_spec.
  change (Prim2SF PrimFloat.infinity) with (S754_infinity false).
  unfold SFeqb, SFltb.
  destruct (Prim2SF y) as [c|c| |c n k]; simpl; try destruct c; try discriminate;
    destruct (Prim2SF x) as [b|b| |b m e]; simpl; try destruct b; simpl;
    try discriminate; auto.
Qed.

(** X7.  In binary64, the arithmetic the service runs.  For a pair of
    points whose provider duration is finite and not negative, the duration
    that pass 1 stores is never above the provider's duration, whatever
    the predictor does: answer a value (the smaller of the two is kept,
    floored at 0.0), answer NaN, a negative value or an infinity, or
    raise.  A loaded predictor can only shorten the duration of a pair. *)
Theorem stored_duration_is_at_most_the_provider_duration :
  forall (env : Env float) (p q : PointDetail float) (log : list (Event float)),
    clean (provider_duration (provider_answer env p q log)) ->
    PrimFloat.ltb (provider_duration (provider_answer env p q log))
                  (seg_duration (estimate_of env p q log)) = false.
Proof.
  intros env p q log H.
  exact (@estimate_duration_bounded float Binary64.py_float Binary64Facts.laws
           b64_lt_irrefl b64_below_inf env p q log H).
Qed.

(** The provider answers 60 seconds and the predictor 50: 50 is stored. *)
Lemma stored_duration_is_at_most_the_provider_duration_witness :
  provider_duration (provider_answer b64_predicting b64_here b64_there []) = 60%float
  /\ seg_duration (estimate_of b64_predicting b64_here b64_there []) = 50%float
  /\ PrimFloat.ltb
       (provider_duration (provider_answer b64_predicting b64_here b64_there []))
       (seg_duration (estimate_of b64_predicting b64_here b64_there [])) = false.
Proof.
  split; [reflexivity|]. split; [reflexivity|].
  apply (@stored_duration_is_at_most_the_provider_duration
           b64_predicting b64_here b64_there []).
  repeat split; try reflexivity; vm_compute; discriminate.
Defined.

(* ================================================================== *)
(** ** What the ids and the weights of the orders can change *)

Lemma Forall2_flat_map A A' B B' (R : A -> A' -> Prop) (S : B -> B' -> Prop)
    (f : A -> list B) (g : A' -> list B') l l' :
  Forall2 R l l' -> (forall a a', R a a' -> Forall2 S (f a) (g a')) ->
  Forall2 S (flat_map f l) (flat_map g l').
Proof.
  intros H Hfg. induction H as [|a a' l l' Ha _ IH]; [constructor|].
  cbn [flat_map]. apply Forall2_app; auto.
Qed.

Lemma Forall2_map A A' B B' (R : A -> A' -> Prop) (S : B -> B' -> Prop)
    (f : A -> B) (g : A' -> B') l l' :
  Forall2 R l l' -> (forall a a', R a a' -> S (f a) (g a')) ->
  Forall2 S (map f l) (map g l').
Proof.
  intros H Hfg. induction H; cbn [map]; constructor; auto.
Qed.

Lemma Forall2_enumerate A A' (R : A -> A' -> Prop) l l' :
  Forall2 R l l' ->
  Forall2 (fun ip ip' => fst ip = fst ip' /\ R (snd ip) (snd ip'))
          (enumerate l) (enumerate l').
Proof.
  unfold enumerate. generalize 0%nat.
  intros s H. revert s. induction H as [|a a' l l' Ha _ IH]; intro s;
    cbn [length seq combine]; constructor; auto.
Qed.

Lemma omapM_Forall2 A A' B (f : A -> outcome B) (g : A' -> outcome B) l l' :
  Forall2 (fun a a' => f a = g a') l l' -> omapM f l = omapM g l'.
Proof.
  intro H. induction H as [|a a' l l' Ha _ IH]; [reflexivity|].
  cbn [omapM]. now rewrite Ha, IH.
Qed.

Lemma py_getitem_Forall2 A A' (R : A -> A' -> Prop) l l' (i : Z) :
  Forall2 R l l' ->
  match py_getitem l i, py_getitem l' i with
  | Ok a, Ok a' => R a a'
  | Uncaught e, Uncaught e' => e = e'
  | _, _ => False
  end.
Proof.
  intro H. unfold py_getitem. rewrite <- (Forall2_length H).
  destruct (_ && _); [|reflexivity].
  generalize (Z.to_nat (if i <? 0 then i + Z.of_nat (length l) else i)).
  induction H as [|a a' l l' Ha _ IH]; intros [|k]; simpl; auto.
  apply IH.
Qed.

Section SameStopsFacts.

Variable F : Type.
Context {PF : PyFloat F}.

Variable env : Env F.

Lemma same_stops_points (r1 r2 : OptimizeRouteRequest F) :
  same_stops env r1 r2 ->
  Forall2 (same_point env) (all_points_details env r1) (all_points_details env r2).
Proof.
  intros (Ho & Hwl & Hwg & Hcl & Hcg & _).
  unfold all_points_details. apply Forall2_app; [|apply Forall2_app].
  - repeat constructor; simpl; auto.
  - eapply Forall2_map; [exact Ho|]. intros o1 o2 (H1 & H2 & H3).
    repeat split; simpl; auto. intro Hm. now rewrite (H3 Hm).
  - repeat constructor; simpl; auto.
    + unfold warehouse_lat. now rewrite Hwl.
    + unfold warehouse_lon. now rewrite Hwg.
Qed.

Lemma same_point_key (p1 p2 q1 q2 : PointDetail F) :
  same_point env p1 p2 -> same_point env q1 q2 -> cache_key p1 q1 = cache_key p2 q2.
Proof.
  intros (_ & Hp1 & Hp2 & _) (_ & Hq1 & Hq2 & _). unfold cache_key. congruence.
Qed.

(** The estimate of a pair depends on the two points through their
    coordinates and, when a predictor is loaded, through the type and the
    weight of the destination. *)
Lemma same_point_estimate (p1 p2 q1 q2 : PointDetail F) (log : list (Event F)) :
  same_point env p1 p2 -> same_point env q1 q2 ->
  estimate_pair env p1 q1 log = estimate_pair env p2 q2 log.
Proof.
  intros (_ & Hp1 & Hp2 & _) (Hq0 & Hq1 & Hq2 & Hqw).
  unfold estimate_pair, predict_duration, make_features, pair_coords.
  rewrite Hp1, Hp2, Hq0, Hq1, Hq2.
  destruct (DELIVERY_MODEL env) as [model|]; [|reflexivity].
  rewrite Hqw by discriminate. reflexivity.
Qed.

Lemma same_point_collect (points1 points2 : list (PointDetail F)) (log : list (Event F)) :
  Forall2 (same_point env) points1 points2 ->
  collect_estimates env points1 log = collect_estimates env points2 log.
Proof.
  intro H. unfold collect_estimates.
  generalize ({| all_segments_data_cache := [];
                 max_duration_for_normalization := f_zero;
                 max_distance_for_normalization := (f_zero : F) |}).
  assert (Hpairs : Forall2 (fun ij ij' =>
                      fst (fst ij) = fst (fst ij') /\ fst (snd ij) = fst (snd ij')
                      /\ same_point env (snd (fst ij)) (snd (fst ij'))
                      /\ same_point env (snd (snd ij)) (snd (snd ij')))
                    (index_pairs points1) (index_pairs points2)).
  { unfold index_pairs. eapply Forall2_flat_map; [apply Forall2_enumerate, H|].
    intros ip ip' [Hi Hp]. eapply Forall2_map; [apply Forall2_enumerate, H|].
    intros jq jq' [Hj Hq]. simpl. auto. }
  revert log. induction Hpairs as [|[[i p] [j q]] [[i' p'] [j' q']] l l' Hh _ IH];
    intros log st; [reflexivity|].
  simpl in Hh. destruct Hh as (<- & <- & Hp & Hq).
  cbn [foldM]. unfold bind. unfold collect_step.
  destruct (Nat.eqb i j).
  - unfold ret. apply IH.
  - unfold bind. rewrite (same_point_estimate log Hp Hq).
    destruct (estimate_pair env p' q' log) as [[seg| | |] log1]; try reflexivity.
    unfold ret. unfold record_estimate. rewrite (same_point_key Hp Hq).
    apply IH.
Qed.

Lemma same_point_matrix (points1 points2 : list (PointDetail F)) cache a b mt md :
  Forall2 (same_point env) points1 points2 ->
  build_cost_matrix points1 cache a b mt md = build_cost_matrix points2 cache a b mt md.
Proof.
  intro H. unfold build_cost_matrix.
  apply omapM_Forall2.
  eapply Forall2_impl; [|apply Forall2_enumerate, H].
  intros [i p] [i' p'] [Hi Hp]. simpl in Hi, Hp. subst i'.
  apply omapM_Forall2.
  eapply Forall2_impl; [|apply Forall2_enumerate, H].
  intros [j q] [j' q'] [Hj Hq]. simpl in Hj, Hq. subst j'.
  unfold cost_entry. now rewrite (same_point_key Hp Hq).
Qed.

(** Sections 7.2 and 7.3 make the same calls and return the same cache and
    the same route for two requests for the same stops. *)
Lemma same_stops_plan fuel (r1 r2 : OptimizeRouteRequest F) (log : list (Event F)) :
  same_stops env r1 r2 ->
  plan_route fuel env r1 log = plan_route fuel env r2 log.
Proof.
  intro H. pose proof (same_stops_points H) as Hpts.
  destruct H as (_ & _ & _ & _ & _ & Hwt & Hwd).
  unfold plan_route, prepare_cost_matrix, normalize_weights.
  rewrite Hwt, Hwd, (Forall2_length Hpts).
  unfold bind, lift.
  destruct (_ <~ py_truediv _ _ ;; _) as [w| | |]; try reflexivity.
  rewrite (same_point_collect log Hpts).
  destruct (collect_estimates env (all_points_details env r2) log)
    as [[col| | |] log2]; try reflexivity.
  now rewrite (same_point_matrix _ _ _ _ _ Hpts).
Qed.

(** The route points of two point lists for the same stops have the same
    coordinates. *)
Lemma same_point_route_points (points1 points2 : list (PointDetail F)) route :
  Forall2 (same_point env) points1 points2 ->
  Forall2 (same_point env) (route_point_details points1 route)
          (route_point_details points2 route).
Proof.
  intro H. unfold route_point_details.
  eapply Forall2_flat_map with (R := eq).
  - clear. induction route; constructor; auto.
  - intros idx idx' <-. unfold point_at. rewrite <- (Forall2_length H).
    destruct (_ && _); [|constructor].
    generalize (Z.to_nat idx). clear idx.
    induction H as [|a a' l l' Ha _ IH]; intros [|k]; simpl;
      try (constructor; now auto); auto.
Qed.

Lemma same_point_segment_step (points1 points2 : list (PointDetail F)) cache st1 st2 ab :
  Forall2 (same_point env) points1 points2 -> same_totals st1 st2 ->
  match segment_step points1 cache st1 ab, segment_step points2 cache st2 ab with
  | Ok t1, Ok t2 => same_totals t1 t2
  | Uncaught e, Uncaught e' => e = e'
  | _, _ => False
  end.
Proof.
  intros H (Ht & Hd & Hs). destruct ab as [a b]. unfold segment_step.
  pose proof (py_getitem_Forall2 a H) as Ha.
  destruct (py_getitem points1 a) as [p| | |], (py_getitem points2 a) as [p'| | |];
    try contradiction; cbn [obind]; [|exact Ha].
  pose proof (py_getitem_Forall2 b H) as Hb.
  destruct (py_getitem points1 b) as [q| | |], (py_getitem points2 b) as [q'| | |];
    try contradiction; cbn [obind]; [|exact Hb].
  rewrite (same_point_key Ha Hb).
  destruct (cache_get cache (cache_key p' q')) as [sd|];
    [destruct (negb _ && negb _)|];
    unfold same_totals; cbn [actual_total_predicted_time_seconds
                               actual_total_distance_meters segments_details_list];
    rewrite ?Ht, ?Hd, !map_app, Hs; auto.
Qed.

Lemma same_point_totals (points1 points2 : list (PointDetail F)) cache route :
  Forall2 (same_point env) points1 points2 ->
  match compute_totals points1 cache route, compute_totals points2 cache route with
  | Ok t1, Ok t2 => same_totals t1 t2
  | Uncaught e, Uncaught e' => e = e'
  | _, _ => False
  end.
Proof.
  intro H. unfold compute_totals.
  assert (G : forall pairs st1 st2, same_totals st1 st2 ->
             match ofoldM (segment_step points1 cache) pairs st1,
                   ofoldM (segment_step points2 cache) pairs st2 with
             | Ok t1, Ok t2 => same_totals t1 t2
             | Uncaught e, Uncaught e' => e = e'
             | _, _ => False
             end).
  { induction pairs as [|ab pairs IH]; intros st1 st2 Hst; [exact Hst|].
    cbn [ofoldM]. pose proof (same_point_segment_step cache ab H Hst) as Hstep.
    destruct (segment_step points1 cache st1 ab) as [t1| | |],
             (segment_step points2 cache st2 ab) as [t2| | |];
      try contradiction; cbn [obind]; [apply IH; exact Hstep|exact Hstep]. }
  apply G. repeat split.
Qed.

End SameStopsFacts.

Section SameStopsResponse.

Variable F : Type.
Context {PF : PyFloat F}.

Variable env : Env F.

Lemma same_point_coords (l1 l2 : list (PointDetail F)) :
  Forall2 (same_point env) l1 l2 ->
  map (fun pd : PointDetail F => (pd_longitude pd, pd_latitude pd)) l1
  = map (fun pd : PointDetail F => (pd_longitude pd, pd_latitude pd)) l2.
Proof.
  intro H. induction H as [|a a' l l' (_ & Hla & Hlo & _) _ IH]; [reflexivity|].
  cbn [map]. now rewrite Hla, Hlo, IH.
Qed.

(** Section 7.4 on two point lists for the same stops: the same calls, the
    same coordinates along the route, the same totals and the same metrics
    segment by segment, the same geometry and legs. *)
Lemma same_point_assemble (points1 points2 : list (PointDetail F)) cache route
    (log log' : list (Event F)) resp1 :
  Forall2 (same_point env) points1 points2 ->
  assemble_response env points1 cache route log = (Ok resp1, log') ->
  exists resp2,
    assemble_response env points2 cache route log = (Ok resp2, log')
    /\ map (@route_point_coords F) (optimized_route resp1)
       = map (@route_point_coords F) (optimized_route resp2)
    /\ total_predicted_time_seconds resp1 = total_predicted_time_seconds resp2
    /\ total_distance_meters resp1 = total_distance_meters resp2
    /\ option_map (map (@segment_metrics F)) (segments_details resp1)
       = option_map (map (@segment_metrics F)) (segments_details resp2)
    /\ full_route_geometry resp1 = full_route_geometry resp2
    /\ full_route_legs resp1 = full_route_legs resp2.
Proof.
  intros H Hasm. unfold assemble_response in *.
  rewrite <- (Forall2_length H).
  set (cr := checked_route (length points1) route) in *.
  pose proof (same_point_route_points cr H) as Hvis.
  pose proof (same_point_coords Hvis) as Hcoords.
  rewrite <- Hcoords.
  apply bind_ok_inv in Hasm as (full & log1 & Hfull & Hasm).
  unfold bind at 1. rewrite Hfull.
  apply bind_ok_inv in Hasm as (totals & log2 & Ht & Hasm).
  apply lift_inv in Ht as [Ht ->]. apply ret_inv in Hasm as [Hasm ->].
  pose proof (same_point_totals cache cr H) as Htot. rewrite Ht in Htot.
  unfold bind, lift, ret.
  destruct (compute_totals points2 cache cr) as [totals2| | |]; try contradiction.
  destruct Htot as (Htime & Hdist & Hsegs).
  eexists. split; [reflexivity|]. inversion Hasm; subst resp1.
  cbn [optimized_route total_predicted_time_seconds total_distance_meters
       segments_details full_route_geometry full_route_legs option_map].
  rewrite Htime, Hdist, Hsegs. repeat split.
  rewrite !map_map. exact Hcoords.
Qed.

End SameStopsResponse.

(** X8.  In every float arithmetic.  The ids of the orders never steer the
    optimization, and their weights do so only through the predictor: for
    two requests that differ at most in the ids of their orders (and in
    their weights, when no predictor is loaded), sections 7.2 and 7.3 make
    the same external calls and return the same cache, the same route
    indices and the same total cost; and when one request is answered with
    a route, so is the other, after the same calls, with the same
    coordinates along the route, the same totals, the same metrics segment
    by segment and the same geometry and legs. *)
Theorem order_ids_do_not_steer_the_route :
  forall (F : Type) (PF : PyFloat F) (fuel : nat) (env : Env F)
         (request1 request2 : OptimizeRouteRequest F) (log : list (Event F)),
    same_stops env request1 request2 ->
    plan_route fuel env request1 log = plan_route fuel env request2 log
    /\ forall resp1 log',
        optimize_delivery_route fuel env request1 log = (Ok resp1, log') ->
        exists resp2,
          optimize_delivery_route fuel env request2 log = (Ok resp2, log')
          /\ map (@route_point_coords F) (optimized_route resp1)
             = map (@route_point_coords F) (optimized_route resp2)
          /\ total_predicted_time_seconds resp1 = total_predicted_time_seconds resp2
          /\ total_distance_meters resp1 = total_distance_meters resp2
          /\ option_map (map (@segment_metrics F)) (segments_details resp1)
             = option_map (map (@segment_metrics F)) (segments_details resp2)
          /\ full_route_geometry resp1 = full_route_geometry resp2
          /\ full_route_legs resp1 = full_route_legs resp2.
Proof.
  intros F PF fuel env request1 request2 log H.
  pose proof (same_stops_plan fuel log H) as Hplan.
  split; [exact Hplan|]. intros resp1 log' Hopt.
  apply optimize_ok_inv in Hopt as (cache & route & total & log1 & Hp1 & Hasm).
  pose proof Hp1 as Hp2. rewrite Hplan in Hp2.
  rewrite (optimize_after_plan _ _ _ _ Hp2).
  eapply same_point_assemble; [apply same_stops_points; exact H|exact Hasm].
Qed.

(** Two orders renamed and reweighed, without a predictor, in binary64:
    the same plan, and the same totals in the two responses. *)
Lemma order_ids_do_not_steer_the_route_witness :
  plan_route 10 b64_steady b64_two_orders []
  = plan_route 10 b64_steady b64_two_orders_renamed []
  /\ exists resp1 resp2 log',
      optimize_delivery_route 10 b64_steady b64_two_orders [] = (Ok resp1, log')
      /\ optimize_delivery_route 10 b64_steady b64_two_orders_renamed []
         = (Ok resp2, log')
      /\ total_predicted_time_seconds resp1 = total_predicted_time_seconds resp2
      /\ map rp_id (optimized_route resp2)
         = [Some "current_location_0"; Some "first"; Some "second";
            Some "warehouse_final"]%string.
Proof.
  assert (H : same_stops b64_steady b64_two_orders b64_two_orders_renamed).
  { unfold same_stops. repeat split; try reflexivity.
    repeat constructor; intro C; now contradiction C. }
  destruct (@order_ids_do_not_steer_the_route float Binary64.py_float 10%nat
              b64_steady b64_two_orders b64_two_orders_renamed [] H)
    as [Hplan Hresp].
  split; [exact Hplan|].
  assert (HE : exists resp1 log',
             optimize_delivery_route 10 b64_steady b64_two_orders []
             = (Ok resp1, log'))
    by (eexists; eexists; vm_compute; reflexivity).
  destruct HE as (resp1 & log' & E).
  destruct (Hresp resp1 log' E) as (resp2 & Hrun & _ & Htime & _).
  exists resp1, resp2, log'. split; [exact E|]. split; [exact Hrun|].
  split; [exact Htime|].
  vm_compute in Hrun. inversion Hrun. reflexivity.
Defined.

(* ================================================================== *)
(** ** Signs in binary64 *)

(** A rounded result carries the sign it was asked for, or is NaN. *)
Lemma binary_round_aux_sign (m e : Z) (l : location) :
  Binary64.sf_negative (binary_round_aux prec emax false m e l) = false.
Proof.
  unfold binary_round_aux.
  destruct (shr_fexp prec emax m e l) as [mrs e'].
  destruct (shr_fexp prec emax _ e' loc_Exact) as [mrs2 e2].
  destruct (shr_m mrs2); [reflexivity| |reflexivity].
  destruct (Z.leb _ _); reflexivity.
Qed.

Lemma SFmul_sign (x y : spec_float) :
  Binary64.sf_negative x = false -> Binary64.sf_negative y = false ->
  Binary64.sf_negative (SFmul prec emax x y) = false.
Proof.
  destruct x as [sx|sx| |sx mx ex], y as [sy|sy| |sy my ey];
    try destruct sx; try destruct sy; simpl; try discriminate; auto;
    intros _ _; apply binary_round_aux_sign.
Qed.

Lemma SFadd_sign (x y : spec_float) :
  Binary64.sf_negative x = false -> Binary64.sf_negative y = false ->
  Binary64.sf_negative (SFadd prec emax x y) = false.
Proof.
  destruct x as [sx|sx| |sx mx ex], y as [sy|sy| |sy my ey];
    try destruct sx; try destruct sy; simpl; try discriminate; auto.
  intros _ _. unfold binary_normalize, binary_round.
  destruct (shl_align _ _ _) as [mz ez]. apply binary_round_aux_sign.
Qed.

Lemma SFdiv_sign (x y : spec_float) :
  Binary64.sf_negative x = false -> Binary64.sf_negative y = false ->
  SFeqb y (S754_zero false) = false ->
  Binary64.sf_negative (SFdiv prec emax x y) = false.
Proof.
  destruct x as [sx|sx| |sx mx ex], y as [sy|sy| |sy my ey];
    try destruct sx; try destruct sy; simpl; try discriminate; auto.
  intros _ _ _. destruct (SFdiv_core_binary _ _ _ _ _ _) as [[mz ez] lz].
  apply binary_round_aux_sign.
Qed.

Lemma b64_add_keeps (a b : float) :
  PrimFloat.ltb a PrimFloat.zero = false -> PrimFloat.ltb b PrimFloat.zero = false ->
  PrimFloat.ltb (PrimFloat.add a b) PrimFloat.zero = false.
Proof.
  rewrite !Binary64Facts.ltb_zero_negative, add_spec. apply SFadd_sign.
Qed.

Lemma b64_mul_keeps (a b : float) :
  PrimFloat.ltb a PrimFloat.zero = false -> PrimFloat.ltb b PrimFloat.zero = false ->
  PrimFloat.ltb (PrimFloat.mul a b) PrimFloat.zero = false.
Proof.
  rewrite !Binary64Facts.ltb_zero_negative, mul_spec. apply SFmul_sign.
Qed.

Lemma b64_div_keeps (a b : float) :
  PrimFloat.ltb a PrimFloat.zero = false -> PrimFloat.ltb b PrimFloat.zero = false ->
  PrimFloat.eqb b PrimFloat.zero = false ->
  PrimFloat.ltb (PrimFloat.div a b) PrimFloat.zero = false.
Proof.
  rewrite !Binary64Facts.ltb_zero_negative, div_spec, eqb_spec. apply SFdiv_sign.
Qed.

Lemma b64_above_one_keeps (m : float) :
  PrimFloat.ltb PrimFloat.one m = true -> PrimFloat.ltb m PrimFloat.zero = false.
Proof.
  rewrite Binary64Facts.ltb_zero_negative, ltb_spec.
  change (Prim2SF PrimFloat.one) with (S754_finite false 4503599627370496 (-52)).
  unfold SFltb.
  destruct (Prim2SF m) as [b|b| |b mm e]; simpl; try destruct b; simpl;
    try discriminate; auto.
Qed.

(** [int(x)] fails on a value below another only when the value is
    [-inf]. *)
Lemma b64_trunc_fails_below (x y : float) :
  Binary64.trunc x = None -> PrimFloat.ltb x y = true ->
  PrimFloat.ltb x PrimFloat.zero = true.
Proof.
  unfold Binary64.trunc. intros Hn Hlt.
  destruct (PrimFloat.is_nan x || PrimFloat.is_infinity x) eqn:E.
  - clear Hn. rewrite Binary64Facts.ltb_zero_negative.
    apply orb_true_iff in E as [E|E].
    + rewrite (Binary64Facts.ltb_nan_l x y E) in Hlt. discriminate.
    + unfold PrimFloat.is_infinity in E. rewrite eqb_spec, abs_spec in E.
      rewrite ltb_spec in Hlt. unfold SFltb in Hlt.
      change (Prim2SF PrimFloat.infinity) with (S754_infinity false) in E.
      destruct (Prim2SF x) as [b|b| |b m e]; simpl in E; try discriminate.
      destruct b; [reflexivity|].
      destruct (Prim2SF y) as [c|c| |c n k]; simpl in Hlt; try destruct c;
        discriminate.
  - destruct (Z.frexp x). discriminate.
Qed.
(* ================================================================== *)
(** ** The scaling of the costs never fails on a valid request *)

Section ScalingFacts.

Variable F : Type.
Context {PF : PyFloat F} {L : PyFloatLaws PF}.

(** What the argument uses of the arithmetic, besides the comparison laws:
    one and the values above one are neither zero nor below zero, a sum, a
    product and a quotient (by a divisor that is not zero) of values that
    are not below zero are not below zero, and [int(x)] fails on a value
    below another only when the value is below zero. *)
Hypothesis one_not_zero : f_eq (f_one : F) f_zero = false.
Hypothesis above_one_not_zero :
  forall m : F, f_lt f_one m = true -> f_eq m f_zero = false.
Hypothesis one_keeps : f_lt (f_one : F) f_zero = false.
Hypothesis above_one_keeps :
  forall m : F, f_lt f_one m = true -> f_lt m f_zero = false.
Hypothesis thousand_keeps : f_lt (f_of_int 1000 : F) f_zero = false.
Hypothesis add_keeps :
  forall a b : F, f_lt a f_zero = false -> f_lt b f_zero = false ->
                  f_lt (f_add a b) f_zero = false.
Hypothesis mul_keeps :
  forall a b : F, f_lt a f_zero = false -> f_lt b f_zero = false ->
                  f_lt (f_mul a b) f_zero = false.
Hypothesis div_keeps :
  forall a b : F, f_lt a f_zero = false -> f_lt b f_zero = false ->
                  f_eq b f_zero = false -> f_lt (f_div a b) f_zero = false.
Hypothesis trunc_fails_below :
  forall x y : F, f_trunc x = None -> f_lt x y = true -> f_lt x f_zero = true.

Lemma floored_keeps (m : F) : f_lt (py_max f_one m) f_zero = false.
Proof. unfold py_max. destruct (f_lt f_one m) eqn:E; auto. Qed.

(** A cost that is not below zero, or is [inf], is scaled to an integer. *)
Lemma scale_cost_runs (c : F) :
  f_lt c f_zero = false \/ c = f_inf -> exists z, scale_cost c = Ok z.
Proof.
  unfold scale_cost. intros [H| ->]; [|rewrite inf_eq_inf; simpl; eauto].
  destruct (f_eq c f_inf); cbn [negb]; [eauto|]. cbv zeta.
  destruct (f_lt (f_mul c (f_of_int INTEGER_SCALE_FACTOR)) (f_of_int MAX_ORTOOLS_COST))
    eqn:E; [|eauto].
  destruct (f_trunc (f_mul c (f_of_int INTEGER_SCALE_FACTOR))) eqn:T;
    [eexists; reflexivity|]. exfalso.
  apply (trunc_fails_below _ _ T) in E.
  unfold INTEGER_SCALE_FACTOR in E.
  rewrite (mul_keeps _ _ H thousand_keeps) in E. discriminate.
Qed.

Lemma combined_cost_keeps (a b mt md : F) (seg : SegmentData F) :
  f_lt a f_zero = false -> f_lt b f_zero = false ->
  f_lt (seg_distance seg) f_zero = false -> f_lt (seg_duration seg) f_zero = false ->
  exists c,
    combined_cost a b (py_max f_one mt) (py_max f_one md) seg = Ok c
    /\ f_lt c f_zero = false.
Proof.
  intros Ha Hb Hd Ht. unfold combined_cost, py_truediv.
  rewrite !(floored_not_zero one_not_zero above_one_not_zero). cbn [obind].
  eexists. split; [reflexivity|].
  pose proof (floored_not_zero one_not_zero above_one_not_zero) as Hnz.
  apply add_keeps; apply mul_keeps; auto; apply div_keeps;
    auto using floored_keeps.
Qed.

Lemma normalize_weights_keeps (request : OptimizeRouteRequest F) :
  request_valid request = true ->
  f_eq (f_add (weight_time request) (weight_distance request)) f_zero = false ->
  exists a b,
    normalize_weights request = Ok (a, b)
    /\ f_lt a f_zero = false /\ f_lt b f_zero = false.
Proof.
  intros Hv Hw. unfold request_valid, in_unit_range in Hv.
  apply andb_true_iff in Hv as [Hv _]. apply andb_true_iff in Hv as [Ht Hd].
  apply andb_true_iff in Ht as [Ht _]. apply andb_true_iff in Ht as [Ht _].
  apply andb_true_iff in Hd as [Hd _]. apply andb_true_iff in Hd as [Hd _].
  apply negb_true_iff in Ht, Hd.
  rewrite (normalize_weights_nonzero request Hw).
  eexists. eexists. split; [reflexivity|].
  split; apply div_keeps; auto.
Qed.

(** Sections 7.1 and 7.2 on a valid request whose weights do not sum to
    zero: the cost matrix is built, and each of its entries is not below
    zero, or is [inf]. *)
Lemma prepare_cost_matrix_runs (env : Env F) (request : OptimizeRouteRequest F)
    (log : list (Event F)) :
  request_valid request = true ->
  f_eq (f_add (weight_time request) (weight_distance request)) f_zero = false ->
  exists cache cm log',
    prepare_cost_matrix env request log = (Ok (cache, cm), log')
    /\ forall row c, In row cm -> In c row -> f_lt c f_zero = false \/ c = f_inf.
Proof.
  intros Hv Hw.
  destruct (normalize_weights_keeps request Hv Hw) as (a & b & Hn & Ha & Hb).
  destruct (collect_estimates_run env (all_points_details env request) log)
    as (collected & log' & Hcol & _ & Hsrc).
  set (points := all_points_details env request) in *.
  set (cache := all_segments_data_cache collected) in *.
  set (mt := py_max f_one (max_duration_for_normalization collected)).
  set (md := py_max f_one (max_distance_for_normalization collected)).
  assert (Hentry : forall ip jq,
             exists c, cost_entry cache a b mt md ip jq = Ok c
                       /\ (f_lt c f_zero = false \/ c = f_inf)).
  { intros [i p] [j q]. unfold cost_entry. destruct (Nat.eqb i j).
    - exists f_zero. split; [reflexivity|]. left. apply zero_not_lt_zero.
    - destruct (cache_get cache (cache_key p q)) as [seg|] eqn:G;
        [|exists f_inf; auto].
      destruct (cache_get_in _ _ G) as (k & Hin).
      destruct (Hsrc k seg Hin) as (p0 & q0 & log0 & _ & ->).
      destruct (estimate_of_clean env p0 q0 log0)
        as [(_ & _ & Hd & _) (_ & _ & Ht & _)].
      destruct (@combined_cost_keeps a b (max_duration_for_normalization collected)
                  (max_distance_for_normalization collected) _ Ha Hb Hd Ht)
        as (c & Hc & Hs).
      exists c. split; [exact Hc|left; exact Hs]. }
  destruct (omapM_total
              (fun ip => omapM (cost_entry cache a b mt md ip) (enumerate points))
              (enumerate points)) as (cm & Hcm).
  { intros ip _. apply omapM_total. intros jq _.
    destruct (Hentry ip jq) as (c & Hc & _). eauto. }
  exists cache, cm, log'. split.
  - unfold prepare_cost_matrix, bind, lift, ret. fold points.
    rewrite Hn, Hcol. fold cache mt md. unfold build_cost_matrix.
    cbn [fst snd]. rewrite Hcm. reflexivity.
  - intros row c Hrow Hc.
    eapply omapM_ok_in in Hcm as (ip & _ & Hr); [|exact Hrow].
    eapply omapM_ok_in in Hr as (jq & _ & He); [|exact Hc].
    destruct (Hentry ip jq) as (c' & Hc' & Hs). rewrite He in Hc'.
    inversion Hc'; subst c'. exact Hs.
Qed.

(** On a valid request whose weights do not sum to zero the solver is
    run. *)
Lemma valid_request_reaches_solver (env : Env F) (request : OptimizeRouteRequest F)
    (log : list (Event F)) :
  request_valid request = true ->
  f_eq (f_add (weight_time request) (weight_distance request)) f_zero = false ->
  let n := length (all_points_details env request) in
  exists cache cm log' scaled,
    prepare_cost_matrix env request log = (Ok (cache, cm), log')
    /\ scale_cost_matrix cm = Ok scaled
    /\ forall fuel,
        snd (plan_route fuel env request log)
        = log' ++ [SolveCall n 0 (Z.of_nat n - 1) scaled].
Proof.
  intros Hv Hw n.
  destruct (prepare_cost_matrix_runs env request log Hv Hw)
    as (cache & cm & log' & Hprep & Hsign).
  destruct (omapM_total (omapM (scale_cost (PF := PF))) cm) as (scaled & Hs).
  { intros row Hrow. apply omapM_total. intros c Hc.
    apply scale_cost_runs. eauto. }
  exists cache, cm, log', scaled. split; [exact Hprep|]. split; [exact Hs|].
  intro fuel. eapply plan_route_log; eauto.
Qed.

End ScalingFacts.

Lemma b64_one_keeps : PrimFloat.ltb PrimFloat.one PrimFloat.zero = false.
Proof. reflexivity. Qed.

Lemma b64_thousand_keeps :
  PrimFloat.ltb (Binary64.of_int 1000) PrimFloat.zero = false.
Proof. reflexivity. Qed.

(** X9.  In binary64, the arithmetic the service runs.  On a valid request
    (both weights within [0, 1], every order weight above zero), when
    passes 1 and 2 have built the cost matrix, none of its entries is below
    zero, and the conversion of line 187 raises nothing: every cost, not
    below zero or [inf], is turned into an integer ([int()] fails only on
    [-inf] and NaN, and a NaN or an infinite product is replaced by the
    maximum before), so that the solver is run on the scaled matrix, with
    the node count [n], the start 0 and the end [n - 1]. *)
Theorem scaling_succeeds_on_a_valid_request :
  forall (env : Env float) (request : OptimizeRouteRequest float)
         (log log' : list (Event float)) (cache : Cache float)
         (cost_matrix : list (list float)),
    request_valid request = true ->
    prepare_cost_matrix env request log = (Ok (cache, cost_matrix), log') ->
    let n := length (all_points_details env request) in
    (forall row c, In row cost_matrix -> In c row ->
                   PrimFloat.ltb c PrimFloat.zero = false)
    /\ exists scaled,
        scale_cost_matrix cost_matrix = Ok scaled
        /\ forall fuel,
            snd (plan_route fuel env request log)
            = log' ++ [SolveCall n 0 (Z.of_nat n - 1) scaled].
Proof.
  intros env request log log' cache cm Hv Hprep n.
  assert (Hw : f_eq (f_add (weight_time request) (weight_distance request)) f_zero
               = false).
  { pose proof Hprep as Hinv.
    apply prepare_cost_matrix_inv in Hinv as (w & col & Hn & _).
    unfold normalize_weights, py_truediv in Hn.
    destruct (f_eq (f_add (weight_time request) (weight_distance request)) f_zero);
      [discriminate|reflexivity]. }
  destruct (@prepare_cost_matrix_runs float Binary64.py_float Binary64Facts.laws
              b64_one_not_zero b64_above_one_not_zero b64_one_keeps
              b64_above_one_keeps b64_add_keeps b64_mul_keeps b64_div_keeps
              env request log Hv Hw)
    as (cache' & cm' & log'' & Hprep' & Hsign).
  rewrite Hprep in Hprep'. inversion Hprep'; subst cache' cm' log''.
  assert (Hsign' : forall row c, In row cm -> In c row ->
                                 PrimFloat.ltb c PrimFloat.zero = false).
  { intros row c Hrow Hc. destruct (Hsign row c Hrow Hc) as [H| ->];
      [exact H|reflexivity]. }
  split; [exact Hsign'|].
  destruct (omapM_total (omapM (scale_cost (PF := Binary64.py_float))) cm)
    as (scaled & Hs).
  { intros row Hrow. apply omapM_total. intros c Hc.
    apply (@scale_cost_runs float Binary64.py_float Binary64Facts.laws
             b64_thousand_keeps b64_mul_keeps b64_trunc_fails_below).
    left. exact (Hsign' row c Hrow Hc). }
  exists scaled. split; [exact Hs|].
  intro fuel. eapply plan_route_log; eauto.
Qed.

(** Two orders, a provider that answers and a predictor, in binary64: the
    solver is run on a matrix of four rows. *)
Lemma scaling_succeeds_on_a_valid_request_witness :
  exists cache cm log' scaled,
    prepare_cost_matrix b64_predicting b64_two_orders [] = (Ok (cache, cm), log')
    /\ scale_cost_matrix cm = Ok scaled
    /\ In (SolveCall 4 0 3 scaled)
          (snd (plan_route 10 b64_predicting b64_two_orders [])).
Proof.
  assert (HP : exists cache cm log',
             prepare_cost_matrix b64_predicting b64_two_orders []
             = (Ok (cache, cm), log'))
    by (eexists; eexists; eexists; vm_compute; reflexivity).
  destruct HP as (cache & cm & log' & P).
  destruct (@scaling_succeeds_on_a_valid_request b64_predicting b64_two_orders []
              log' cache cm eq_refl P)
    as (_ & scaled & Hs & Hlog).
  exists cache, cm, log', scaled. split; [exact P|]. split; [exact Hs|].
  rewrite (Hlog 10%nat). apply in_or_app. right. left. reflexivity.
Defined.

(* ================================================================== *)
(** ** The route that is read off the solution *)

Section DecodingFacts.

Variable F : Type.
Context {PF : PyFloat F}.

(** The decoding loop walks the solution from [index] to the first end
    index, and appends the node of every index it passes. *)
Lemma decode_solution_walk routing next_var (cm : list (list F)) :
  forall fuel index acc total route total_cost,
    decode_solution fuel routing next_var cm index acc total = Ok (route, total_cost) ->
    exists steps,
      (steps < fuel)%nat
      /\ route = acc ++ map (fun k => IndexToNode routing (Nat.iter k next_var index))
                            (seq 0 (S steps))
      /\ IsEnd routing (Nat.iter steps next_var index) = true
      /\ forall k, (k < steps)%nat ->
                   IsEnd routing (Nat.iter k next_var index) = false.
Proof.
  induction fuel as [|fuel IH]; intros index acc total route tc H; [discriminate|].
  cbn [decode_solution] in H. destruct (IsEnd routing index) eqn:E.
  - inversion H; subst. exists 0%nat. split; [lia|]. split; [reflexivity|].
    split; [exact E|]. intros k Hk. lia.
  - apply obind_ok_inv in H as (row & _ & H).
    apply obind_ok_inv in H as (c & _ & H).
    apply IH in H as (steps & Hlt & -> & Hend & Hnot).
    exists (S steps). split; [lia|]. split; [|split].
    + rewrite <- app_assoc. f_equal. cbn [app].
      change (seq 0 (S (S steps))) with (0%nat :: seq 1 (S steps)).
      rewrite <- seq_shift. cbn [map]. f_equal. rewrite map_map.
      apply map_ext. intro k. now rewrite Nat.iter_succ_r.
    + now rewrite Nat.iter_succ_r.
    + intros [|k] Hk; [exact E|]. rewrite Nat.iter_succ_r. apply Hnot. lia.
Qed.

End DecodingFacts.

(** X10.  In every float arithmetic.  The route that
    [solve_tsp_with_ortools] returns is the solution of OR-Tools read in
    visiting order: its first entry is the node of [routing.Start(0)], entry
    [k] is the node of the index reached after [k] moves along the
    [NextVar]s, and the route stops at the first end index, whose node is
    its last entry; no index before it is an end index. *)
Theorem route_follows_the_solution :
  forall (F : Type) (PF : PyFloat F) (fuel : nat) (env : Env F)
         (cost_matrix : list (list F)) (n : nat) (s e : Z)
         (log log' : list (Event F)) (route : list Z) (total_cost : F),
    solve_tsp_with_ortools fuel env cost_matrix n s e log
    = (Ok (Some (route, total_cost)), log') ->
    let routing := pywrapcp_routing env n s e in
    exists scaled next_var steps,
      SolveWithParameters env (length log) n s e
        (travel_cost_callback routing scaled) = Some next_var
      /\ (steps < fuel)%nat
      /\ route = map (fun k => IndexToNode routing (index_after routing next_var k))
                     (seq 0 (S steps))
      /\ IsEnd routing (index_after routing next_var steps) = true
      /\ forall k, (k < steps)%nat ->
                   IsEnd routing (index_after routing next_var k) = false.
Proof.
  intros F PF fuel env cm n s e log log' route tc H routing.
  apply solve_tsp_some_inv in H as (scaled & next_var & _ & Hsol & Hd & _).
  fold routing in Hsol, Hd.
  apply decode_solution_walk in Hd as (steps & Hlt & Hroute & Hend & Hnot).
  exists scaled, next_var, steps. auto.
Qed.

(** A three-node matrix and the solution [0 -> 1 -> 2], in binary64. *)
Lemma route_follows_the_solution_witness :
  exists steps,
    fst (solve_tsp_with_ortools 10 b64_steady
           [[0; 0.0015; 0.0015]; [0.0015; 0; 0.0015]; [0.0015; 0.0015; 0]]%float
           3 0 2 [])
    = Ok (Some (map (fun k => index_after (chain_routing 3 0 2) chain_solution k)
                    (seq 0 (S steps)), 0.003%float))
    /\ steps = 2%nat.
Proof.
  destruct (@route_follows_the_solution float Binary64.py_float 10%nat b64_steady
              [[0; 0.0015; 0.0015]; [0.0015; 0; 0.0015]; [0.0015; 0.0015; 0]]%float
              3%nat 0 2 [] [SolveCall 3 0 2 [[0; 1; 1]; [1; 0; 1]; [1; 1; 0]]]
              [0; 1; 2] 0.003%float)
    as (scaled & next_var & steps & Hsol & Hlt & Hroute & Hend & Hnot).
  { vm_compute. reflexivity. }
  exists 2%nat. split; [|reflexivity]. vm_compute. reflexivity.
Defined.

(* ================================================================== *)
(** ** The requests of pass 1, in order *)

Section PassOneOrder.

Variable F : Type.
Context {PF : PyFloat F}.

Lemma pair_events_requests (env : Env F) p q (log : list (Event F)) :
  filter (@is_provider_request F) (pair_events env p q log)
  = [MapboxCall (pair_coords p q) "simplified" false].
Proof. unfold pair_events. destruct (DELIVERY_MODEL env); reflexivity. Qed.

Lemma collect_fold_requests (env : Env F) l :
  forall st (log : list (Event F)),
    exists st' added,
      foldM (collect_step env) l st log = (Ok st', log ++ added)
      /\ filter (@is_provider_request F) added
         = map (@pair_request F) (filter (@off_diagonal F) l).
Proof.
  induction l as [|[[i p] [j q]] l IH]; intros st log.
  - exists st, []. rewrite app_nil_r. split; reflexivity.
  - cbn [foldM filter]. unfold bind at 1. unfold collect_step at 1.
    replace (off_diagonal (i, p, (j, q))) with (negb (Nat.eqb i j)) by reflexivity.
    destruct (Nat.eqb i j); cbn [negb].
    + unfold ret at 1. exact (IH st log).
    + unfold bind at 1. rewrite estimate_pair_log. unfold ret at 1.
      destruct (IH (record_estimate st p q (estimate_of env p q log))
                   (log ++ pair_events env p q log))
        as (st' & added & Hrun & Hreq).
      exists st', (pair_events env p q log ++ added).
      rewrite app_assoc. split; [exact Hrun|].
      rewrite filter_app, pair_events_requests, Hreq. reflexivity.
Qed.

End PassOneOrder.

(** X11.  In every float arithmetic.  Pass 1 asks the routing provider
    about the ordered pairs of distinct points in the order of its two
    nested loops, row by row: the provider requests it adds to the log are,
    in order, one request per pair [(i, j)] with [i <> j], for the two
    coordinates (longitude, latitude) of point [i] and point [j], with the
    simplified overview and without steps; both directions of a pair are
    asked. *)
Theorem pass_one_requests_follow_the_loops :
  forall (F : Type) (PF : PyFloat F) (env : Env F) (points : list (PointDetail F))
         (log log' : list (Event F)) (collected : Collected F),
    collect_estimates env points log = (Ok collected, log') ->
    exists added,
      log' = log ++ added
      /\ filter (@is_provider_request F) added
         = map (@pair_request F) (filter (@off_diagonal F) (index_pairs points)).
Proof.
  intros F PF env points log log' collected H. unfold collect_estimates in H.
  match type of H with
  | foldM _ _ ?st0 _ = _ =>
      destruct (collect_fold_requests env (index_pairs points) st0 log)
        as (st' & added & Hrun & Hreq)
  end.
  rewrite Hrun in H. inversion H; subst. eauto.
Qed.

(** One order, in binary64: the six requests of pass 1. *)
Lemma pass_one_requests_follow_the_loops_witness :
  exists collected added,
    collect_estimates b64_steady (all_points_details b64_steady b64_one_order) []
    = (Ok collected, added)
    /\ filter (@is_provider_request float) added
       = [ MapboxCall [(107, 11); (108, 12)]%float "simplified" false;
           MapboxCall [(107, 11); (106, 10)]%float "simplified" false;
           MapboxCall [(108, 12); (107, 11)]%float "simplified" false;
           MapboxCall [(108, 12); (106, 10)]%float "simplified" false;
           MapboxCall [(106, 10); (107, 11)]%float "simplified" false;
           MapboxCall [(106, 10); (108, 12)]%float "simplified" false ].
Proof.
  destruct (collect_estimates b64_steady
              (all_points_details b64_steady b64_one_order) [])
    as [[collected| | |] log'] eqn:E; try (vm_compute in E; discriminate).
  destruct (@pass_one_requests_follow_the_loops float Binary64.py_float b64_steady
              (all_points_details b64_steady b64_one_order) [] log' collected E)
    as (added & -> & Hreq).
  exists collected, added. split; [reflexivity|]. rewrite Hreq. reflexivity.
Defined.

(* ================================================================== *)
(** ** [get_mapbox_route_data]: what becomes of a failed request *)

Section HttpFacts2.

Variable F : Type.
Context {PF : PyFloat F}.

(** Reading the answer raises nothing that is not an [Exception]. *)
Lemma first_route_raises (data : Http.Json F) c name :
  Http.first_route data = Raised c name -> is_exception c = true.
Proof.
  unfold Http.first_route. destruct (Http.truthy data); [|discriminate].
  destruct data; simpl; try (intro H; inversion H; reflexivity).
  destruct (Http.truthy _); [|discriminate].
  destruct (match Http.lookup "routes" items with Some v => v | None => Http.JNull end)
    as [|b|n|x|s|l|d]; simpl; try (intro H; inversion H; reflexivity).
  - destruct s; intro H; inversion H; reflexivity.
  - destruct l; intro H; inversion H; reflexivity.
Qed.


End HttpFacts2.

(** X12.  In every float arithmetic, and for every behaviour of
    [requests].  [get_mapbox_route_data] lets no [Exception] escape: the
    only exception it can raise is one that is not an [Exception] (a
    [KeyboardInterrupt], say), raised by the request or by the decoding of
    the body.  It returns [None], without making a request, for an empty
    coordinate list; it returns [None] when the request raises a timeout or
    any other [Exception], and when the answer has a status from 400 to
    599, whatever its body. *)
Theorem request_failures_become_none :
  forall (F : Type) (PF : PyFloat F)
         (requests_get : string -> list (string * string) -> attempt (Http.Response F))
         (format_float : F -> string) (token : string),
    (forall profile geometries overview steps,
        Http.get_mapbox_route_data requests_get format_float token []
          profile geometries overview steps = Returned None)
    /\ (forall coords profile geometries overview steps c name,
           Http.get_mapbox_route_data requests_get format_float token coords
             profile geometries overview steps = Raised c name ->
           c = BaseExceptionClass
           /\ (requests_get (Http.request_url format_float profile coords)
                 (Http.request_params token geometries overview steps)
               = Raised c name
               \/ exists response,
                   requests_get (Http.request_url format_float profile coords)
                     (Http.request_params token geometries overview steps)
                   = Returned response
                   /\ Http.json response = Raised c name))
    /\ (forall coords profile geometries overview steps c name,
           requests_get (Http.request_url format_float profile coords)
             (Http.request_params token geometries overview steps)
           = Raised c name ->
           is_exception c = true ->
           Http.get_mapbox_route_data requests_get format_float token coords
             profile geometries overview steps = Returned None)
    /\ (forall coords profile geometries overview steps response,
           requests_get (Http.request_url format_float profile coords)
             (Http.request_params token geometries overview steps)
           = Returned response ->
           400 <= Http.status_code response < 600 ->
           Http.get_mapbox_route_data requests_get format_float token coords
             profile geometries overview steps = Returned None).
Proof.
  intros F PF requests_get format_float token.
  split; [reflexivity|]. split; [|split].
  - intros coords profile geometries overview steps c name H.
    unfold Http.get_mapbox_route_data in H.
    destruct coords as [|xy coords]; [discriminate|].
    unfold Http.try_request in H.
    destruct (requests_get _ _) as [response|c0 name0] eqn:R; cbn [abind] in H.
    + unfold Http.raise_for_status in H.
      destruct ((400 <=? _) && (_ <? 600)); cbn [abind] in H; [discriminate|].
      destruct (Http.json response) as [data|c1 name1] eqn:J; cbn [abind] in H.
      * destruct (Http.first_route data) as [r|c2 name2] eqn:E; [discriminate|].
        apply first_route_raises in E. rewrite E in H. discriminate.
      * destruct c1; try discriminate. inversion H; subst. eauto.
    + destruct c0; try discriminate. inversion H; subst. auto.
  - intros coords profile geometries overview steps c name R Hc.
    unfold Http.get_mapbox_route_data, Http.try_request.
    destruct coords; [reflexivity|]. rewrite R. cbn [abind]. now rewrite Hc.
  - intros coords profile geometries overview steps response R Hs.
    unfold Http.get_mapbox_route_data, Http.try_request, Http.raise_for_status.
    destruct coords; [reflexivity|]. rewrite R. cbn [abind].
    replace (400 <=? Http.status_code response) with true
      by (symmetry; apply Z.leb_le; lia).
    replace (Http.status_code response <? 600) with true
      by (symmetry; apply Z.ltb_lt; lia).
    reflexivity.
Qed.

(** In binary64: a request interrupted from the keyboard is the exception
    that escapes, and an answer with the status 404 gives [None] although
    its body holds a route. *)
Lemma request_failures_become_none_witness :
  Http.get_mapbox_route_data b64_interrupted (fun _ => "0"%string) "token"
    [(107, 11); (108, 12)]%float "driving" "polyline" "simplified" false
  = Raised BaseExceptionClass "KeyboardInterrupt"
  /\ Http.get_mapbox_route_data (b64_answer 404) (fun _ => "0"%string) "token"
       [(107, 11); (108, 12)]%float "driving" "polyline" "simplified" false
     = Returned None.
Proof.
  split; [reflexivity|].
  eapply (proj2 (proj2 (proj2 (@request_failures_become_none float Binary64.py_float
            (b64_answer 404) (fun _ => "0"%string) "token"%string)))).
  - reflexivity.
  - simpl. lia.
Defined.



(* ================================================================== *)
(** ** Start-up: the token, the warehouse and the model *)

Lemma load_model_inv (host : Startup.Host) (path : string) :
  match Startup.load_model host path with
  | Returned (Some model) =>
      Startup.path_exists host path = Returned true
      /\ Startup.joblib_load host path = Returned model
  | Returned None =>
      Startup.path_exists host path = Returned false
      \/ (exists c name, Startup.path_exists host path = Raised c name
                         /\ is_exception c = true)
      \/ (Startup.path_exists host path = Returned true
          /\ exists c name, Startup.joblib_load host path = Raised c name
                            /\ is_exception c = true)
  | Raised c name =>
      is_exception c = false
      /\ (Startup.path_exists host path = Raised c name
          \/ (Startup.path_exists host path = Returned true
              /\ Startup.joblib_load host path = Raised c name))
  end.
Proof.
  unfold Startup.load_model.
  destruct (Startup.path_exists host path) as [[|]|c name]; cbn [abind].
  - destruct (Startup.joblib_load host path) as [model|c name]; cbn [abind]; [auto|].
    destruct (is_exception c) eqn:E; [|auto]. right. right. eauto 6.
  - auto.
  - destruct (is_exception c) eqn:E; [|auto]. right. left. eauto.
Qed.

(** X14.  The module refuses to start without the access token, and it
    reads each coordinate of the default warehouse on its own.  When
    [MAPBOX_ACCESS_TOKEN] is unset or empty, start-up raises [ValueError],
    whatever else is configured.  When a warehouse variable is set to a
    text that [float()] rejects, start-up raises [ValueError].  When
    start-up succeeds, the token of the configuration is the non-empty one
    of the environment, and each coordinate of the default warehouse is the
    number of its variable when the variable is set, and otherwise its
    built-in default: 10.8453773 for the latitude, 106.794445 for the
    longitude. *)
Theorem startup_needs_token_and_numbers :
  forall host : Startup.Host,
    (Startup.getenv host "MAPBOX_ACCESS_TOKEN" = None
     \/ Startup.getenv host "MAPBOX_ACCESS_TOKEN" = Some EmptyString ->
     Startup.startup host = Raised ExceptionClass_ "ValueError")
    /\ (forall c rest key text,
           Startup.getenv host "MAPBOX_ACCESS_TOKEN" = Some (String c rest) ->
           key = "WAREHOUSE_LATITUDE"%string \/ key = "WAREHOUSE_LONGITUDE"%string ->
           Startup.getenv host key = Some text ->
           Startup.float_of_str host text = None ->
           Startup.startup host = Raised ExceptionClass_ "ValueError")
    /\ (forall config,
           Startup.startup host = Returned config ->
           Startup.getenv host "MAPBOX_ACCESS_TOKEN"
           = Some (Startup.MAPBOX_ACCESS_TOKEN config)
           /\ Startup.MAPBOX_ACCESS_TOKEN config <> EmptyString
           /\ match Startup.getenv host "WAREHOUSE_LATITUDE" with
              | Some text =>
                  Startup.float_of_str host text
                  = Some (fst (Startup.WAREHOUSE_COORDS config))
              | None => fst (Startup.WAREHOUSE_COORDS config) = 10.8453773%float
              end
           /\ match Startup.getenv host "WAREHOUSE_LONGITUDE" with
              | Some text =>
                  Startup.float_of_str host text
                  = Some (snd (Startup.WAREHOUSE_COORDS config))
              | None => snd (Startup.WAREHOUSE_COORDS config) = 106.794445%float
              end).
Proof.
  intro host. unfold Startup.startup, Startup.getenv_float.
  split; [|split].
  - intros [-> | ->]; reflexivity.
  - intros c rest key text -> Hkey Hget Hbad.
    destruct Hkey as [-> | ->].
    + rewrite Hget, Hbad. reflexivity.
    + rewrite Hget, Hbad.
      destruct (Startup.getenv host "WAREHOUSE_LATITUDE") as [t|]; [|reflexivity].
      destruct (Startup.float_of_str host t); reflexivity.
  - intros config H.
    destruct (Startup.getenv host "MAPBOX_ACCESS_TOKEN") as [[|c rest]|];
      try discriminate.
    destruct (Startup.getenv host "WAREHOUSE_LATITUDE") as [t1|];
      [destruct (Startup.float_of_str host t1) as [x1|]; [|discriminate]|];
      (destruct (Startup.getenv host "WAREHOUSE_LONGITUDE") as [t2|];
       [destruct (Startup.float_of_str host t2) as [x2|]; [|discriminate]|]);
      cbn [abind] in H;
      (destruct (Startup.load_model host _) as [model|c1 n1]; [|discriminate]);
      cbn [abind] in H; inversion H; subst config; simpl;
      repeat split; try reflexivity; discriminate.
Qed.

(** No token: [ValueError].  A token and nothing else: the default
    warehouse. *)
Lemma startup_needs_token_and_numbers_witness :
  Startup.startup host_without_token = Raised ExceptionClass_ "ValueError"
  /\ exists config,
      Startup.startup host_without_model = Returned config
      /\ Startup.WAREHOUSE_COORDS config = (10.8453773, 106.794445)%float.
Proof.
  destruct (startup_needs_token_and_numbers host_without_token) as (H1 & _).
  split; [apply H1; left; reflexivity|].
  destruct (Startup.startup host_without_model) as [config|c name] eqn:E;
    [|vm_compute in E; discriminate].
  destruct (startup_needs_token_and_numbers host_without_model) as (_ & _ & H3).
  destruct (H3 config E) as (_ & _ & Hlat & Hlon). simpl in Hlat, Hlon.
  exists config. split; [reflexivity|].
  destruct (Startup.WAREHOUSE_COORDS config) as [la lo]. simpl in *. congruence.
Defined.

(** X15.  A model that cannot be loaded does not stop the service; it
    turns the predictions off.  Start-up lets no [Exception] of
    [os.path.exists] or [joblib.load] escape, and [DELIVERY_MODEL] is a
    model exactly when the file exists and [joblib.load] returned it; when
    the file is missing, or one of the two calls raised an [Exception],
    [DELIVERY_MODEL] is [None], and the endpoint of the service so started
    answers every request without a single prediction. *)
Theorem unloadable_model_turns_predictions_off :
  forall (host : Startup.Host) (config : Startup.Config),
    Startup.startup host = Returned config ->
    (forall model,
        Startup.DELIVERY_MODEL config = Some model <->
        Startup.path_exists host (Startup.MODEL_PATH config) = Returned true
        /\ Startup.joblib_load host (Startup.MODEL_PATH config) = Returned model)
    /\ (Startup.DELIVERY_MODEL config = None ->
        forall (env : Env float) (fuel : nat) (request : OptimizeRouteRequest float)
               (log log' : list (Event float)) (resp : OptimizedRouteResponse float),
          optimize_delivery_route fuel (Startup.configured config env) request log
          = (Ok resp, log') ->
          exists added,
            log' = log ++ added
            /\ count_calls (@is_prediction float) added = 0%nat).
Proof.
  intros host config H. split.
  - intro model. unfold Startup.startup in H.
    destruct (Startup.getenv host "MAPBOX_ACCESS_TOKEN") as [[|c rest]|];
      try discriminate.
    destruct (Startup.getenv_float host "WAREHOUSE_LATITUDE" _) as [la|c1 n1];
      [|discriminate].
    destruct (Startup.getenv_float host "WAREHOUSE_LONGITUDE" _) as [lo|c2 n2];
      [|discriminate].
    cbn [abind] in H.
    set (path := dict_get (Startup.getenv host "DELIVERY_MODEL_PATH") _) in *.
    pose proof (load_model_inv host path) as Hm.
    destruct (Startup.load_model host path) as [m|c3 n3]; [|discriminate].
    cbn [abind] in H. inversion H; subst config. clear H.
    cbn [Startup.DELIVERY_MODEL Startup.MODEL_PATH].
    destruct m as [m|].
    + destruct Hm as [He Hl]. split.
      * intro E. inversion E; subst. auto.
      * intros [_ Hl']. rewrite Hl in Hl'. inversion Hl'. reflexivity.
    + split; [discriminate|]. intros [He Hl].
      destruct Hm as [Hm|[(c0 & name & Hm & _)|(_ & c0 & name & Hm & _)]];
        congruence.
  - intros Hnone env fuel request log log' resp Hrun.
    apply optimize_ok_inv in Hrun as (cache & route & total & log1 & Hplan & Hasm).
    apply plan_route_ok_log in Hplan
      as (pass1 & cm & scaled & _ & _ & -> & _ & Hp & _).
    apply assemble_response_run in Hasm as [-> _];
      [|rewrite all_points_length; lia].
    unfold predictions_per_pair, Startup.configured in Hp. simpl in Hp.
    rewrite Hnone in Hp.
    eexists. split; [rewrite <- !app_assoc; reflexivity|].
    rewrite !count_calls_app, Hp. reflexivity.
Qed.

(** A model file that exists and fails to load: the service starts without
    a predictor, and a request for one order is answered without a
    prediction. *)
Lemma unloadable_model_turns_predictions_off_witness :
  exists config resp log',
    Startup.startup host_with_broken_model = Returned config
    /\ Startup.DELIVERY_MODEL config = None
    /\ optimize_delivery_route 10 (Startup.configured config b64_predicting)
         b64_one_order [] = (Ok resp, log')
    /\ count_calls (@is_prediction float) log' = 0%nat.
Proof.
  destruct (Startup.startup host_with_broken_model) as [config|c name] eqn:E;
    [|vm_compute in E; discriminate].
  assert (Hnone : Startup.DELIVERY_MODEL config = None)
    by (vm_compute in E; inversion E; reflexivity).
  destruct (optimize_delivery_route 10 (Startup.configured config b64_predicting)
              b64_one_order []) as [[resp| | |] log'] eqn:R.
  - destruct (@unloadable_model_turns_predictions_off host_with_broken_model config E)
      as [_ Hoff].
    destruct (Hoff Hnone b64_predicting 10%nat b64_one_order [] log' resp R)
      as (added & -> & Hcount).
    exists config, resp, added. auto.
  - exfalso. vm_compute in E. inversion E; subst config. vm_compute in R. discriminate.
  - exfalso. vm_compute in E. inversion E; subst config. vm_compute in R. discriminate.
  - exfalso. vm_compute in E. inversion E; subst config. vm_compute in R. discriminate.
Defined.
